(** * anim4dc: vertex-animation baking, playback and LOD

    A shallow embedding of [include/anim4dc.h] (the header-only
    implementation section) and the properties its specification states
    about it.

    Conventions of the embedding
    - C [int] is [Z]; where the source does arithmetic that can leave the
      32-bit range the wrap-around is written with [int32] / [uint32].
    - C [float] is IEEE-754 binary32, round to nearest even: the Standard
      Library's [spec_float] at precision 24 and maximal exponent 128.
    - A pointer that the code only tests against [NULL] or dereferences as
      one owned block is an [option]: [None] is [NULL].
    - The fixed-size arrays of the structures are lists indexed with
      stdpp's lookup and insert.
    - The two file-scope globals [anim4dc] and [anim4dc_stats], together
      with a count of the [malloc] calls made so far, form the [World].
      A function that touches only one of the globals is a function of
      that global; [Anim4dcInit], [Anim4dcShutdown] and
      [Anim4dcBakeVertexAnimations] thread the whole [World].
    - [printf] diagnostics go to an external sink and are not modelled;
      neither is the bookkeeping of freed blocks. *)

From Stdlib Require Import ZArith Lia Bool String.
From Stdlib Require Import Floats.SpecFloat.
From stdpp Require Import base list.

Open Scope Z_scope.

(** ** Machine integers *)

Definition uint32 (z : Z) : Z := z mod 2 ^ 32.
Definition int32 (z : Z) : Z := (z + 2 ^ 31) mod 2 ^ 32 - 2 ^ 31.
Definition INT_MAX : Z := 2 ^ 31 - 1.

(** ** Single-precision floats *)

Definition float : Type := spec_float.
Definition fprec : Z := 24.
Definition femax : Z := 128.

Definition fadd : float -> float -> float := SFadd fprec femax.
Definition fsub : float -> float -> float := SFsub fprec femax.
Definition fmul : float -> float -> float := SFmul fprec femax.
Definition fdiv : float -> float -> float := SFdiv fprec femax.
(** [fltb a b] is the C test [a < b], [fleb a b] is [a <= b]; both are
    false as soon as one side is a NaN. *)
Definition fltb : float -> float -> bool := SFltb.
Definition fleb : float -> float -> bool := SFleb.
Definition feqb : float -> float -> bool := SFeqb.

(** The conversion [(float)n] of an [int]. *)
Definition float_of_int (n : Z) : float := binary_normalize fprec femax n 0 false.

Definition f0 : float := S754_zero false.                       (* 0.0f *)
Definition f1 : float := Eval vm_compute in float_of_int 1.     (* 1.0f *)
Definition f20 : float := Eval vm_compute in float_of_int 20.   (* 20.0f *)

Definition is_nan (x : float) : bool :=
  match x with S754_nan => true | _ => false end.

(** A number that is neither a NaN nor an infinity. *)
Definition is_finite (x : float) : bool :=
  match x with S754_zero _ | S754_finite _ _ _ => true | _ => false end.

Definition is_zero (x : float) : bool :=
  match x with S754_zero _ => true | _ => false end.

(** A well-formed binary32 datum: the mantissa/exponent pair is the
    canonical one of the format. *)
Definition valid_float (x : float) : bool := valid_binary fprec femax x.

Global Instance float_inhabited : Inhabited float := populate f0.

(** ** Constants of the header *)

Definition ANIM4DC_MAX_KEYFRAMES : Z := 20.
Definition ANIM4DC_MAX_ANIMATIONS : Z := 8.
Definition ANIM4DC_MAX_NAME_LENGTH : Z := 32.

Definition ANIM4DC_LOD_NEAR_DIST2 : float := fmul (float_of_int 80) (float_of_int 80).
Definition ANIM4DC_LOD_MID_DIST2 : float := fmul (float_of_int 120) (float_of_int 120).
Definition ANIM4DC_LOD_FAR_DIST2 : float := fmul (float_of_int 160) (float_of_int 160).
Definition ANIM4DC_LOD_CULL_DIST2 : float := fmul (float_of_int 200) (float_of_int 200).

Definition sizeof_float : Z := 4.

(** ** Types of the header *)

Inductive Anim4dcLodLevel : Type :=
| ANIM4DC_LOD_NEAR
| ANIM4DC_LOD_MID
| ANIM4DC_LOD_FAR
| ANIM4DC_LOD_FROZEN
| ANIM4DC_LOD_CULLED.

Record Anim4dcVertexKeyframe : Type := mkKeyframe {
  vertices : option (list float);
  kf_vertexCount : Z;
  timestamp : float
}.

Record Anim4dcVertexAnimation : Type := mkAnimation {
  name : string;
  keyframes : list Anim4dcVertexKeyframe;
  keyframeCount : Z;
  duration : float;
  looping : bool
}.

Record Anim4dcAnimationSystem : Type := mkSystem {
  animations : list Anim4dcVertexAnimation;
  animationCount : Z;
  currentAnimation : Z;
  currentTime : float;
  interpolationBuffer : option (list float);
  vertexCount : Z;
  initialized : bool
}.

Record Vector3 : Type := mkVector3 { vx : float; vy : float; vz : float }.

Record Anim4dcModelInstance : Type := mkInstance {
  position : Vector3;
  rotation : Vector3;
  scale : float;
  animationIndex : Z;
  animationTime : float;
  lodLevel : Anim4dcLodLevel;
  visible : bool;
  distanceSquared : float
}.

Record Anim4dcStats : Type := mkStats {
  visibleInstances : Z;
  culledInstances : Z;
  animationUpdates : Z;
  averageFPS : float;
  memoryUsageKB : Z
}.

(** ** raymath helpers used by the LOD pass

    [Vector3Subtract] and [Vector3LengthSqr] come from raylib's
    [raymath.h], which is a dependency and not part of this repository;
    they are the component-wise difference and the sum of squares. *)

Definition Vector3Subtract (v1 v2 : Vector3) : Vector3 :=
  mkVector3 (fsub (vx v1) (vx v2)) (fsub (vy v1) (vy v2)) (fsub (vz v1) (vz v2)).

Definition Vector3LengthSqr (v : Vector3) : float :=
  fadd (fadd (fmul (vx v) (vx v)) (fmul (vy v) (vy v))) (fmul (vz v) (vz v)).

(** ** LOD classification: [Anim4dcUpdateInstanceLOD] *)

(** The tier and visibility chosen by the [if]/[else if] chain for a
    squared distance. *)
Definition lod_of_distance (d2 : float) : Anim4dcLodLevel * bool :=
  if fltb ANIM4DC_LOD_CULL_DIST2 d2 then (ANIM4DC_LOD_CULLED, false)
  else if fltb ANIM4DC_LOD_FAR_DIST2 d2 then (ANIM4DC_LOD_FAR, true)
  else if fltb ANIM4DC_LOD_MID_DIST2 d2 then (ANIM4DC_LOD_MID, true)
  else (ANIM4DC_LOD_NEAR, true).

Definition set_lod (inst : Anim4dcModelInstance) (d2 : float)
    (lod : Anim4dcLodLevel) (vis : bool) : Anim4dcModelInstance :=
  mkInstance (position inst) (rotation inst) (scale inst) (animationIndex inst)
             (animationTime inst) lod vis d2.

Definition count_instance (st : Anim4dcStats) (vis : bool) : Anim4dcStats :=
  if vis
  then mkStats (visibleInstances st + 1) (culledInstances st)
               (animationUpdates st) (averageFPS st) (memoryUsageKB st)
  else mkStats (visibleInstances st) (culledInstances st + 1)
               (animationUpdates st) (averageFPS st) (memoryUsageKB st).

(** One iteration of the loop over the instances. *)
Definition lod_step (cameraPosition : Vector3) (inst : Anim4dcModelInstance)
    (st : Anim4dcStats) : Anim4dcModelInstance * Anim4dcStats :=
  let diff := Vector3Subtract (position inst) cameraPosition in
  let d2 := Vector3LengthSqr diff in
  let '(lod, vis) := lod_of_distance d2 in
  (set_lod inst d2 lod vis, count_instance st vis).

(** The loop [for (i = 0; i < instanceCount; i++)], with [n] iterations
    left.  Indexing past the end of the caller's array is undefined in C;
    the model stops the loop there. *)
Fixpoint lod_loop (n : nat) (i : nat) (cameraPosition : Vector3)
    (instances : list Anim4dcModelInstance) (st : Anim4dcStats)
    : list Anim4dcModelInstance * Anim4dcStats :=
  match n with
  | O => (instances, st)
  | S n' =>
      match instances !! i with
      | None => (instances, st)
      | Some inst =>
          let '(inst', st') := lod_step cameraPosition inst st in
          lod_loop n' (S i) cameraPosition (<[i := inst']> instances) st'
      end
  end.

Definition Anim4dcUpdateInstanceLOD (instances : list Anim4dcModelInstance)
    (instanceCount : Z) (cameraPosition : Vector3) (st : Anim4dcStats)
    : list Anim4dcModelInstance * Anim4dcStats :=
  let st0 := mkStats 0 0 (animationUpdates st) (averageFPS st) (memoryUsageKB st) in
  lod_loop (Z.to_nat instanceCount) 0 cameraPosition instances st0.

Definition Anim4dcGetStats (st : Anim4dcStats) : Anim4dcStats := st.

(** ** The zeroed structures ([memset] to 0, or static [{ 0 }]) *)

Definition zero_keyframe : Anim4dcVertexKeyframe := mkKeyframe None 0 f0.

Definition zero_animation : Anim4dcVertexAnimation :=
  mkAnimation EmptyString
              (replicate (Z.to_nat ANIM4DC_MAX_KEYFRAMES) zero_keyframe) 0 f0 false.

Definition zero_system : Anim4dcAnimationSystem :=
  mkSystem (replicate (Z.to_nat ANIM4DC_MAX_ANIMATIONS) zero_animation)
           0 0 f0 None 0 false.

Definition zero_stats : Anim4dcStats := mkStats 0 0 0 f0 0.

Global Instance keyframe_inhabited : Inhabited Anim4dcVertexKeyframe :=
  populate zero_keyframe.
Global Instance animation_inhabited : Inhabited Anim4dcVertexAnimation :=
  populate zero_animation.

(** ** raylib's model and skeletal animation, as far as the code reads them

    [blob] stands for data behind a pointer that the code only compares
    with [NULL]. *)

Definition blob : Type := unit.

Record Mesh : Type := mkMesh {
  mesh_vertexCount : Z;
  animVertices : option (list float);
  boneIds : option blob;
  boneWeights : option blob
}.

Record Model : Type := mkModel {
  meshCount : Z;
  meshes : list Mesh;
  boneCount : Z;
  bones : option blob;
  bindPose : option blob
}.

Record ModelAnimation : Type := mkModelAnimation {
  anim_boneCount : Z;
  frameCount : Z;
  anim_bones : option blob;
  framePoses : option blob
}.

Global Instance mesh_inhabited : Inhabited Mesh := populate (mkMesh 0 None None None).
Global Instance model_animation_inhabited : Inhabited ModelAnimation :=
  populate (mkModelAnimation 0 0 None None).

Definition is_null {A : Type} (p : option A) : bool :=
  match p with None => true | Some _ => false end.

(** ** The environment of the library

    [malloc_ok k] tells whether the [k]-th call to [malloc] of the run
    returns a block.  [UpdateModelAnimation] is raylib's skeletal pose
    evaluator: the model is passed by value but shares its mesh storage,
    so the result is the model as the caller sees it afterwards.  [fmod]
    is the C library's floating remainder, with its result converted
    back to [float]. *)

Record Env : Type := mkEnv {
  malloc_ok : nat -> bool;
  UpdateModelAnimation : Model -> ModelAnimation -> Z -> Model;
  fmod : float -> float -> float
}.

Record World : Type := mkWorld {
  anim4dc : Anim4dcAnimationSystem;
  anim4dc_stats : Anim4dcStats;
  allocs : nat
}.

(** ** Internal helpers *)

Definition lerp (a b t : float) : float := fadd a (fmul (fsub b a) t).

(** The loop of [Anim4dcInterpolateVertices]:
    [output[i] = vertices1[i] + (vertices2[i] - vertices1[i]) * t]
    for [i] from the current index, [n] iterations left.  Reading a
    source buffer past its end is undefined in C and reads [0.0f] here;
    writing past the end of [output] is undefined in C and does nothing
    here. *)
Fixpoint interpolate_loop (n : nat) (i : nat) (output vertices1 vertices2 : list float)
    (t : float) : list float :=
  match n with
  | O => output
  | S n' =>
      interpolate_loop n' (S i)
        (<[i := lerp (vertices1 !!! i) (vertices2 !!! i) t]> output)
        vertices1 vertices2 t
  end.

Definition Anim4dcInterpolateVertices (output vertices1 vertices2 : list float)
    (t : float) (vertexCount : Z) : list float :=
  interpolate_loop (Z.to_nat (vertexCount * 3)) 0 output vertices1 vertices2 t.

Definition set_keyframes (animation : Anim4dcVertexAnimation)
    (kfs : list Anim4dcVertexKeyframe) (count : Z) : Anim4dcVertexAnimation :=
  mkAnimation (name animation) kfs count (duration animation) (looping animation).

(** [Anim4dcCaptureVertexKeyframe]: returns the clip and the number of
    [malloc] calls made so far.  [memcpy] copies [vertexCount * 3]
    floats.  When [malloc] fails the slot's pointer has been overwritten
    with [NULL] and the count is not advanced. *)
Definition Anim4dcCaptureVertexKeyframe (env : Env)
    (animation : Anim4dcVertexAnimation) (tstamp : float)
    (vertexData : list float) (vertexCount : Z) (nalloc : nat)
    : Anim4dcVertexAnimation * nat :=
  if ANIM4DC_MAX_KEYFRAMES <=? keyframeCount animation then (animation, nalloc)
  else
    let slot := Z.to_nat (keyframeCount animation) in
    let keyframe := keyframes animation !!! slot in
    if malloc_ok env nalloc then
      let keyframe' :=
        mkKeyframe (Some (take (Z.to_nat (vertexCount * 3)) vertexData))
                   vertexCount tstamp in
      (set_keyframes animation (<[slot := keyframe']> (keyframes animation))
                     (keyframeCount animation + 1),
       S nalloc)
    else
      let keyframe' :=
        mkKeyframe None (kf_vertexCount keyframe) (timestamp keyframe) in
      (set_keyframes animation (<[slot := keyframe']> (keyframes animation))
                     (keyframeCount animation),
       S nalloc).

(** ** Core functions *)

Definition Anim4dcInit (w : World) : bool * World :=
  let s := mkSystem (animations zero_system) 0 (-1) f0 None 0 true in
  (true, mkWorld s zero_stats (allocs w)).

(** [Anim4dcShutdown] frees every counted keyframe and the interpolation
    buffer, then zeroes the state; the model keeps no record of freed
    blocks. *)
Definition Anim4dcShutdown (w : World) : World :=
  if negb (initialized (anim4dc w)) then w
  else mkWorld zero_system (anim4dc_stats w) (allocs w).

Definition has_skin (mesh : Mesh) : bool :=
  negb (is_null (boneIds mesh)) && negb (is_null (boneWeights mesh))
  && negb (is_null (animVertices mesh)).

(** The search [for (i = 0; i < model.meshCount; i++)] for a mesh with
    skinning data, leaving at the first hit. *)
Fixpoint skinning_loop (n : nat) (i : nat) (ms : list Mesh) : bool :=
  match n with
  | O => false
  | S n' => if has_skin (ms !!! i) then true else skinning_loop n' (S i) ms
  end.

Definition Anim4dcCheckModelCompatibility (model : Model)
    (anims : list ModelAnimation) (animCount : Z) : bool :=
  if meshCount model <=? 0 then false
  else if animCount <=? 0 then false
  else if boneCount model <=? 0 then false
  else if is_null (bones model) || is_null (bindPose model) then false
  else
    let anim := anims !!! 0%nat in
    if negb (anim_boneCount anim =? boneCount model) then false
    else if is_null (anim_bones anim) || is_null (framePoses anim) then false
    else
      let hasSkinning := skinning_loop (Z.to_nat (meshCount model)) 0 (meshes model) in
      if negb hasSkinning then false else true.

(** [Anim4dcCalculateMemoryUsage].  [totalMemory += n * 3 * sizeof(float)]
    multiplies in [int], converts to the 32-bit [size_t] of the target,
    adds there and converts the sum back to [int]. *)
Definition add_bytes (totalMemory count : Z) : Z :=
  int32 (uint32 totalMemory + uint32 (uint32 (int32 (count * 3)) * sizeof_float)).

Fixpoint keyframe_bytes_loop (n : nat) (k : nat) (kfs : list Anim4dcVertexKeyframe)
    (totalMemory : Z) : Z :=
  match n with
  | O => totalMemory
  | S n' =>
      let kf := kfs !!! k in
      keyframe_bytes_loop n' (S k) kfs
        (if is_null (vertices kf) then totalMemory
         else add_bytes totalMemory (kf_vertexCount kf))
  end.

Fixpoint animation_bytes_loop (n : nat) (a : nat) (anims : list Anim4dcVertexAnimation)
    (totalMemory : Z) : Z :=
  match n with
  | O => totalMemory
  | S n' =>
      let anim := anims !!! a in
      animation_bytes_loop n' (S a) anims
        (keyframe_bytes_loop (Z.to_nat (keyframeCount anim)) 0 (keyframes anim) totalMemory)
  end.

(** The value of [totalMemory] just before the final division. *)
Definition total_memory_bytes (s : Anim4dcAnimationSystem) : Z :=
  let keyframeMemory :=
    animation_bytes_loop (Z.to_nat (animationCount s)) 0 (animations s) 0 in
  if is_null (interpolationBuffer s) then keyframeMemory
  else add_bytes keyframeMemory (vertexCount s).

Definition Anim4dcCalculateMemoryUsage (s : Anim4dcAnimationSystem) : Z :=
  Z.quot (total_memory_bytes s) 1024.

(** ** Baking: [Anim4dcBakeVertexAnimations] *)

Global Instance string_inhabited : Inhabited string := populate EmptyString.

Definition animNames : list string :=
  ["Survey"; "Walk"; "Run"; "Jump"; "Idle"; "Attack"; "Death"; "Custom"]%string.

(** [snprintf(dst, size, "%s", src)]: at most [size - 1] characters. *)
Definition snprintf_s (size : Z) (src : string) : string :=
  substring 0 (Z.to_nat (size - 1)) src.

Definition keyframeStep_of (frames : Z) : Z := if 40 <? frames then 8 else 4.

(** The sampling loop
    [for (frame = 0; frame < skelAnim.frameCount; frame += keyframeStep)]
    with [fuel] iterations left.  It returns the model as the pose
    evaluator left it, the clip, and the number of [malloc] calls.  An
    overflow of [frame += keyframeStep] is undefined in C and wraps
    here; it needs a [frameCount] within 8 of [INT_MAX]. *)
Fixpoint sample_loop (env : Env) (fuel : nat) (frame keyframeStep : Z)
    (skelAnim : ModelAnimation) (model : Model)
    (vertAnim : Anim4dcVertexAnimation) (vertexCount : Z) (nalloc : nat)
    : Model * Anim4dcVertexAnimation * nat :=
  match fuel with
  | O => (model, vertAnim, nalloc)
  | S fuel' =>
      if frame <? frameCount skelAnim then
        let model' := UpdateModelAnimation env model skelAnim frame in
        let '(vertAnim', nalloc') :=
          match animVertices (meshes model' !!! 0%nat) with
          | Some vertexData =>
              let tstamp := fdiv (float_of_int frame) f20 in
              Anim4dcCaptureVertexKeyframe env vertAnim tstamp vertexData
                                           vertexCount nalloc
          | None => (vertAnim, nalloc)
          end in
        sample_loop env fuel' (int32 (frame + keyframeStep)) keyframeStep
                    skelAnim model' vertAnim' vertexCount nalloc'
      else (model, vertAnim, nalloc)
  end.

(** The body of the loop over the clips, for clip number [a]: set the
    clip up in place, then sample it.  A loop that starts at frame 0 and
    advances by at least 4 leaves by its own test within [frameCount]
    iterations, which is the fuel given to it. *)
Definition bake_clip (env : Env) (a : nat) (skelAnim : ModelAnimation)
    (model : Model) (vertAnim : Anim4dcVertexAnimation) (vertexCount : Z)
    (nalloc : nat) : Model * Anim4dcVertexAnimation * nat :=
  let clipName :=
    snprintf_s ANIM4DC_MAX_NAME_LENGTH
      (if Z.of_nat a <? 8 then animNames !!! a else "Unknown"%string) in
  let vertAnim0 :=
    mkAnimation clipName (keyframes vertAnim) 0
                (fdiv (float_of_int (frameCount skelAnim)) f20) true in
  let keyframeStep := keyframeStep_of (frameCount skelAnim) in
  sample_loop env (Z.to_nat (frameCount skelAnim)) 0 keyframeStep
              skelAnim model vertAnim0 vertexCount nalloc.

(** The loop [for (a = 0; a < animsToBake; a++)] with [n] iterations
    left, writing each clip into [anim4dc.animations[a]]. *)
Fixpoint bake_loop (env : Env) (n : nat) (a : nat) (anims : list ModelAnimation)
    (model : Model) (clips : list Anim4dcVertexAnimation) (vertexCount : Z)
    (nalloc : nat) : Model * list Anim4dcVertexAnimation * nat :=
  match n with
  | O => (model, clips, nalloc)
  | S n' =>
      let '(model', vertAnim, nalloc') :=
        bake_clip env a (anims !!! a) model (clips !!! a) vertexCount nalloc in
      bake_loop env n' (S a) anims model' (<[a := vertAnim]> clips)
                vertexCount nalloc'
  end.

Definition set_memoryUsageKB (st : Anim4dcStats) (kb : Z) : Anim4dcStats :=
  mkStats (visibleInstances st) (culledInstances st) (animationUpdates st)
          (averageFPS st) kb.

(** The interpolation buffer comes from [malloc] with indeterminate
    contents; the model fills it with [0.0f]. *)
Definition Anim4dcBakeVertexAnimations (env : Env) (model : Model)
    (anims : list ModelAnimation) (animCount : Z) (w : World) : bool * World :=
  let s := anim4dc w in
  if negb (initialized s) then (false, w)
  else if negb (Anim4dcCheckModelCompatibility model anims animCount) then (false, w)
  else
    let animsToBake :=
      if ANIM4DC_MAX_ANIMATIONS <? animCount then ANIM4DC_MAX_ANIMATIONS
      else animCount in
    let nverts := mesh_vertexCount (meshes model !!! 0%nat) in
    let '(_, clips, nalloc) :=
      bake_loop env (Z.to_nat animsToBake) 0 anims model (animations s) nverts
                (allocs w) in
    if malloc_ok env nalloc then
      let buffer := replicate (Z.to_nat (nverts * 3)) f0 in
      let s' := mkSystem clips animsToBake 0 f0 (Some buffer) nverts
                         (initialized s) in
      (true,
       mkWorld s' (set_memoryUsageKB (anim4dc_stats w) (Anim4dcCalculateMemoryUsage s'))
               (S nalloc))
    else
      let s' := mkSystem clips animsToBake (currentAnimation s) (currentTime s)
                         None nverts (initialized s) in
      (false, mkWorld s' (anim4dc_stats w) (S nalloc)).

(** ** Playback: [Anim4dcUpdateAnimation] *)

Definition timestamp_at (anim : Anim4dcVertexAnimation) (i : Z) : float :=
  timestamp (keyframes anim !!! Z.to_nat i).

Definition vertices_at (anim : Anim4dcVertexAnimation) (i : Z) : list float :=
  default [] (vertices (keyframes anim !!! Z.to_nat i)).

(** The test of the scan: [time >= keyframes[i].timestamp &&
    time < keyframes[i + 1].timestamp]. *)
Definition brackets (anim : Anim4dcVertexAnimation) (time : float) (i : Z) : bool :=
  fleb (timestamp_at anim i) time && fltb time (timestamp_at anim (i + 1)).

(** The scan [for (i = 0; i < keyframeCount - 1; i++)] with [n]
    iterations left; it leaves at the first bracketing pair and otherwise
    keeps the initial [(0, 1)]. *)
Fixpoint scan_keyframes (n : nat) (i : Z) (anim : Anim4dcVertexAnimation)
    (time : float) : Z * Z :=
  match n with
  | O => (0, 1)
  | S n' =>
      if brackets anim time i then (i, i + 1)
      else scan_keyframes n' (i + 1) anim time
  end.

(** The pair [(currentKeyframe, nextKeyframe)] after the scan and the
    looping override. *)
Definition select_keyframes (anim : Anim4dcVertexAnimation) (time : float) : Z * Z :=
  let found := scan_keyframes (Z.to_nat (keyframeCount anim - 1)) 0 anim time in
  if fleb (timestamp_at anim (keyframeCount anim - 1)) time
  then (keyframeCount anim - 1, 0)
  else found.

(** The interpolation factor before clamping. *)
Definition raw_factor (anim : Anim4dcVertexAnimation) (time : float)
    (currentKeyframe nextKeyframe : Z) : float :=
  let t1 := timestamp_at anim currentKeyframe in
  let t2 := if nextKeyframe =? 0 then duration anim
            else timestamp_at anim nextKeyframe in
  if nextKeyframe =? 0 then
    let timeFromStart := fsub time t1 in
    let totalGap := fsub (duration anim) t1 in
    if fltb f0 totalGap then fdiv timeFromStart totalGap else f0
  else
    let gap := fsub t2 t1 in
    if fltb f0 gap then fdiv (fsub time t1) gap else f0.

(** [t = (t < 0.0f) ? 0.0f : ((t > 1.0f) ? 1.0f : t)]. *)
Definition clamp01 (t : float) : float :=
  if fltb t f0 then f0 else if fltb f1 t then f1 else t.

(** The clock after [currentTime += deltaTime] and the reset at the
    clip's duration. *)
Definition advance_clock (anim : Anim4dcVertexAnimation) (time deltaTime : float)
    : float :=
  let time' := fadd time deltaTime in
  if fleb (duration anim) time' then f0 else time'.

Definition Anim4dcUpdateAnimation (deltaTime : float) (s : Anim4dcAnimationSystem)
    : Anim4dcAnimationSystem :=
  if negb (initialized s) || (currentAnimation s <? 0)
     || (animationCount s <=? currentAnimation s)
  then s
  else
    let currentAnim := animations s !!! Z.to_nat (currentAnimation s) in
    match interpolationBuffer s with
    | None => s
    | Some output =>
        if keyframeCount currentAnim <? 2 then s
        else
          let time := advance_clock currentAnim (currentTime s) deltaTime in
          let '(currentKeyframe, nextKeyframe) := select_keyframes currentAnim time in
          let t := clamp01 (raw_factor currentAnim time currentKeyframe nextKeyframe) in
          let output' :=
            Anim4dcInterpolateVertices output
              (vertices_at currentAnim currentKeyframe)
              (vertices_at currentAnim nextKeyframe) t (vertexCount s) in
          mkSystem (animations s) (animationCount s) (currentAnimation s) time
                   (Some output') (vertexCount s) (initialized s)
    end.

Definition Anim4dcGetInterpolatedVertices (s : Anim4dcAnimationSystem)
    : option (list float) :=
  interpolationBuffer s.

(** ** Animation control *)

Definition Anim4dcSetAnimation (animIndex : Z) (s : Anim4dcAnimationSystem)
    : bool * Anim4dcAnimationSystem :=
  if negb (initialized s) || (animIndex <? 0) || (animationCount s <=? animIndex)
  then (false, s)
  else (true,
        mkSystem (animations s) (animationCount s) animIndex f0
                 (interpolationBuffer s) (vertexCount s) (initialized s)).

(** The search [for (i = 0; i < animationCount; i++)] for the first clip
    whose name compares equal under [strcmp], [n] iterations left. *)
Fixpoint name_loop (n : nat) (i : Z) (animationName : string)
    (s : Anim4dcAnimationSystem) : bool * Anim4dcAnimationSystem :=
  match n with
  | O => (false, s)
  | S n' =>
      if String.eqb (name (animations s !!! Z.to_nat i)) animationName
      then Anim4dcSetAnimation i s
      else name_loop n' (i + 1) animationName s
  end.

Definition Anim4dcSetAnimationByName (animationName : option string)
    (s : Anim4dcAnimationSystem) : bool * Anim4dcAnimationSystem :=
  match animationName with
  | None => (false, s)
  | Some animName =>
      if negb (initialized s) then (false, s)
      else name_loop (Z.to_nat (animationCount s)) 0 animName s
  end.

Definition Anim4dcGetCurrentAnimation (s : Anim4dcAnimationSystem) : Z :=
  currentAnimation s.

Definition Anim4dcGetAnimationTime (s : Anim4dcAnimationSystem) : float :=
  currentTime s.

(** [Anim4dcSetAnimationTime]: the remainder of [time] by the clip's
    duration, moved up by one duration when negative. *)
Definition Anim4dcSetAnimationTime (env : Env) (time : float)
    (s : Anim4dcAnimationSystem) : Anim4dcAnimationSystem :=
  if (0 <=? currentAnimation s) && (currentAnimation s <? animationCount s) then
    let clipDuration := duration (animations s !!! Z.to_nat (currentAnimation s)) in
    let time' := fmod env time clipDuration in
    let time'' := if fltb time' f0 then fadd time' clipDuration else time' in
    mkSystem (animations s) (animationCount s) (currentAnimation s) time''
             (interpolationBuffer s) (vertexCount s) (initialized s)
  else s.

(** [Anim4dcSetAnimationPaused] has an empty body. *)
Definition Anim4dcSetAnimationPaused (paused : bool) (s : Anim4dcAnimationSystem)
    : Anim4dcAnimationSystem := s.

(** ** The values of [Anim4dcLodLevel]

    The enumeration starts at [ANIM4DC_LOD_NEAR = 0] and counts up. *)
Definition Anim4dcLodLevel_value (lod : Anim4dcLodLevel) : Z :=
  match lod with
  | ANIM4DC_LOD_NEAR => 0
  | ANIM4DC_LOD_MID => 1
  | ANIM4DC_LOD_FAR => 2
  | ANIM4DC_LOD_FROZEN => 3
  | ANIM4DC_LOD_CULLED => 4
  end.

(** ** Rendering: [Anim4dcRenderInstances]

    The function draws through raylib.  What it asks raylib to do is
    recorded as a list of events: [EvUploadMesh data] is the [memcpy] of
    [data] (the first [vertexCount * 3] floats of the interpolation
    buffer) into the vertices of mesh 0 followed by [UploadMesh], and
    [EvDrawModel position scale] is the call of [DrawModel]. *)

Inductive RenderEvent : Type :=
| EvUploadMesh (data : list float)
| EvDrawModel (position : Vector3) (scale : float).

(** The body of the loop for one instance. *)
Definition render_instance (s : Anim4dcAnimationSystem) (model : Model)
    (inst : Anim4dcModelInstance) : list RenderEvent :=
  if visible inst then
    (match interpolationBuffer s with
     | Some buffer =>
         if 0 <? meshCount model
         then [EvUploadMesh (take (Z.to_nat (vertexCount s * 3)) buffer)]
         else []
     | None => []
     end)
    ++ [EvDrawModel (position inst) (scale inst)]
  else [].

(** The loop [for (i = 0; i < instanceCount; i++)] with [n] iterations
    left; as in the LOD pass the model stops at the end of the caller's
    array. *)
Fixpoint render_loop (n : nat) (i : nat) (s : Anim4dcAnimationSystem)
    (model : Model) (instances : list Anim4dcModelInstance) : list RenderEvent :=
  match n with
  | O => []
  | S n' =>
      match instances !! i with
      | None => []
      | Some inst =>
          render_instance s model inst ++ render_loop n' (S i) s model instances
      end
  end.

Definition Anim4dcRenderInstances (s : Anim4dcAnimationSystem) (model : Model)
    (instances : list Anim4dcModelInstance) (instanceCount : Z)
    : list RenderEvent :=
  render_loop (Z.to_nat instanceCount) 0 s model instances.

(** ** Loading: [Anim4dcLoadModel]

    [LoadModel] is raylib's loader, a parameter here.  The result is the
    model returned together with the paths handed to [LoadModel], in the
    order of the calls.  [fullPath] has 256 bytes. *)

Definition full_path (basePath extension : string) : string :=
  snprintf_s 256 (basePath ++ extension).

Definition Anim4dcLoadModel (LoadModel : string -> Model) (basePath : string)
    : Model * list string :=
  let gltfPath := full_path basePath ".gltf" in
  let model := LoadModel gltfPath in
  if 0 <? meshCount model then (model, [gltfPath])
  else
    let iqmPath := full_path basePath ".iqm" in
    let model := LoadModel iqmPath in
    if 0 <? meshCount model then (model, [gltfPath; iqmPath])
    else
      let objPath := full_path basePath ".obj" in
      let model := LoadModel objPath in
      (model, [gltfPath; iqmPath; objPath]).

(** * The fox demo: [examples/fox_demo/main.c] *)

(** The button masks come from KallistiOS's controller header, which is
    not part of the repository; they are parameters. *)
Record Buttons : Type := mkButtons {
  BUTTON_A : Z;
  BUTTON_B : Z;
  BUTTON_START : Z;
  DPAD_LEFT : Z;
  DPAD_RIGHT : Z
}.

Definition animationNames : list string := ["Survey"; "Walk"; "Run"]%string.
Definition demo_animationCount : Z := 3.
Definition ROTATION_SPEED : float := Eval vm_compute in float_of_int 30.

(** The fields of [DemoState] that [HandleInput] reads or writes. *)
Record DemoState : Type := mkDemo {
  foxInstances : list Anim4dcModelInstance;
  activeInstances : Z;
  currentAnimationIndex : Z;
  showDebug : bool;
  animationPaused : bool;
  globalRotation : float;
  statusMessage : string
}.

(** The demo's globals next to the library's: [demo], the function-local
    static [lastButtons] and [anim4dc]. *)
Record DemoWorld : Type := mkDemoWorld {
  demo : DemoState;
  lastButtons : Z;
  library : Anim4dcAnimationSystem
}.

Definition uint16 (z : Z) : Z := z mod 2 ^ 16.

Definition set_animationIndex (inst : Anim4dcModelInstance) (idx : Z)
    : Anim4dcModelInstance :=
  mkInstance (position inst) (rotation inst) (scale inst) idx
             (animationTime inst) (lodLevel inst) (visible inst)
             (distanceSquared inst).

(** The loop [for (i = 0; i < demo.activeInstances; i++)] that copies
    the index into the instances. *)
Fixpoint assign_loop (n : nat) (i : nat) (idx : Z)
    (instances : list Anim4dcModelInstance) : list Anim4dcModelInstance :=
  match n with
  | O => instances
  | S n' =>
      match instances !! i with
      | None => instances
      | Some inst =>
          assign_loop n' (S i) idx (<[i := set_animationIndex inst idx]> instances)
      end
  end.

(** The branch taken when A has just been pressed. *)
Definition toggle_animation (w : DemoWorld) : DemoWorld :=
  let d := demo w in
  let idx := Z.rem (int32 (currentAnimationIndex d + 1)) demo_animationCount in
  let animName := animationNames !!! Z.to_nat idx in
  let lib := snd (Anim4dcSetAnimationByName (Some animName) (library w)) in
  let instances :=
    assign_loop (Z.to_nat (activeInstances d)) 0 idx (foxInstances d) in
  mkDemoWorld
    (mkDemo instances (activeInstances d) idx (showDebug d) (animationPaused d)
            (globalRotation d)
            (snprintf_s 256 ("Animation: " ++ animName)))
    (lastButtons w) lib.

Definition set_showDebug (d : DemoState) (b : bool) : DemoState :=
  mkDemo (foxInstances d) (activeInstances d) (currentAnimationIndex d) b
         (animationPaused d) (globalRotation d) (statusMessage d).

Definition set_animationPaused (d : DemoState) (b : bool) : DemoState :=
  mkDemo (foxInstances d) (activeInstances d) (currentAnimationIndex d)
         (showDebug d) b (globalRotation d) (statusMessage d).

Definition set_globalRotation (d : DemoState) (r : float) : DemoState :=
  mkDemo (foxInstances d) (activeInstances d) (currentAnimationIndex d)
         (showDebug d) (animationPaused d) r (statusMessage d).

Definition with_demo (w : DemoWorld) (d : DemoState) : DemoWorld :=
  mkDemoWorld d (lastButtons w) (library w).

(** [mask & BUTTON] used as a condition. *)
Definition has_button (mask button : Z) : bool := negb (Z.land mask button =? 0).

(** [HandleInput].  [controller] is [None] when no controller is
    enumerated, [Some None] when it has no status, and otherwise holds
    [state->buttons]; [frameTime] is what [GetFrameTime] returns. *)
Definition HandleInput (b : Buttons) (controller : option (option Z))
    (frameTime : float) (w : DemoWorld) : DemoWorld :=
  match controller with
  | None => w
  | Some None => w
  | Some (Some buttons) =>
      let pressed := uint16 (Z.land buttons (Z.lnot (lastButtons w))) in
      let w1 := if has_button pressed (BUTTON_A b) then toggle_animation w else w in
      let w2 := if has_button pressed (BUTTON_B b)
                then with_demo w1 (set_showDebug (demo w1) (negb (showDebug (demo w1))))
                else w1 in
      let w3 := if has_button pressed (BUTTON_START b)
                then with_demo w2 (set_animationPaused (demo w2)
                                     (negb (animationPaused (demo w2))))
                else w2 in
      let w4 := if has_button buttons (DPAD_LEFT b)
                then with_demo w3 (set_globalRotation (demo w3)
                                     (fsub (globalRotation (demo w3))
                                           (fmul ROTATION_SPEED frameTime)))
                else w3 in
      let w5 := if has_button buttons (DPAD_RIGHT b)
                then with_demo w4 (set_globalRotation (demo w4)
                                     (fadd (globalRotation (demo w4))
                                           (fmul ROTATION_SPEED frameTime)))
                else w4 in
      mkDemoWorld (demo w5) (uint16 buttons) (library w5)
  end.

(** * Properties *)

(** ** The order of the float comparisons

    [SFcompare] orders the numbers lexicographically by sign class,
    exponent and mantissa; [frank] makes that order explicit so that
    linear arithmetic can reason about chains of comparisons. *)

Definition frank (x : float) : Z * Z * Z :=
  match x with
  | S754_nan => (0, 0, 0)
  | S754_infinity true => (-2, 0, 0)
  | S754_finite true m e => (-1, - e, - Zpos m)
  | S754_zero _ => (0, 0, 0)
  | S754_finite false m e => (1, e, Zpos m)
  | S754_infinity false => (2, 0, 0)
  end.

Definition lex_lt (p q : Z * Z * Z) : Prop :=
  let '(p1, p2, p3) := p in
  let '(q1, q2, q3) := q in
  p1 < q1 \/ (p1 = q1 /\ (p2 < q2 \/ (p2 = q2 /\ p3 < q3))).

Definition lex_le (p q : Z * Z * Z) : Prop := lex_lt p q \/ p = q.

(** [y] is numerically equal to [x], and the very same datum unless [x]
    is a zero (whose sign the arithmetic may have changed). *)
Definition same_number (y x : float) : Prop :=
  feqb y x = true /\ (is_zero x = false -> y = x).

(** ** LOD, in the words of the specification *)

(** What the LOD pass must establish for an instance it has visited. *)
Definition tier_consistent (inst : Anim4dcModelInstance) : Prop :=
  (visible inst = true <-> lodLevel inst <> ANIM4DC_LOD_CULLED)
  /\ lodLevel inst <> ANIM4DC_LOD_FROZEN.

(** ** Playback, in the words of the specification *)

(** The clip that playback works on: the one at [currentAnimation] when
    that index lies in [[0, animationCount)]. *)
Definition selected_clip (s : Anim4dcAnimationSystem)
    : option Anim4dcVertexAnimation :=
  if (0 <=? currentAnimation s) && (currentAnimation s <? animationCount s)
  then animations s !! Z.to_nat (currentAnimation s)
  else None.

(** [clock] lies in the bracket of the keyframes [i] and [i + 1]. *)
Definition in_bracket (anim : Anim4dcVertexAnimation) (clock : float) (i : Z) : Prop :=
  fleb (timestamp_at anim i) clock = true
  /\ fltb clock (timestamp_at anim (i + 1)) = true.

(** The specification's interpolation factor between the timestamps [a]
    and [b]: [(clock - a) / (b - a)], forced to 0 when the denominator is
    not positive. *)
Definition spec_factor (clock a b : float) : float :=
  let denominator := fsub b a in
  if fltb f0 denominator then fdiv (fsub clock a) denominator else f0.

(** Timestamps of the first [keyframeCount] keyframes never decrease. *)
Definition timestamps_sorted (anim : Anim4dcVertexAnimation) : Prop :=
  forall j, 0 <= j < keyframeCount anim - 1 ->
            fleb (timestamp_at anim j) (timestamp_at anim (j + 1)) = true.

(** A boolean check of [timestamps_sorted]. *)
Definition timestamps_sortedb (anim : Anim4dcVertexAnimation) : bool :=
  forallb (fun j : nat => fleb (timestamp_at anim (Z.of_nat j))
                               (timestamp_at anim (Z.of_nat j + 1)))
          (seq 0 (Z.to_nat (keyframeCount anim - 1))).

(** The state after a successful [Anim4dcSetAnimation(animIndex)]. *)
Definition select (s : Anim4dcAnimationSystem) (animIndex : Z)
    : Anim4dcAnimationSystem :=
  mkSystem (animations s) (animationCount s) animIndex f0
           (interpolationBuffer s) (vertexCount s) (initialized s).

(** Clip [i] is one of the baked clips and is called [clipName]. *)
Definition clip_named (s : Anim4dcAnimationSystem) (clipName : string) (i : Z) : Prop :=
  0 <= i < animationCount s
  /\ exists clip, animations s !! Z.to_nat i = Some clip /\ name clip = clipName.

(** ** Well-formed states *)

(** A clip slot has its twenty keyframe slots and a count within them. *)
Definition clip_ok (a : Anim4dcVertexAnimation) : bool :=
  Nat.eqb (length (keyframes a)) 20
  && (0 <=? keyframeCount a) && (keyframeCount a <=? ANIM4DC_MAX_KEYFRAMES).

(** The state has its eight clip slots, a clip count within them, and no
    clips unless it is initialized. *)
Definition well_formed (s : Anim4dcAnimationSystem) : bool :=
  Nat.eqb (length (animations s)) 8
  && forallb clip_ok (animations s)
  && (0 <=? animationCount s) && (animationCount s <=? ANIM4DC_MAX_ANIMATIONS)
  && (initialized s || (animationCount s =? 0)).

Definition with_system (w : World) (s : Anim4dcAnimationSystem) : World :=
  mkWorld s (anim4dc_stats w) (allocs w).

Definition with_stats (w : World) (st : Anim4dcStats) : World :=
  mkWorld (anim4dc w) st (allocs w).

(** ** Compatibility, in the words of the specification *)

(** The mesh carries bone ids, bone weights and animated vertices. *)
Definition skinned (mesh : Mesh) : Prop :=
  boneIds mesh <> None /\ boneWeights mesh <> None /\ animVertices mesh <> None.

(** The reasons for which a model and its animations cannot be baked;
    the first animation is [animations[0]]. *)
Definition incompatible (model : Model) (anims : list ModelAnimation)
    (animCount : Z) : Prop :=
  let first := anims !!! 0%nat in
  meshCount model = 0
  \/ animCount <= 0
  \/ boneCount model = 0
  \/ bones model = None
  \/ bindPose model = None
  \/ anim_boneCount first <> boneCount model
  \/ anim_bones first = None
  \/ framePoses first = None
  \/ (forall i mesh, 0 <= i < meshCount model ->
                     meshes model !! Z.to_nat i = Some mesh -> ~ skinned mesh).

(** ** Baking and memory, in the words of the specification *)

(** The sampling stride for a source clip of [frames] frames. *)
Definition stride (frames : Z) : Z := if 40 <? frames then 8 else 4.

(** How many of the frames 0, [stride], 2 * [stride], ... lie below
    [frames], and how many of those a clip keeps. *)
Definition sampled_frames (frames : Z) : Z :=
  (frames + stride frames - 1) / stride frames.

Definition captured_frames (frames : Z) : Z :=
  Z.min ANIM4DC_MAX_KEYFRAMES (sampled_frames frames).

(** The models that a bake of [model] hands to the pose evaluator:
    [model] itself, and what the evaluator has made of such a model for
    a clip of [anims] and a frame. *)
Inductive bake_model (env : Env) (anims : list ModelAnimation) (model : Model)
    : Model -> Prop :=
| bake_model_start : bake_model env anims model model
| bake_model_step m (a : nat) (frame : Z) :
    bake_model env anims model m ->
    bake_model env anims model (UpdateModelAnimation env m (anims !!! a) frame).

(** While [model] is baked with the clips [anims], the pose evaluator
    leaves [data frame] in the animated vertices of mesh 0 whenever it
    is asked for a frame [frame] of [skelAnim]. *)
Definition poses (env : Env) (anims : list ModelAnimation) (model : Model)
    (skelAnim : ModelAnimation) (data : Z -> list float) : Prop :=
  forall (m : Model) (frame : Z),
    bake_model env anims model m ->
    0 <= frame < frameCount skelAnim ->
    animVertices (meshes (UpdateModelAnimation env m skelAnim frame) !!! 0%nat)
    = Some (data frame).

(** The keyframe that captures source frame [frame]. *)
Definition keyframe_of_frame (data : Z -> list float) (nverts frame : Z)
    : Anim4dcVertexKeyframe :=
  mkKeyframe (Some (take (Z.to_nat (nverts * 3)) (data frame))) nverts
             (fdiv (float_of_int frame) f20).

(** The clip holds the first [count] samples of [skelAnim], in order. *)
Definition holds_samples (clip : Anim4dcVertexAnimation) (count : Z)
    (data : Z -> list float) (nverts step : Z) : Prop :=
  keyframeCount clip = count
  /\ forall k, 0 <= k < count ->
               keyframes clip !! Z.to_nat k
               = Some (keyframe_of_frame data nverts (k * step)).

(** The clip after [j] iterations of the sampling loop: it has its
    twenty slots and holds the first [min j 20] samples. *)
Definition sampled_state (data : Z -> list float) (nverts step j : Z)
    (clip : Anim4dcVertexAnimation) : Prop :=
  length (keyframes clip) = 20%nat
  /\ holds_samples clip (Z.min j 20) data nverts step.

(** [n] baked clips of [k] keyframes each, every keyframe holding a
    buffer for [v] vertices, and an interpolation buffer for [v]
    vertices. *)
Definition uniform_state (s : Anim4dcAnimationSystem) (n k v : Z) : Prop :=
  animationCount s = n
  /\ vertexCount s = v
  /\ interpolationBuffer s <> None
  /\ forall a, 0 <= a < n ->
       exists clip, animations s !! Z.to_nat a = Some clip
         /\ keyframeCount clip = k
         /\ forall j, 0 <= j < k ->
              exists kf, keyframes clip !! Z.to_nat j = Some kf
                /\ vertices kf <> None /\ kf_vertexCount kf = v.

(** The byte count of the specification's formula. *)
Definition spec_bytes (n k v : Z) : Z :=
  n * k * v * 3 * sizeof_float + v * 3 * sizeof_float.

(** ** Example data *)

Definition origin : Vector3 := mkVector3 f0 f0 f0.

(** An instance at [(x, y, 0)]. *)
Definition instance_at (x y : Z) : Anim4dcModelInstance :=
  mkInstance (mkVector3 (float_of_int x) (float_of_int y) f0) origin f1 0 f0
             ANIM4DC_LOD_NEAR true f0.

(** Six instances whose squared distances to the origin are 6400, 6401,
    14400, 14401, 40000 and 40001. *)
Definition boundary_instances : list Anim4dcModelInstance :=
  [instance_at 80 0; instance_at 80 1; instance_at 120 0; instance_at 120 1;
   instance_at 200 0; instance_at 200 1].

(** A small skinned model: one mesh of two vertices, twenty bones.  Its
    pose evaluator writes the frame number into every component. *)
Definition demo_mesh (frame : Z) : Mesh :=
  mkMesh 2 (Some (replicate 6 (float_of_int frame))) (Some tt) (Some tt).

Definition demo_model : Model := mkModel 1 [demo_mesh 0] 20 (Some tt) (Some tt).

Definition demo_pose (m : Model) (a : ModelAnimation) (frame : Z) : Model :=
  mkModel (meshCount m) [demo_mesh frame] (boneCount m) (bones m) (bindPose m).

(** A skeletal clip of 100 frames for twenty bones. *)
Definition demo_animation : ModelAnimation :=
  mkModelAnimation 20 100 (Some tt) (Some tt).

Definition demo_data (frame : Z) : list float := replicate 6 (float_of_int frame).

(** A clip for fifteen bones, against the twenty of [demo_model]. *)
Definition mismatched_animation : ModelAnimation :=
  mkModelAnimation 15 100 (Some tt) (Some tt).

(** Every allocation succeeds.  (The demo environments are not used
    with [Anim4dcSetAnimationTime]; their [fmod] is a placeholder.) *)
Definition env_ok : Env := mkEnv (fun _ => true) demo_pose (fun x _ => x).

(** The first thirteen allocations succeed, the fourteenth (the
    interpolation buffer of the demo bake) and all later ones fail. *)
Definition env_no_buffer : Env :=
  mkEnv (fun k => Nat.ltb k 13) demo_pose (fun x _ => x).

(** The sixth allocation fails, every other one succeeds. *)
Definition env_sixth_fails : Env :=
  mkEnv (fun k => negb (Nat.eqb k 5)) demo_pose (fun x _ => x).

(** A pose evaluator that, like raylib's, writes into the meshes the
    model has: every mesh with an animated-vertex buffer gets the frame
    number in each component, a mesh without one is left alone. *)
Definition pose_mesh (frame : Z) (mesh : Mesh) : Mesh :=
  match animVertices mesh with
  | Some v =>
      mkMesh (mesh_vertexCount mesh)
             (Some (replicate (length v) (float_of_int frame)))
             (boneIds mesh) (boneWeights mesh)
  | None => mesh
  end.

Definition keep_pose (m : Model) (a : ModelAnimation) (frame : Z) : Model :=
  mkModel (meshCount m) (pose_mesh frame <$> meshes m) (boneCount m) (bones m)
          (bindPose m).

Definition env_keep : Env := mkEnv (fun _ => true) keep_pose (fun x _ => x).

(** Two meshes, of which only the second is skinned. *)
Definition second_mesh_skinned : Model :=
  mkModel 2 [mkMesh 2 None None None; demo_mesh 0] 20 (Some tt) (Some tt).

Definition world_start : World := mkWorld zero_system zero_stats 0.
Definition world_init : World := snd (Anim4dcInit world_start).

Definition world_baked : World :=
  snd (Anim4dcBakeVertexAnimations env_ok demo_model [demo_animation] 1 world_init).

(** [Anim4dcInit], a bake whose buffer allocation fails, then
    [Anim4dcSetAnimation(0)]: a clip of thirteen keyframes is selected
    and there is no interpolation buffer. *)
Definition system_no_buffer : Anim4dcAnimationSystem :=
  snd (Anim4dcSetAnimation 0
         (anim4dc (snd (Anim4dcBakeVertexAnimations env_no_buffer demo_model
                          [demo_animation] 1 world_init)))).

(** A NaN, as [0.0f / 0.0f] gives. *)
Definition f_nan : float := Eval vm_compute in fdiv f0 f0.

(** 0.1f *)
Definition f_tenth : float := Eval vm_compute in fdiv f1 (float_of_int 10).

(** Two one-vertex keyframe buffers and an output buffer. *)
Definition early_vertices : list float :=
  [float_of_int 100000000; f0; float_of_int 5].
Definition late_vertices : list float := [f1; float_of_int 7; float_of_int 5].
Definition blank_vertices : list float := [f0; f0; f0].

(** One clip of two keyframes for a hundred vertices, buffer allocated. *)
Definition small_keyframe : Anim4dcVertexKeyframe :=
  mkKeyframe (Some (replicate 300 f0)) 100 f0.

Definition small_system : Anim4dcAnimationSystem :=
  mkSystem
    (<[0%nat := mkAnimation "Survey"
                  (<[0%nat := small_keyframe]>
                     (<[1%nat := small_keyframe]> (keyframes zero_animation)))
                  2 f1 true]> (animations zero_system))
    1 0 f0 (Some (replicate 300 f0)) 100 true.

(** ** Reachable worlds *)

(** The worlds that a program can reach from the zeroed globals through
    the functions of the library. *)
Inductive reachable (env : Env) : World -> Prop :=
| reach_start : reachable env world_start
| reach_init w :
    reachable env w -> reachable env (snd (Anim4dcInit w))
| reach_shutdown w :
    reachable env w -> reachable env (Anim4dcShutdown w)
| reach_bake w model anims animCount :
    reachable env w ->
    reachable env (snd (Anim4dcBakeVertexAnimations env model anims animCount w))
| reach_update w deltaTime :
    reachable env w ->
    reachable env (with_system w (Anim4dcUpdateAnimation deltaTime (anim4dc w)))
| reach_set_animation w animIndex :
    reachable env w ->
    reachable env (with_system w (snd (Anim4dcSetAnimation animIndex (anim4dc w))))
| reach_set_animation_by_name w animName :
    reachable env w ->
    reachable env
      (with_system w (snd (Anim4dcSetAnimationByName animName (anim4dc w))))
| reach_set_animation_time w time :
    reachable env w ->
    reachable env (with_system w (Anim4dcSetAnimationTime env time (anim4dc w)))
| reach_update_lod w instances instanceCount cameraPosition :
    reachable env w ->
    reachable env
      (with_stats w (snd (Anim4dcUpdateInstanceLOD instances instanceCount
                            cameraPosition (anim4dc_stats w)))).

(** ** Further predicates *)

(** Every keyframe that the clip counts owns a vertex buffer for [nverts]
    vertices. *)
Definition clip_allocated (nverts : Z) (clip : Anim4dcVertexAnimation) : Prop :=
  forall (k : nat) kf,
    Z.of_nat k < keyframeCount clip -> keyframes clip !! k = Some kf ->
    vertices kf <> None /\ kf_vertexCount kf = nverts.

(** Every baked clip is allocated for the system's vertex count. *)
Definition keyframes_allocated (s : Anim4dcAnimationSystem) : Prop :=
  forall (a : nat) clip,
    Z.of_nat a < animationCount s -> animations s !! a = Some clip ->
    clip_allocated (vertexCount s) clip.

(** An allocated interpolation buffer holds [vertexCount * 3] floats. *)
Definition buffer_sized (s : Anim4dcAnimationSystem) : Prop :=
  forall buffer, interpolationBuffer s = Some buffer ->
                 length buffer = Z.to_nat (vertexCount s * 3).


(** The number of keyframes counted by the baked clips. *)
Definition total_keyframes (s : Anim4dcAnimationSystem) : Z :=
  foldr Z.add 0
    (keyframeCount <$> take (Z.to_nat (animationCount s)) (animations s)).

(** ** The LOD pass, instance by instance *)

(** What the pass writes into one instance: the squared distance to the
    camera, and the tier and the visibility chosen for that distance. *)
Definition classify (cam : Vector3) (inst : Anim4dcModelInstance)
    : Anim4dcModelInstance :=
  let d2 := Vector3LengthSqr (Vector3Subtract (position inst) cam) in
  set_lod inst d2 (lod_of_distance d2).1 (lod_of_distance d2).2.

(** The counters after the instances of a list have been classified. *)
Definition count_all (cam : Vector3) (st : Anim4dcStats)
    (instances : list Anim4dcModelInstance) : Anim4dcStats :=
  foldl (fun st inst => count_instance st (visible (classify cam inst)))
        st instances.

Definition count_visible (instances : list Anim4dcModelInstance) : Z :=
  Z.of_nat (length (List.filter visible instances)).

Definition count_hidden (instances : list Anim4dcModelInstance) : Z :=
  Z.of_nat (length (List.filter (fun inst => negb (visible inst)) instances)).

(** ** Reading a list of render events *)

(** The [DrawModel] calls, in order. *)
Definition draw_calls (events : list RenderEvent) : list (Vector3 * float) :=
  flat_map (fun e => match e with
                     | EvDrawModel p sc => [(p, sc)]
                     | EvUploadMesh _ => []
                     end) events.

(** The vertex data of the [UploadMesh] calls, in order. *)
Definition uploads (events : list RenderEvent) : list (list float) :=
  flat_map (fun e => match e with
                     | EvUploadMesh data => [data]
                     | EvDrawModel _ _ => []
                     end) events.

(** ** The fox demo *)

(** The clips of the library carry the names of the bake's pool, in
    order. *)
Definition pool_named (s : Anim4dcAnimationSystem) : Prop :=
  forall j : nat, Z.of_nat j < animationCount s ->
                  name (animations s !!! j) = animNames !!! j.

(** The buttons that went down since the previous call. *)
Definition newly_pressed (buttons last : Z) : Z :=
  uint16 (Z.land buttons (Z.lnot last)).

(** A loader that finds the fox as an IQM file only. *)
Definition iqm_only_loader (path : string) : Model :=
  if String.eqb path "/rd/Fox.iqm" then demo_model
  else mkModel 0 [] 0 None None.

(** A demo world: one fox, clip 0 showing, over the baked demo library. *)
Definition demo_world_start : DemoWorld :=
  mkDemoWorld (mkDemo [instance_at 0 0] 1 0 true false f0 EmptyString) 0
              (anim4dc world_baked).

(** Button masks with one bit each. *)
Definition demo_buttons : Buttons := mkButtons 4 2 8 64 128.
Lemma fltb_rank (a b : float) :
  fltb a b = true
  <-> is_nan a = false /\ is_nan b = false /\ lex_lt (frank a) (frank b).
Proof.
  destruct a as [sa|sa| |sa ma ea], b as [sb|sb| |sb mb eb];
    unfold fltb, SFltb, SFcompare, lex_lt, frank; cbn [is_nan];
    try destruct sa; try destruct sb;
    try (destruct (Z.compare_spec ea eb);
         change (Pos.compare_cont Eq ma mb) with (Pos.compare ma mb);
         destruct (Pos.compare_spec ma mb); cbn [CompOpp]);
    (split;
     [ intros Hlt; try discriminate Hlt; repeat split; lia
     | intros (Hna & Hnb & Hlex); try discriminate; try reflexivity;
       exfalso; lia ]).
Qed.

Lemma fleb_rank (a b : float) :
  fleb a b = true
  <-> is_nan a = false /\ is_nan b = false /\ lex_le (frank a) (frank b).
Proof.
  destruct a as [sa|sa| |sa ma ea], b as [sb|sb| |sb mb eb];
    unfold fleb, SFleb, SFcompare, lex_le, lex_lt, frank; cbn [is_nan];
    try destruct sa; try destruct sb;
    try (destruct (Z.compare_spec ea eb);
         change (Pos.compare_cont Eq ma mb) with (Pos.compare ma mb);
         destruct (Pos.compare_spec ma mb); cbn [CompOpp]);
    (split;
     [ intros Hle; try discriminate Hle; repeat split; try lia;
       try (right; congruence); try (left; lia)
     | intros (Hna & Hnb & [Hlex|Hlex]); try discriminate; try reflexivity;
       exfalso; try lia; try (inversion Hlex; lia) ]).
Qed.

Lemma fltb_fleb_trans (a b c : float) :
  fltb a b = true -> fleb b c = true -> fltb a c = true.
Proof.
  rewrite !fltb_rank, fleb_rank. unfold lex_le, lex_lt.
  destruct (frank a) as [[a1 a2] a3], (frank b) as [[b1 b2] b3],
           (frank c) as [[c1 c2] c3].
  intros (Ha & _ & Hab) (_ & Hc & [Hbc|Hbc]); repeat split; try done.
  - lia.
  - inversion Hbc; subst. lia.
Qed.

Lemma fltb_fleb_false (a b : float) : fltb a b = true -> fleb b a = false.
Proof.
  intros Hab. destruct (fleb b a) eqn:Hba; [|done].
  apply fltb_rank in Hab. apply fleb_rank in Hba. unfold lex_le, lex_lt in *.
  destruct (frank a) as [[a1 a2] a3], (frank b) as [[b1 b2] b3].
  destruct Hab as (_ & _ & Hab), Hba as (_ & _ & [Hba|Hba]).
  - lia.
  - inversion Hba; subst. lia.
Qed.

(** On numbers the comparison is total. *)
Lemma fltb_false_fleb (a b : float) :
  is_nan a = false -> is_nan b = false -> fltb a b = false -> fleb b a = true.
Proof.
  intros Ha Hb Hab. apply fleb_rank. repeat split; try done.
  destruct (fltb_rank a b) as [_ Hback].
  unfold lex_le, lex_lt in *.
  destruct (frank a) as [[a1 a2] a3], (frank b) as [[b1 b2] b3].
  destruct (decide (b1 = a1 /\ b2 = a2 /\ b3 = a3)) as [(-> & -> & ->)|Hne];
    [by right|].
  left.
  destruct (decide (a1 < b1 \/ a1 = b1 /\ (a2 < b2 \/ a2 = b2 /\ a3 < b3)))
    as [Hlt|Hnlt]; [|lia].
  rewrite Hback in Hab; [discriminate | by repeat split].
Qed.

Lemma fleb_refl (a : float) : is_nan a = false -> fleb a a = true.
Proof. intros Ha. apply fleb_rank. repeat split; try done. by right. Qed.

Lemma clamp01_range (t : float) :
  is_nan t = false -> fleb f0 (clamp01 t) = true /\ fleb (clamp01 t) f1 = true.
Proof.
  intros Ht. unfold clamp01.
  destruct (fltb t f0) eqn:Hlow; [by vm_compute|].
  destruct (fltb f1 t) eqn:Hhigh; [by vm_compute|].
  split; by apply fltb_false_fleb.
Qed.

(** A factor that already lies in [[0, 1]] passes the clamp unchanged. *)
Lemma clamp01_inside (t : float) :
  fleb f0 t = true -> fleb t f1 = true -> clamp01 t = t.
Proof.
  intros Hlow Hhigh. unfold clamp01.
  destruct (fltb t f0) eqn:H0.
  - apply fltb_fleb_false in H0. congruence.
  - destruct (fltb f1 t) eqn:H1; [|done].
    apply fltb_fleb_false in H1. congruence.
Qed.

(** ** LOD classification *)

Lemma lod_of_distance_cases (d2 : float) :
  lod_of_distance d2 = (ANIM4DC_LOD_CULLED, false)
  \/ lod_of_distance d2 = (ANIM4DC_LOD_FAR, true)
  \/ lod_of_distance d2 = (ANIM4DC_LOD_MID, true)
  \/ lod_of_distance d2 = (ANIM4DC_LOD_NEAR, true).
Proof.
  unfold lod_of_distance.
  destruct (fltb ANIM4DC_LOD_CULL_DIST2 d2); [now left|].
  destruct (fltb ANIM4DC_LOD_FAR_DIST2 d2); [now right; left|].
  destruct (fltb ANIM4DC_LOD_MID_DIST2 d2); [now right; right; left|].
  now right; right; right.
Qed.

(** The bands as the [if] chain draws them: the near band reaches up to
    [ANIM4DC_LOD_MID_DIST2]; [ANIM4DC_LOD_NEAR_DIST2] is never consulted. *)
Lemma lod_of_distance_near (d2 : float) :
  fst (lod_of_distance d2) = ANIM4DC_LOD_NEAR
  <-> fltb ANIM4DC_LOD_MID_DIST2 d2 = false
      /\ fltb ANIM4DC_LOD_FAR_DIST2 d2 = false
      /\ fltb ANIM4DC_LOD_CULL_DIST2 d2 = false.
Proof.
  unfold lod_of_distance.
  destruct (fltb ANIM4DC_LOD_CULL_DIST2 d2), (fltb ANIM4DC_LOD_FAR_DIST2 d2),
           (fltb ANIM4DC_LOD_MID_DIST2 d2); cbn; intuition congruence.
Qed.

(** The bands of the code, between the thresholds of the header: a
    squared distance in (80^2, 120^2] is NEAR, one in (120^2, 160^2] is
    MID and one in (160^2, 200^2] is FAR. *)
Lemma lod_bands_of_code (d2 : float) :
  (fltb ANIM4DC_LOD_NEAR_DIST2 d2 = true -> fleb d2 ANIM4DC_LOD_MID_DIST2 = true ->
   lod_of_distance d2 = (ANIM4DC_LOD_NEAR, true))
  /\ (fltb ANIM4DC_LOD_MID_DIST2 d2 = true -> fleb d2 ANIM4DC_LOD_FAR_DIST2 = true ->
      lod_of_distance d2 = (ANIM4DC_LOD_MID, true))
  /\ (fltb ANIM4DC_LOD_FAR_DIST2 d2 = true -> fleb d2 ANIM4DC_LOD_CULL_DIST2 = true ->
      lod_of_distance d2 = (ANIM4DC_LOD_FAR, true)).
Proof.
  assert (Hno : forall lo hi, fltb hi lo = false -> fleb d2 lo = true ->
                              fltb hi d2 = false).
  { intros lo hi Hlohi Hle. destruct (fltb hi d2) eqn:Hhi; [|done].
    by rewrite (fltb_fleb_trans hi d2 lo Hhi Hle) in Hlohi. }
  assert (Hself : forall lo, fleb d2 lo = true -> fltb lo d2 = false).
  { intros lo Hle. destruct (fltb lo d2) eqn:Hlt; [|done].
    apply fltb_fleb_false in Hlt. congruence. }
  unfold lod_of_distance. split; [|split].
  - intros _ Hle.
    rewrite (Hno ANIM4DC_LOD_MID_DIST2 ANIM4DC_LOD_CULL_DIST2) by done.
    rewrite (Hno ANIM4DC_LOD_MID_DIST2 ANIM4DC_LOD_FAR_DIST2) by done.
    by rewrite (Hself _ Hle).
  - intros Hlt Hle.
    rewrite (Hno ANIM4DC_LOD_FAR_DIST2 ANIM4DC_LOD_CULL_DIST2) by done.
    by rewrite (Hself _ Hle), Hlt.
  - intros Hlt Hle. by rewrite (Hself _ Hle), Hlt.
Qed.

(** C1, evaluated on the code.  The six squared distances 6400, 6401,
    14400, 14401, 40000 and 40001 are classified NEAR, NEAR, NEAR, MID,
    FAR and CULLED (the last one invisible): at 6401 and 14400 the code
    answers NEAR where the claim has MID, and at 14401 it answers MID
    where the claim has FAR. *)
Theorem lod_at_claimed_boundaries :
  let out := Anim4dcUpdateInstanceLOD boundary_instances 6 origin zero_stats in
  map distanceSquared (fst out)
    = map float_of_int [6400; 6401; 14400; 14401; 40000; 40001]
  /\ map (fun inst => (lodLevel inst, visible inst)) (fst out)
     = [(ANIM4DC_LOD_NEAR, true); (ANIM4DC_LOD_NEAR, true);
        (ANIM4DC_LOD_NEAR, true); (ANIM4DC_LOD_MID, true);
        (ANIM4DC_LOD_FAR, true); (ANIM4DC_LOD_CULLED, false)].
Proof. by vm_compute. Qed.

Lemma lod_step_spec (cam : Vector3) (inst : Anim4dcModelInstance)
    (st : Anim4dcStats) :
  tier_consistent (lod_step cam inst st).1
  /\ visibleInstances (lod_step cam inst st).2
     + culledInstances (lod_step cam inst st).2
     = visibleInstances st + culledInstances st + 1.
Proof.
  unfold lod_step, tier_consistent.
  destruct (lod_of_distance_cases
              (Vector3LengthSqr (Vector3Subtract (position inst) cam)))
    as [-> | [-> | [-> | ->]]]; cbn; (split; [split; [split|]; congruence | lia]).
Qed.

(** Invariant of the loop over the instances: the array keeps its
    length, entries before the loop index are final, the [n] entries
    visited are consistent, and each visit adds one to exactly one of the
    two counters. *)
Lemma lod_loop_spec (cam : Vector3) (n : nat) :
  forall (i : nat) (instances : list Anim4dcModelInstance) (st : Anim4dcStats),
    (i + n <= length instances)%nat ->
    let out := lod_loop n i cam instances st in
    length out.1 = length instances
    /\ (forall j, (j < i)%nat -> out.1 !! j = instances !! j)
    /\ (forall j inst, (i <= j < i + n)%nat -> out.1 !! j = Some inst ->
                       tier_consistent inst)
    /\ visibleInstances out.2 + culledInstances out.2
       = visibleInstances st + culledInstances st + Z.of_nat n.
Proof.
  induction n as [|n IH]; intros i instances st Hlen; cbn [lod_loop].
  - cbn. split; [done|]. split; [done|]. split; [intros; lia | lia].
  - destruct (lookup_lt_is_Some_2 instances i) as [inst Hi]; [lia|].
    rewrite Hi.
    pose proof (lod_step_spec cam inst st) as [Hgood Hcount].
    destruct (lod_step cam inst st) as [inst' st'] eqn:Hstep. cbn [fst snd] in *.
    specialize (IH (S i) (<[i := inst']> instances) st').
    rewrite length_insert in IH.
    destruct IH as (Hl & Hbefore & Hrange & Hsum); [lia|].
    split; [|split; [|split]].
    + exact Hl.
    + intros j Hj. rewrite Hbefore by lia. apply list_lookup_insert_ne. lia.
    + intros j x Hj Hx. destruct (decide (j = i)) as [->|Hne].
      * rewrite Hbefore in Hx by lia.
        rewrite list_lookup_insert_eq in Hx by lia. by inversion Hx; subst.
      * apply (Hrange j x); [lia | done].
    + lia.
Qed.

(** C10.  After [Anim4dcUpdateInstanceLOD] on the first [instanceCount]
    entries of the caller's array, each of these entries is visible
    exactly when its tier is not CULLED, none of them has the tier
    FROZEN, and the two counters returned by [Anim4dcGetStats] add up to
    [instanceCount]. *)
Theorem lod_pass_invariants (instances : list Anim4dcModelInstance)
    (instanceCount : Z) (cam : Vector3) (st : Anim4dcStats) :
  0 <= instanceCount <= Z.of_nat (length instances) ->
  let out := Anim4dcUpdateInstanceLOD instances instanceCount cam st in
  (forall (j : nat) inst,
      Z.of_nat j < instanceCount -> out.1 !! j = Some inst ->
      (visible inst = true <-> lodLevel inst <> ANIM4DC_LOD_CULLED)
      /\ lodLevel inst <> ANIM4DC_LOD_FROZEN)
  /\ visibleInstances (Anim4dcGetStats out.2)
     + culledInstances (Anim4dcGetStats out.2) = instanceCount.
Proof.
  intros Hcount out. subst out. unfold Anim4dcUpdateInstanceLOD, Anim4dcGetStats.
  match goal with |- context [lod_loop ?n ?i ?c ?l ?s] =>
    pose proof (lod_loop_spec c n i l s) as H end.
  cbn zeta in H. destruct H as (_ & _ & Hrange & Hsum); [lia|].
  split.
  - intros j inst Hj Hlook. apply (Hrange j inst); [lia | done].
  - rewrite Hsum. cbn. lia.
Qed.

(** An instance: the six boundary instances seen from the origin. *)
Lemma lod_pass_invariants_witness :
  0 <= 6 <= Z.of_nat (length boundary_instances)
  /\ let out := Anim4dcUpdateInstanceLOD boundary_instances 6 origin zero_stats in
     (forall (j : nat) inst,
         Z.of_nat j < 6 -> out.1 !! j = Some inst ->
         (visible inst = true <-> lodLevel inst <> ANIM4DC_LOD_CULLED)
         /\ lodLevel inst <> ANIM4DC_LOD_FROZEN)
     /\ visibleInstances (Anim4dcGetStats out.2)
        + culledInstances (Anim4dcGetStats out.2) = 6.
Proof.
  split; [cbn; lia|].
  apply (lod_pass_invariants boundary_instances 6 origin zero_stats).
  cbn; lia.
Defined.

(** ** Arithmetic on numbers does not produce a NaN

    Rounding a non-negative mantissa never yields a NaN, so a difference
    with a finite subtrahend and a quotient by a finite non-zero divisor
    are numbers (possibly infinite) whenever the other operand is. *)

Lemma shr_1_nonneg (mrs : shr_record) : 0 <= shr_m mrs -> 0 <= shr_m (shr_1 mrs).
Proof.
  destruct mrs as [m r s]. cbn [shr_m]. intros Hm.
  destruct m as [|p|p]; [done| |lia].
  destruct p; cbn; lia.
Qed.

Lemma iter_shr_1_nonneg (n : positive) :
  forall mrs, 0 <= shr_m mrs -> 0 <= shr_m (SpecFloat.iter_pos shr_1 n mrs).
Proof.
  induction n as [n IH|n IH|]; intros mrs Hm; cbn [SpecFloat.iter_pos].
  - apply IH, IH, shr_1_nonneg, Hm.
  - apply IH, IH, Hm.
  - apply shr_1_nonneg, Hm.
Qed.

Lemma shr_fexp_nonneg (m e : Z) (l : location) :
  0 <= m -> 0 <= shr_m (shr_fexp fprec femax m e l).1.
Proof.
  intros Hm. unfold shr_fexp, shr.
  assert (Hrec : 0 <= shr_m (shr_record_of_loc m l))
    by (destruct l as [|[| |]]; done).
  destruct (fexp fprec femax (Zdigits2 m + e) - e); cbn [fst]; try done.
  by apply iter_shr_1_nonneg.
Qed.

Lemma round_nearest_even_nonneg (m : Z) (l : location) :
  0 <= m -> 0 <= round_nearest_even m l.
Proof.
  intros Hm. destruct l as [|[| |]]; cbn; try done; [|lia].
  destruct (Z.even m); lia.
Qed.

Lemma binary_round_aux_not_nan (s : bool) (m e : Z) (l : location) :
  0 <= m -> is_nan (binary_round_aux fprec femax s m e l) = false.
Proof.
  intros Hm. unfold binary_round_aux.
  pose proof (shr_fexp_nonneg m e l Hm) as H1.
  destruct (shr_fexp fprec femax m e l) as [mrs' e']. cbn [fst] in H1.
  pose proof (shr_fexp_nonneg _ e' loc_Exact
                (round_nearest_even_nonneg _ (loc_of_shr_record mrs') H1)) as H2.
  destruct (shr_fexp fprec femax _ e' loc_Exact) as [mrs'' e'']. cbn [fst] in H2.
  destruct (shr_m mrs'') as [|p|p]; [done| |lia].
  by destruct (e'' <=? femax - fprec).
Qed.

Lemma binary_normalize_not_nan (m e : Z) (szero : bool) :
  is_nan (binary_normalize fprec femax m e szero) = false.
Proof.
  destruct m as [|p|p]; cbn [binary_normalize]; [done| |];
    unfold binary_round; destruct (shl_align _ _ _) as [mz ez];
    by apply binary_round_aux_not_nan.
Qed.

Lemma fsub_not_nan (b a : float) :
  is_nan b = false -> is_finite a = true -> is_nan (fsub b a) = false.
Proof.
  destruct b as [sb|sb| |sb mb eb], a as [sa|sa| |sa ma ea]; try done; intros _ _.
  - by destruct sb, sa.
  - apply binary_normalize_not_nan.
Qed.

Lemma fdiv_not_nan (n d : float) :
  is_nan n = false -> is_finite d = true -> is_zero d = false ->
  is_nan (fdiv n d) = false.
Proof.
  destruct n as [sn|sn| |sn mn en], d as [sd|sd| |sd md ed]; try done; intros _ _ _.
  unfold fdiv, SFdiv.
  destruct (SFdiv_core_binary fprec femax (Zpos mn) en (Zpos md) ed) as [[q e'] l] eqn:Hcore.
  apply binary_round_aux_not_nan.
  unfold SFdiv_core_binary in Hcore.
  set (m' := match _ - _ - _ with Z0 => _ | Zpos _ => _ | Zneg _ => _ end) in Hcore.
  assert (Hm' : 0 <= m').
  { subst m'. destruct (_ - _ - _); [lia | | lia].
    apply Z.shiftl_nonneg. lia. }
  pose proof (Z.div_eucl_eq m' (Zpos md) ltac:(lia)) as Heq.
  pose proof (Z.mod_pos_bound m' (Zpos md) ltac:(lia)) as Hmod.
  unfold Z.modulo in Hmod.
  destruct (Z.div_eucl m' (Zpos md)) as [q' r']. inversion Hcore; subst. nia.
Qed.

Lemma spec_factor_not_nan (clock a b : float) :
  is_nan clock = false -> is_finite a = true -> is_finite (fsub b a) = true ->
  is_nan (spec_factor clock a b) = false.
Proof.
  intros Hclock Ha Hden. unfold spec_factor.
  destruct (fltb f0 (fsub b a)) eqn:Hpos; [|done].
  apply fdiv_not_nan; [by apply fsub_not_nan | done |].
  by destruct (fsub b a).
Qed.

Lemma fleb_not_nan (a b : float) : fleb a b = true -> is_nan a = false /\ is_nan b = false.
Proof. intros H. apply fleb_rank in H. tauto. Qed.

(** ** Playback *)

Lemma selected_clip_lookup (s : Anim4dcAnimationSystem)
    (anim : Anim4dcVertexAnimation) :
  selected_clip s = Some anim ->
  0 <= currentAnimation s < animationCount s
  /\ animations s !!! Z.to_nat (currentAnimation s) = anim.
Proof.
  unfold selected_clip.
  destruct (0 <=? currentAnimation s) eqn:Hlow;
    destruct (currentAnimation s <? animationCount s) eqn:Hhigh; cbn; try done.
  intros Hlook. split; [lia|]. by apply list_lookup_total_correct.
Qed.

(** What one call does once all the guards are passed. *)
Lemma update_when_playing (s : Anim4dcAnimationSystem)
    (anim : Anim4dcVertexAnimation) (output : list float) (deltaTime : float) :
  initialized s = true ->
  selected_clip s = Some anim ->
  2 <= keyframeCount anim ->
  interpolationBuffer s = Some output ->
  let time := advance_clock anim (currentTime s) deltaTime in
  let pair := select_keyframes anim time in
  let t := clamp01 (raw_factor anim time pair.1 pair.2) in
  Anim4dcUpdateAnimation deltaTime s
  = mkSystem (animations s) (animationCount s) (currentAnimation s) time
      (Some (Anim4dcInterpolateVertices output (vertices_at anim pair.1)
               (vertices_at anim pair.2) t (vertexCount s)))
      (vertexCount s) (initialized s).
Proof.
  intros Hinit Hsel Hkf Hbuf. apply selected_clip_lookup in Hsel as [Hrange Hanim].
  unfold Anim4dcUpdateAnimation. rewrite Hinit, Hbuf, Hanim. cbn [negb orb].
  replace (currentAnimation s <? 0) with false by lia.
  replace (animationCount s <=? currentAnimation s) with false by lia.
  replace (keyframeCount anim <? 2) with false by lia.
  cbn zeta. by destruct (select_keyframes anim _).
Qed.

(** C9.  With no interpolation buffer, [Anim4dcUpdateAnimation] returns
    the state it was given, clock included, whatever clip is selected,
    and [Anim4dcGetInterpolatedVertices] returns [NULL]. *)
Theorem update_without_buffer (s : Anim4dcAnimationSystem) (deltaTime : float) :
  interpolationBuffer s = None ->
  Anim4dcUpdateAnimation deltaTime s = s
  /\ Anim4dcGetInterpolatedVertices s = None.
Proof.
  intros Hbuf. unfold Anim4dcUpdateAnimation, Anim4dcGetInterpolatedVertices.
  rewrite Hbuf. split; [|done].
  by destruct (negb (initialized s) || (currentAnimation s <? 0)
               || (animationCount s <=? currentAnimation s)).
Qed.

(** An instance: a clip of thirteen keyframes is selected and the bake
    could not allocate its buffer. *)
Lemma update_without_buffer_witness :
  interpolationBuffer system_no_buffer = None
  /\ (exists anim, selected_clip system_no_buffer = Some anim
                   /\ 2 <= keyframeCount anim)
  /\ Anim4dcUpdateAnimation f_tenth system_no_buffer = system_no_buffer
  /\ Anim4dcGetInterpolatedVertices system_no_buffer = None.
Proof.
  split; [reflexivity|]. split.
  - eexists. split; [vm_compute; reflexivity | vm_compute; discriminate].
  - apply (update_without_buffer system_no_buffer f_tenth). reflexivity.
Defined.

(** C4 as stated fails: the system below is initialized and has a clip
    of thirteen keyframes selected, yet a call with [deltaTime = 0.1f]
    leaves the clock at 0 instead of moving it to 0.1, because there is
    no interpolation buffer. *)
Lemma clock_frozen_without_buffer :
  initialized system_no_buffer = true
  /\ (exists anim, selected_clip system_no_buffer = Some anim
                   /\ 2 <= keyframeCount anim
                   /\ fleb (duration anim)
                        (fadd (currentTime system_no_buffer) f_tenth) = false)
  /\ currentTime (Anim4dcUpdateAnimation f_tenth system_no_buffer)
     <> fadd (currentTime system_no_buffer) f_tenth.
Proof.
  split; [reflexivity|]. split.
  - eexists. split; [vm_compute; reflexivity|].
    split; [vm_compute; discriminate | vm_compute; reflexivity].
  - vm_compute. discriminate.
Qed.

(** C4, amended.  In an initialized system with a selected clip of at
    least two keyframes and an allocated interpolation buffer, a call
    moves the clock to [currentTime + deltaTime]; when that sum has
    reached the clip's duration the clock is exactly 0 afterwards,
    whatever the excess. *)
Theorem clock_advance (s : Anim4dcAnimationSystem)
    (anim : Anim4dcVertexAnimation) (output : list float) (deltaTime : float) :
  initialized s = true ->
  selected_clip s = Some anim ->
  2 <= keyframeCount anim ->
  interpolationBuffer s = Some output ->
  let sum := fadd (currentTime s) deltaTime in
  let s' := Anim4dcUpdateAnimation deltaTime s in
  (fleb (duration anim) sum = true -> Anim4dcGetAnimationTime s' = f0)
  /\ (fleb (duration anim) sum = false -> Anim4dcGetAnimationTime s' = sum).
Proof.
  intros Hinit Hsel Hkf Hbuf sum s'. subst s'.
  rewrite (update_when_playing s anim output deltaTime) by done.
  unfold Anim4dcGetAnimationTime, advance_clock. cbn. fold sum.
  split; intros ->; reflexivity.
Qed.

(** An instance: a step of 1000 seconds on the 5-second demo clip resets
    the clock to 0. *)
Lemma clock_advance_witness :
  let s := anim4dc world_baked in
  let anim := animations s !!! 0%nat in
  let big := float_of_int 1000 in
  fleb (duration anim) (fadd (currentTime s) big) = true
  /\ Anim4dcGetAnimationTime (Anim4dcUpdateAnimation big s) = f0.
Proof.
  intros s anim big. split; [vm_compute; reflexivity|].
  refine (proj1 (clock_advance s anim (replicate 6 f0) big _ _ _ _) _);
    vm_compute; first [reflexivity | discriminate].
Defined.

Lemma brackets_in_bracket (anim : Anim4dcVertexAnimation) (clock : float) (i : Z) :
  brackets anim clock i = true <-> in_bracket anim clock i.
Proof. unfold brackets, in_bracket. by rewrite andb_true_iff. Qed.

(** The scan stops at the first bracketing pair. *)
Lemma scan_keyframes_first (anim : Anim4dcVertexAnimation) (clock : float) (n : nat) :
  forall start i : Z,
    start <= i < start + Z.of_nat n ->
    in_bracket anim clock i ->
    (forall j, start <= j < i -> ~ in_bracket anim clock j) ->
    scan_keyframes n start anim clock = (i, i + 1).
Proof.
  induction n as [|n IH]; intros start i Hi Hin Hfirst; [lia|].
  cbn [scan_keyframes].
  destruct (brackets anim clock start) eqn:Hb.
  - apply brackets_in_bracket in Hb.
    destruct (decide (start = i)) as [->|Hne]; [done|].
    exfalso. apply (Hfirst start); [lia | done].
  - destruct (decide (start = i)) as [->|Hne].
    + apply brackets_in_bracket in Hin. congruence.
    + apply IH; [lia | done | intros j Hj; apply Hfirst; lia].
Qed.

(** With sorted timestamps, a clock below one keyframe's timestamp is
    below the last keyframe's. *)
Lemma below_last_timestamp (anim : Anim4dcVertexAnimation) (clock : float) (d : nat) :
  timestamps_sorted anim ->
  forall i, 0 <= i -> i + Z.of_nat d = keyframeCount anim - 1 ->
            fltb clock (timestamp_at anim i) = true ->
            fltb clock (timestamp_at anim (keyframeCount anim - 1)) = true.
Proof.
  intros Hsorted. induction d as [|d IH]; intros i Hi Hd Hlt.
  - by replace (keyframeCount anim - 1) with i by lia.
  - apply (IH (i + 1)); [lia | lia |].
    apply (fltb_fleb_trans _ (timestamp_at anim i)); [done|].
    apply Hsorted. lia.
Qed.

Lemma raw_factor_normal (anim : Anim4dcVertexAnimation) (clock : float) (i : Z) :
  0 <= i ->
  raw_factor anim clock i (i + 1)
  = spec_factor clock (timestamp_at anim i) (timestamp_at anim (i + 1)).
Proof.
  intros Hi. unfold raw_factor, spec_factor.
  by replace (i + 1 =? 0) with false by lia.
Qed.

Lemma raw_factor_loop (anim : Anim4dcVertexAnimation) (clock : float) (i : Z) :
  raw_factor anim clock i 0 = spec_factor clock (timestamp_at anim i) (duration anim).
Proof. reflexivity. Qed.

Lemma timestamps_sortedb_correct (anim : Anim4dcVertexAnimation) :
  timestamps_sortedb anim = true -> timestamps_sorted anim.
Proof.
  unfold timestamps_sortedb, timestamps_sorted. rewrite forallb_forall.
  intros Hall j Hj. specialize (Hall (Z.to_nat j)).
  rewrite Z2Nat.id in Hall by lia. apply Hall.
  apply in_seq. lia.
Qed.

(** ** Interpolation

    Exactness facts of single-precision arithmetic that the endpoint
    cases of the interpolation rest on. *)

Lemma digits2_pos_xO (p : positive) :
  Zpos (digits2_pos p~0) = Zpos (digits2_pos p) + 1.
Proof.
  change (digits2_pos p~0) with (Pos.succ (digits2_pos p)).
  by rewrite Pos2Z.inj_succ.
Qed.

Lemma digits2_pos_shift23 (m : positive) :
  Zpos (digits2_pos (m * 8388608)) = Zpos (digits2_pos m) + 23.
Proof.
  rewrite Pos.mul_comm.
  change (8388608 * m)%positive with (m~0~0~0~0~0~0~0~0~0~0~0~0~0~0~0~0~0~0~0~0~0~0~0)%positive.
  rewrite !digits2_pos_xO. lia.
Qed.

Lemma shr_shift23 (m : positive) :
  SpecFloat.iter_pos shr_1 23%positive (Build_shr_record (Zpos (m * 8388608)) false false)
  = Build_shr_record (Zpos m) false false.
Proof.
  rewrite Pos.mul_comm.
  change (8388608 * m)%positive with (m~0~0~0~0~0~0~0~0~0~0~0~0~0~0~0~0~0~0~0~0~0~0~0)%positive.
  reflexivity.
Qed.

Lemma fmul_one (x : float) : valid_float x = true -> fmul x f1 = x.
Proof.
  destruct x as [s|s| |s m e]; cbn; intros Hvalid.
  - by destruct s.
  - by destruct s.
  - done.
  - unfold valid_float, valid_binary, bounded, canonical_mantissa in Hvalid.
    apply andb_true_iff in Hvalid as [Hcanon Hbound].
    apply Z.eqb_eq in Hcanon. 
    unfold fmul, f1, SFmul, binary_round_aux, shr_fexp.
    unfold Zdigits2. rewrite digits2_pos_shift23.
    replace (Zpos (digits2_pos m) + 23 + (e + -23)) with (Zpos (digits2_pos m) + e) by lia.
    rewrite Hcanon.
    replace (e - (e + -23)) with 23 by lia.
    unfold shr at 1. cbn [shr_record_of_loc]. rewrite shr_shift23.
    cbn [shr_m loc_of_shr_record round_nearest_even].
    replace (e + -23 + 23) with e by lia.
    cbn [shr_record_of_loc]. rewrite Hcanon, Z.sub_diag. cbn [shr shr_m].
    rewrite Hbound. by destruct s.
Qed.

Lemma feqb_refl (x : float) : is_nan x = false -> feqb x x = true.
Proof.
  destruct x as [s|s| |s m e]; cbn; try done; intros _.
  - by destruct s.
  - unfold feqb, SFeqb, SFcompare.
    rewrite Z.compare_refl, Pos.compare_cont_refl. by destruct s.
Qed.

Lemma same_number_refl (x : float) : is_nan x = false -> same_number x x.
Proof. intros Hx. split; [by apply feqb_refl | done]. Qed.

Lemma fadd_zero_r (a : float) (s : bool) :
  is_nan a = false -> same_number (fadd a (S754_zero s)) a.
Proof.
  destruct a as [sa|sa| |sa m e]; cbn; try done; intros _.
  - by destruct sa, s.
  - by apply same_number_refl.
  - by apply same_number_refl.
Qed.

Lemma fmul_zero_r (d : float) :
  is_finite d = true -> exists s, fmul d f0 = S754_zero s.
Proof. destruct d as [s|s| |s m e]; cbn; try done; intros _; eauto. Qed.

Lemma lerp_at_zero (a b : float) :
  is_finite a = true -> is_finite (fsub b a) = true ->
  same_number (lerp a b f0) a.
Proof.
  intros Ha Hd. unfold lerp.
  destruct (fmul_zero_r _ Hd) as [s ->].
  apply fadd_zero_r. by destruct a.
Qed.

Lemma fsub_diag (a : float) : is_finite a = true -> fsub a a = f0.
Proof.
  destruct a as [s|s| |s m e]; cbn; try done; intros _.
  - by destruct s.
  - unfold fsub, SFsub. by rewrite Z.sub_diag.
Qed.

Lemma lerp_same (a t : float) :
  is_finite a = true -> is_finite t = true -> same_number (lerp a a t) a.
Proof.
  intros Ha Ht. unfold lerp. rewrite fsub_diag by done.
  assert (exists s, fmul f0 t = S754_zero s) as [s ->]
    by (destruct t as [s|s| |s m e]; cbn; try done; eauto).
  apply fadd_zero_r. by destruct a.
Qed.

Lemma lerp_from_zero (a b : float) :
  is_zero a = true -> valid_float b = true -> is_nan b = false ->
  same_number (lerp a b f1) b.
Proof.
  intros Ha Hb Hnan. unfold lerp.
  destruct a as [sa| | |]; try done.
  destruct b as [sb|sb| |sb m e]; try done.
  - by destruct sa, sb.
  - by destruct sa, sb.
  - change (fsub (S754_finite sb m e) (S754_zero sa)) with (S754_finite sb m e).
    rewrite fmul_one by done. by apply same_number_refl.
Qed.

(** The loop writes [lerp] of the two sources at each index it visits
    inside the output buffer and leaves every other entry alone. *)
Lemma interpolate_loop_lookup (v1 v2 : list float) (t : float) (n : nat) :
  forall (i : nat) (output : list float) (j : nat),
    interpolate_loop n i output v1 v2 t !! j
    = if decide ((i <= j < i + n)%nat /\ (j < length output)%nat)
      then Some (lerp (v1 !!! j) (v2 !!! j) t)
      else output !! j.
Proof.
  induction n as [|n IH]; intros i output j; cbn [interpolate_loop].
  - destruct (decide _) as [[Hj _]|_]; [lia | done].
  - rewrite IH, length_insert.
    destruct (decide (j = i)) as [->|Hne].
    + destruct (decide ((S i <= i < S i + n)%nat /\ _)) as [[Hj _]|_]; [lia|].
      destruct (decide ((i <= i < i + S n)%nat /\ (i < length output)%nat))
        as [[_ Hlen]|Hout].
      * by apply list_lookup_insert_eq.
      * rewrite list_insert_ge by lia. reflexivity.
    + rewrite list_lookup_insert_ne by done.
      destruct (decide ((S i <= j < S i + n)%nat /\ _)) as [[Hj Hlen]|Hout];
        destruct (decide ((i <= j < i + S n)%nat /\ _)) as [[Hj' Hlen']|Hout'];
        try done; exfalso; lia.
Qed.

Lemma interpolate_lookup (output v1 v2 : list float) (t : float) (nverts : Z)
    (i : nat) (x1 x2 : float) :
  Z.of_nat i < nverts * 3 -> (i < length output)%nat ->
  v1 !! i = Some x1 -> v2 !! i = Some x2 ->
  Anim4dcInterpolateVertices output v1 v2 t nverts !! i = Some (lerp x1 x2 t).
Proof.
  intros Hi Hlen H1 H2. unfold Anim4dcInterpolateVertices.
  rewrite interpolate_loop_lookup.
  rewrite (list_lookup_total_correct _ _ _ H1), (list_lookup_total_correct _ _ _ H2).
  destruct (decide _) as [_|Hout]; [done | exfalso; lia].
Qed.

(** ** Keyframe selection and the interpolated pose *)

Lemma interpolate_loop_length (v1 v2 : list float) (t : float) (n : nat) :
  forall (i : nat) (output : list float),
    length (interpolate_loop n i output v1 v2 t) = length output.
Proof.
  induction n as [|n IH]; intros i output; cbn [interpolate_loop]; [done|].
  by rewrite IH, length_insert.
Qed.

Lemma fltb_fleb (a b : float) : fltb a b = true -> fleb a b = true.
Proof.
  rewrite fltb_rank, fleb_rank. intros (Ha & Hb & Hlt).
  split; [done|]. split; [done|]. by left.
Qed.

(** The C clamp lets a NaN through: both of its comparisons are false. *)
Lemma clamp01_nan (t : float) : is_nan t = true -> clamp01 t = t.
Proof. by destruct t. Qed.

Lemma clamp01_low (t : float) : fltb t f0 = true -> clamp01 t = f0.
Proof. unfold clamp01. by intros ->. Qed.

Lemma clamp01_high (t : float) : fltb f1 t = true -> clamp01 t = f1.
Proof.
  intros Hhigh. unfold clamp01. rewrite Hhigh.
  destruct (fltb t f0) eqn:Hlow; [|done].
  assert (Hlt : fltb t f1 = true)
    by (apply (fltb_fleb_trans t f0 f1); [done | by vm_compute]).
  apply fltb_fleb_false in Hlt. apply fltb_fleb in Hhigh. congruence.
Qed.

(** Without a bracketing pair the scan keeps its initial [(0, 1)]. *)
Lemma scan_keyframes_none (anim : Anim4dcVertexAnimation) (clock : float) (n : nat) :
  forall start : Z,
    (forall j, start <= j < start + Z.of_nat n -> ~ in_bracket anim clock j) ->
    scan_keyframes n start anim clock = (0, 1).
Proof.
  induction n as [|n IH]; intros start Hnone; cbn [scan_keyframes]; [done|].
  destruct (brackets anim clock start) eqn:Hb.
  - apply brackets_in_bracket in Hb. exfalso. apply (Hnone start); [lia | done].
  - apply IH. intros j Hj. apply Hnone. lia.
Qed.

(** The vertex data of a keyframe that has a buffer. *)
Lemma vertices_at_lookup (anim : Anim4dcVertexAnimation) (i : Z)
    (kf : Anim4dcVertexKeyframe) (v : list float) :
  keyframes anim !! Z.to_nat i = Some kf -> vertices kf = Some v ->
  vertices_at anim i = v.
Proof.
  intros Hkf Hv. unfold vertices_at.
  by rewrite (list_lookup_total_correct _ _ _ Hkf), Hv.
Qed.

(** C3 as stated fails, in two ways.  First: the system below is
    initialized and has a clip of thirteen keyframes with sorted
    timestamps selected, yet a call selects and interpolates nothing,
    because the bake could not allocate the interpolation buffer.
    Second: in the baked demo world, which has its buffer, a call with a
    NaN for [deltaTime] computes a NaN factor that passes the clamp, so
    [t] is outside [[0, 1]], and every interpolated component is a NaN. *)
Lemma keyframe_selection_unguarded :
  (initialized system_no_buffer = true
   /\ exists anim,
        selected_clip system_no_buffer = Some anim
        /\ 2 <= keyframeCount anim
        /\ timestamps_sortedb anim = true
        /\ Anim4dcUpdateAnimation f_tenth system_no_buffer = system_no_buffer
        /\ Anim4dcGetInterpolatedVertices
             (Anim4dcUpdateAnimation f_tenth system_no_buffer) = None)
  /\ (let s := anim4dc world_baked in
      initialized s = true
      /\ interpolationBuffer s = Some (replicate 6 f0)
      /\ exists anim,
           selected_clip s = Some anim
           /\ 2 <= keyframeCount anim
           /\ timestamps_sortedb anim = true
           /\ let clock := advance_clock anim (currentTime s) f_nan in
              let pair := select_keyframes anim clock in
              let t := clamp01 (raw_factor anim clock pair.1 pair.2) in
              is_nan t = true
              /\ fleb f0 t = false /\ fleb t f1 = false
              /\ Anim4dcGetInterpolatedVertices (Anim4dcUpdateAnimation f_nan s)
                 = Some (replicate 6 f_nan)).
Proof.
  split.
  - split; [reflexivity|]. eexists.
    split; [vm_compute; reflexivity|].
    split; [vm_compute; discriminate|].
    repeat split; vm_compute; reflexivity.
  - cbv zeta. split; [reflexivity|]. split; [vm_compute; reflexivity|].
    eexists. split; [vm_compute; reflexivity|].
    split; [vm_compute; discriminate|].
    repeat split; vm_compute; reflexivity.
Qed.

(** C3, amended.  In an initialized system with a selected clip of at
    least two keyframes whose timestamps never decrease and with an
    allocated interpolation buffer, let [clock] be the clock that a
    call computes, [pair] the keyframes it selects, [raw] its factor
    and [t] the factor after the clamp.  The call stores [clock], and
    each of the first [vertexCount * 3] components of the buffer becomes
    [x1 + (x2 - x1) * t] for the components [x1], [x2] of the vertex
    buffers of the two keyframes of [pair]; the rest of the buffer is
    untouched.  Further
    - when [i] is the first index with
      [timestamp i <= clock < timestamp (i + 1)], the pair is
      [(i, i + 1)] and [raw] is [(clock - t_i) / (t_{i+1} - t_i)], or 0
      when that denominator is not positive;
    - when the clock has reached the last timestamp, the pair is
      [(last, 0)] and [raw] is
      [(clock - t_last) / (duration - t_last)] with the same guard;
    - in neither case the pair is [(0, 1)];
    - the clamp gives 0 below 0, 1 above 1 and [raw] itself in between,
      so [t] lies in [[0, 1]] whenever [raw] is a number, which it is
      in both cases above when the earlier timestamp and the denominator
      are finite; a NaN passes the clamp unchanged. *)
Theorem keyframe_selection (s : Anim4dcAnimationSystem)
    (anim : Anim4dcVertexAnimation) (deltaTime : float) (output : list float) :
  initialized s = true ->
  selected_clip s = Some anim ->
  2 <= keyframeCount anim ->
  timestamps_sorted anim ->
  interpolationBuffer s = Some output ->
  let clock := advance_clock anim (currentTime s) deltaTime in
  let last := keyframeCount anim - 1 in
  let pair := select_keyframes anim clock in
  let raw := raw_factor anim clock pair.1 pair.2 in
  let t := clamp01 raw in
  let s' := Anim4dcUpdateAnimation deltaTime s in
  Anim4dcGetAnimationTime s' = clock
  /\ (exists pose,
        Anim4dcGetInterpolatedVertices s' = Some pose
        /\ length pose = length output
        /\ (forall kf1 kf2 v1 v2,
              keyframes anim !! Z.to_nat pair.1 = Some kf1 ->
              keyframes anim !! Z.to_nat pair.2 = Some kf2 ->
              vertices kf1 = Some v1 -> vertices kf2 = Some v2 ->
              forall (j : nat) (x1 x2 : float),
                Z.of_nat j < vertexCount s * 3 -> (j < length output)%nat ->
                v1 !! j = Some x1 -> v2 !! j = Some x2 ->
                pose !! j = Some (lerp x1 x2 t))
        /\ (forall j : nat, vertexCount s * 3 <= Z.of_nat j ->
                            pose !! j = output !! j))
  /\ (forall i, 0 <= i < last ->
                in_bracket anim clock i ->
                (forall j, 0 <= j < i -> ~ in_bracket anim clock j) ->
                pair = (i, i + 1)
                /\ raw = spec_factor clock (timestamp_at anim i)
                                     (timestamp_at anim (i + 1))
                /\ (is_finite (timestamp_at anim i) = true ->
                    is_finite (fsub (timestamp_at anim (i + 1))
                                    (timestamp_at anim i)) = true ->
                    fleb f0 t = true /\ fleb t f1 = true))
  /\ (fleb (timestamp_at anim last) clock = true ->
      pair = (last, 0)
      /\ raw = spec_factor clock (timestamp_at anim last) (duration anim)
      /\ (is_finite (timestamp_at anim last) = true ->
          is_finite (fsub (duration anim) (timestamp_at anim last)) = true ->
          fleb f0 t = true /\ fleb t f1 = true))
  /\ ((forall i, 0 <= i < last -> ~ in_bracket anim clock i) ->
      fleb (timestamp_at anim last) clock = false ->
      pair = (0, 1))
  /\ (is_nan raw = false -> fleb f0 t = true /\ fleb t f1 = true)
  /\ (is_nan raw = true -> t = raw)
  /\ (fltb raw f0 = true -> t = f0)
  /\ (fltb f1 raw = true -> t = f1)
  /\ (fleb f0 raw = true -> fleb raw f1 = true -> t = raw).
Proof.
  intros Hinit Hsel Hkf Hsorted Hbuf clock last pair raw t s'.
  assert (Hupdate : s' = mkSystem (animations s) (animationCount s)
                           (currentAnimation s) clock
                           (Some (Anim4dcInterpolateVertices output
                                    (vertices_at anim pair.1)
                                    (vertices_at anim pair.2) t (vertexCount s)))
                           (vertexCount s) (initialized s))
    by (subst s'; by rewrite (update_when_playing s anim output deltaTime)).
  split; [by rewrite Hupdate|].
  split.
  { eexists. split; [by rewrite Hupdate|].
    split; [apply interpolate_loop_length|]. split.
    - intros kf1 kf2 v1 v2 Hkf1 Hkf2 Hv1 Hv2 j x1 x2 Hj Hlen Hx1 Hx2.
      rewrite (vertices_at_lookup anim pair.1 kf1 v1 Hkf1 Hv1).
      rewrite (vertices_at_lookup anim pair.2 kf2 v2 Hkf2 Hv2).
      by apply interpolate_lookup.
    - intros j Hj. unfold Anim4dcInterpolateVertices.
      rewrite interpolate_loop_lookup.
      destruct (decide _) as [[Hin _]|_]; [lia | done]. }
  split; [|split; [|split; [|split; [|split; [|split; [|split]]]]]].
  - intros i Hi Hin Hfirst.
    assert (Hpair : pair = (i, i + 1)).
    { subst pair. unfold select_keyframes. fold last.
      assert (Hbelow : fltb clock (timestamp_at anim last) = true).
      { destruct Hin as [_ Hlt].
        apply (below_last_timestamp anim clock (Z.to_nat (last - (i + 1))) Hsorted
                 (i + 1)); [lia | subst last; lia | done]. }
      rewrite (fltb_fleb_false _ _ Hbelow).
      apply scan_keyframes_first; [lia | done | done]. }
    assert (Hraw : raw = spec_factor clock (timestamp_at anim i)
                                     (timestamp_at anim (i + 1))).
    { subst raw. rewrite Hpair. cbn [fst snd]. apply raw_factor_normal. lia. }
    split; [done|]. split; [done|].
    intros Hfin Hden. apply clamp01_range. rewrite Hraw.
    destruct Hin as [Hle _]. apply fleb_not_nan in Hle as [_ Hclock].
    by apply spec_factor_not_nan.
  - intros Hlast.
    assert (Hpair : pair = (last, 0)).
    { subst pair. unfold select_keyframes. fold last. by rewrite Hlast. }
    assert (Hraw : raw = spec_factor clock (timestamp_at anim last) (duration anim)).
    { subst raw. rewrite Hpair. cbn [fst snd]. apply raw_factor_loop. }
    split; [done|]. split; [done|].
    intros Hfin Hden. apply clamp01_range. rewrite Hraw.
    apply fleb_not_nan in Hlast as [_ Hclock].
    by apply spec_factor_not_nan.
  - intros Hnone Hlast. subst pair. unfold select_keyframes. fold last.
    rewrite Hlast. apply scan_keyframes_none. intros j Hj. apply Hnone. lia.
  - apply clamp01_range.
  - apply clamp01_nan.
  - apply clamp01_low.
  - apply clamp01_high.
  - apply clamp01_inside.
Qed.

(** An instance: 0.1 s into the demo clip the call interpolates between
    the keyframes 0 and 1 at a quarter, and the first component, 0 in
    keyframe 0 and 8 in keyframe 1, becomes 2. *)
Lemma keyframe_selection_witness :
  let s := anim4dc world_baked in
  let anim := animations s !!! 0%nat in
  let clock := advance_clock anim (currentTime s) f_tenth in
  timestamps_sorted anim
  /\ in_bracket anim clock 0
  /\ select_keyframes anim clock = (0, 1)
  /\ raw_factor anim clock 0 1
     = spec_factor clock (timestamp_at anim 0) (timestamp_at anim 1)
  /\ clamp01 (raw_factor anim clock 0 1) = fdiv f1 (float_of_int 4)
  /\ exists pose,
       Anim4dcGetInterpolatedVertices (Anim4dcUpdateAnimation f_tenth s)
       = Some pose
       /\ pose !! 0%nat = Some (float_of_int 2).
Proof.
  intros s anim clock.
  assert (Hsorted : timestamps_sorted anim)
    by (apply timestamps_sortedb_correct; vm_compute; reflexivity).
  assert (Hin : in_bracket anim clock 0) by (split; vm_compute; reflexivity).
  split; [exact Hsorted|]. split; [exact Hin|].
  assert (Hinit : initialized s = true) by reflexivity.
  assert (Hsel : selected_clip s = Some anim) by (vm_compute; reflexivity).
  assert (Hkf : 2 <= keyframeCount anim) by (vm_compute; discriminate).
  assert (Hbuf : interpolationBuffer s = Some (replicate 6 f0))
    by (vm_compute; reflexivity).
  destruct (keyframe_selection s anim f_tenth (replicate 6 f0)
              Hinit Hsel Hkf Hsorted Hbuf)
    as (_ & (pose & Hpose & _ & Hdata & _) & Hnormal & _).
  destruct (Hnormal 0) as (Hpair & Hraw & _).
  - vm_compute. split; [discriminate | reflexivity].
  - exact Hin.
  - intros j Hj. lia.
  - fold clock in Hpair, Hraw, Hdata. rewrite Hpair in Hraw, Hdata.
    cbn [fst snd] in Hraw, Hdata.
    split; [exact Hpair|]. split; [exact Hraw|].
    split; [vm_compute; reflexivity|].
    exists pose. split; [exact Hpose|].
    assert (Hx : pose !! 0%nat
                 = Some (lerp f0 (float_of_int 8)
                           (clamp01 (raw_factor anim clock 0 (0 + 1))))).
    { apply (Hdata (keyframes anim !!! 0%nat) (keyframes anim !!! 1%nat)
               (replicate 6 f0) (replicate 6 (float_of_int 8)));
        first [vm_compute; reflexivity | vm_compute; lia]. }
    rewrite Hx. vm_compute. reflexivity.
Defined.

(** C8 as stated fails at [t = 1]: interpolating from 100000000 to 1
    writes 0, not the later keyframe's 1, because [1 - 100000000] rounds
    to [-100000000] in single precision. *)
Lemma interpolation_at_one_inexact :
  Anim4dcInterpolateVertices blank_vertices early_vertices late_vertices f1 1 !! 0%nat
  = Some f0
  /\ late_vertices !! 0%nat = Some f1
  /\ Anim4dcInterpolateVertices blank_vertices early_vertices late_vertices f1 1
     <> late_vertices.
Proof. split; [|split]; vm_compute; [reflexivity | reflexivity | discriminate]. Qed.

(** C8, amended.  For every component [i] of the [vertexCount * 3] that
    the interpolation writes, with [x1] the earlier and [x2] the later
    keyframe's value:
    - at [t = 0] the value written equals [x1] (it is the same datum,
      except that a zero may come out with the other sign), provided
      [x1] and the difference [x2 - x1] are finite;
    - at [t = 1] the value written is [x1 + (x2 - x1) * 1] in single
      precision, which is [x1 + (x2 - x1)] as the difference is a
      well-formed datum; it equals [x2] when [x1 = x2], and when [x1] is
      a zero and [x2] a well-formed number. *)
Theorem interpolation_endpoints (output v1 v2 : list float) (nverts : Z)
    (i : nat) (x1 x2 : float) :
  Z.of_nat i < nverts * 3 -> (i < length output)%nat ->
  v1 !! i = Some x1 -> v2 !! i = Some x2 ->
  let at_zero := Anim4dcInterpolateVertices output v1 v2 f0 nverts in
  let at_one := Anim4dcInterpolateVertices output v1 v2 f1 nverts in
  (is_finite x1 = true -> is_finite (fsub x2 x1) = true ->
   exists y, at_zero !! i = Some y /\ same_number y x1)
  /\ at_one !! i = Some (fadd x1 (fmul (fsub x2 x1) f1))
  /\ (valid_float (fsub x2 x1) = true ->
      at_one !! i = Some (fadd x1 (fsub x2 x1)))
  /\ (is_finite x1 = true -> x2 = x1 ->
      exists y, at_one !! i = Some y /\ same_number y x2)
  /\ (is_zero x1 = true -> valid_float x2 = true -> is_nan x2 = false ->
      exists y, at_one !! i = Some y /\ same_number y x2).
Proof.
  intros Hi Hlen H1 H2 at_zero at_one. subst at_zero at_one.
  rewrite !(interpolate_lookup output v1 v2 _ nverts i x1 x2) by done.
  split; [|split; [|split; [|split]]].
  - intros Hx1 Hd. eexists. split; [done|]. by apply lerp_at_zero.
  - done.
  - intros Hvalid. unfold lerp. by rewrite fmul_one.
  - intros Hx1 ->. eexists. split; [done|]. by apply lerp_same.
  - intros Hx1 Hx2 Hnan. eexists. split; [done|]. by apply lerp_from_zero.
Qed.

(** An instance: [early_vertices] and [late_vertices]. *)
Lemma interpolation_endpoints_witness :
  let at_zero :=
    Anim4dcInterpolateVertices blank_vertices early_vertices late_vertices f0 1 in
  let at_one :=
    Anim4dcInterpolateVertices blank_vertices early_vertices late_vertices f1 1 in
  (exists y, at_zero !! 0%nat = Some y /\ same_number y (float_of_int 100000000))
  /\ (exists y, at_one !! 1%nat = Some y /\ same_number y (float_of_int 7))
  /\ (exists y, at_one !! 2%nat = Some y /\ same_number y (float_of_int 5)).
Proof.
  intros at_zero at_one. split; [|split].
  - refine (proj1 (interpolation_endpoints blank_vertices early_vertices
                     late_vertices 1 0 (float_of_int 100000000) f1 _ _ _ _) _ _);
      vm_compute; first [reflexivity | lia].
  - refine (proj2 (proj2 (proj2 (proj2
              (interpolation_endpoints blank_vertices early_vertices
                 late_vertices 1 1 f0 (float_of_int 7) _ _ _ _)))) _ _ _);
      vm_compute; first [reflexivity | lia].
  - refine (proj1 (proj2 (proj2 (proj2
              (interpolation_endpoints blank_vertices early_vertices
                 late_vertices 1 2 (float_of_int 5) (float_of_int 5) _ _ _ _)))) _ _);
      vm_compute; first [reflexivity | lia].
Defined.

(** ** Well-formedness is an invariant of the library *)

Lemma clip_ok_spec (a : Anim4dcVertexAnimation) :
  clip_ok a = true
  <-> length (keyframes a) = 20%nat /\ 0 <= keyframeCount a <= 20.
Proof.
  unfold clip_ok, ANIM4DC_MAX_KEYFRAMES.
  rewrite !andb_true_iff, Nat.eqb_eq, !Z.leb_le. tauto.
Qed.

Lemma well_formed_spec (s : Anim4dcAnimationSystem) :
  well_formed s = true
  <-> length (animations s) = 8%nat
      /\ Forall (fun a => clip_ok a = true) (animations s)
      /\ 0 <= animationCount s <= 8
      /\ (initialized s = false -> animationCount s = 0).
Proof.
  unfold well_formed, ANIM4DC_MAX_ANIMATIONS.
  rewrite !andb_true_iff, Nat.eqb_eq, !Z.leb_le, orb_true_iff, Z.eqb_eq,
    forallb_forall, Forall_forall.
  setoid_rewrite <- list_elem_of_In.
  destruct (initialized s); intuition congruence.
Qed.

Lemma capture_clip_ok (env : Env) (animation : Anim4dcVertexAnimation)
    (tstamp : float) (vertexData : list float) (nverts : Z) (nalloc : nat) :
  clip_ok animation = true ->
  clip_ok (Anim4dcCaptureVertexKeyframe env animation tstamp vertexData
             nverts nalloc).1 = true.
Proof.
  rewrite !clip_ok_spec. intros [Hlen Hcount].
  unfold Anim4dcCaptureVertexKeyframe, ANIM4DC_MAX_KEYFRAMES.
  destruct (20 <=? keyframeCount animation) eqn:Hfull; [done|].
  destruct (malloc_ok env nalloc); cbn; rewrite length_insert; split; try done; lia.
Qed.

Lemma sample_loop_clip_ok (env : Env) (skelAnim : ModelAnimation)
    (keyframeStep nverts : Z) (fuel : nat) :
  forall (frame : Z) (model : Model) (vertAnim : Anim4dcVertexAnimation)
         (nalloc : nat),
    clip_ok vertAnim = true ->
    clip_ok (sample_loop env fuel frame keyframeStep skelAnim model vertAnim
               nverts nalloc).1.2 = true.
Proof.
  induction fuel as [|fuel IH]; intros frame model vertAnim nalloc Hok;
    cbn [sample_loop]; [done|].
  destruct (frame <? frameCount skelAnim); [|done].
  destruct (animVertices _) as [vertexData|].
  - pose proof (capture_clip_ok env vertAnim (fdiv (float_of_int frame) f20)
                  vertexData nverts nalloc Hok) as Hcap.
    destruct (Anim4dcCaptureVertexKeyframe _ _ _ _ _ _) as [vertAnim' nalloc'].
    by apply IH.
  - by apply IH.
Qed.

Lemma bake_clip_clip_ok (env : Env) (a : nat) (skelAnim : ModelAnimation)
    (model : Model) (vertAnim : Anim4dcVertexAnimation) (nverts : Z) (nalloc : nat) :
  clip_ok vertAnim = true ->
  clip_ok (bake_clip env a skelAnim model vertAnim nverts nalloc).1.2 = true.
Proof.
  intros Hok. unfold bake_clip. apply sample_loop_clip_ok.
  apply clip_ok_spec in Hok as [Hlen _]. apply clip_ok_spec. cbn. split; [done | lia].
Qed.

Lemma Forall_lookup_total_ok (clips : list Anim4dcVertexAnimation) (a : nat) :
  Forall (fun c => clip_ok c = true) clips -> (a < length clips)%nat ->
  clip_ok (clips !!! a) = true.
Proof.
  intros Hall Ha. destruct (lookup_lt_is_Some_2 clips a Ha) as [c Hc].
  rewrite (list_lookup_total_correct _ _ _ Hc).
  by apply (Forall_lookup_1 _ _ _ _ Hall Hc).
Qed.

Lemma bake_loop_ok (env : Env) (anims : list ModelAnimation) (nverts : Z) (n : nat) :
  forall (a : nat) (model : Model) (clips : list Anim4dcVertexAnimation)
         (nalloc : nat),
    (a + n <= length clips)%nat ->
    Forall (fun c => clip_ok c = true) clips ->
    let out := bake_loop env n a anims model clips nverts nalloc in
    length out.1.2 = length clips /\ Forall (fun c => clip_ok c = true) out.1.2.
Proof.
  induction n as [|n IH]; intros a model clips nalloc Hlen Hall; cbn [bake_loop];
    [done|].
  pose proof (bake_clip_clip_ok env a (anims !!! a) model (clips !!! a) nverts nalloc)
    as Hclip.
  destruct (bake_clip env a (anims !!! a) model (clips !!! a) nverts nalloc)
    as [[model' vertAnim] nalloc'].
  cbn [fst snd] in Hclip.
  destruct (IH (S a) model' (<[a := vertAnim]> clips) nalloc') as [Hl Hf].
  - rewrite length_insert. lia.
  - apply Forall_insert; [done|]. apply Hclip, Forall_lookup_total_ok; [done | lia].
  - rewrite length_insert in Hl. done.
Qed.

Lemma check_compat_positive (model : Model) (anims : list ModelAnimation) (animCount : Z) :
  Anim4dcCheckModelCompatibility model anims animCount = true ->
  0 < meshCount model /\ 0 < animCount.
Proof.
  unfold Anim4dcCheckModelCompatibility.
  destruct (meshCount model <=? 0) eqn:Hm; [done|].
  destruct (animCount <=? 0) eqn:Hc; [done|]. lia.
Qed.

Lemma bake_well_formed (env : Env) (model : Model) (anims : list ModelAnimation)
    (animCount : Z) (w : World) :
  well_formed (anim4dc w) = true ->
  well_formed (anim4dc (Anim4dcBakeVertexAnimations env model anims animCount w).2)
  = true.
Proof.
  intros Hwf. unfold Anim4dcBakeVertexAnimations.
  destruct (initialized (anim4dc w)) eqn:Hinit; cbn [negb]; [|done].
  destruct (Anim4dcCheckModelCompatibility model anims animCount) eqn:Hcheck;
    cbn [negb]; [|done].
  apply check_compat_positive in Hcheck as [_ Hcount].
  apply well_formed_spec in Hwf as (Hlen & Hall & _ & _).
  set (animsToBake := if ANIM4DC_MAX_ANIMATIONS <? animCount
                      then ANIM4DC_MAX_ANIMATIONS else animCount).
  assert (Hbake : 0 <= animsToBake <= 8).
  { subst animsToBake. unfold ANIM4DC_MAX_ANIMATIONS.
    destruct (8 <? animCount) eqn:Hmax; lia. }
  match goal with |- context [bake_loop ?e ?n ?a ?an ?m ?c ?v ?k] =>
    pose proof (bake_loop_ok e an v n a m c k) as Hloop;
    destruct (bake_loop e n a an m c v k) as [[model' clips] nalloc] end.
  cbn [fst snd] in Hloop. destruct Hloop as [Hl Hf]; [lia | done |].
  destruct (malloc_ok env nalloc); cbn [snd anim4dc]; apply well_formed_spec;
    cbn; (split; [congruence|]); (split; [done|]);
    (split; [lia | done]).
Qed.

Lemma update_well_formed (deltaTime : float) (s : Anim4dcAnimationSystem) :
  well_formed s = true -> well_formed (Anim4dcUpdateAnimation deltaTime s) = true.
Proof.
  intros Hwf. unfold Anim4dcUpdateAnimation.
  destruct (negb (initialized s) || (currentAnimation s <? 0)
            || (animationCount s <=? currentAnimation s)); [done|].
  destruct (interpolationBuffer s); [|done].
  destruct (keyframeCount _ <? 2); [done|].
  by destruct (select_keyframes _ _).
Qed.

Lemma set_animation_well_formed (animIndex : Z) (s : Anim4dcAnimationSystem) :
  well_formed s = true -> well_formed (Anim4dcSetAnimation animIndex s).2 = true.
Proof.
  intros Hwf. unfold Anim4dcSetAnimation.
  by destruct (negb (initialized s) || (animIndex <? 0)
               || (animationCount s <=? animIndex)).
Qed.

Lemma name_loop_well_formed (animName : string) (s : Anim4dcAnimationSystem) (n : nat) :
  forall i, well_formed s = true -> well_formed (name_loop n i animName s).2 = true.
Proof.
  induction n as [|n IH]; intros i Hwf; cbn [name_loop]; [done|].
  destruct (String.eqb _ _); [by apply set_animation_well_formed | by apply IH].
Qed.

Lemma reachable_well_formed (env : Env) (w : World) :
  reachable env w -> well_formed (anim4dc w) = true.
Proof.
  induction 1 as [ | w _ _ | w _ IH | w model anims animCount _ IH | w dt _ IH
                 | w idx _ IH | w nm _ IH | w time _ IH | w ins n cam _ IH ].
  - reflexivity.
  - reflexivity.
  - unfold Anim4dcShutdown. by destruct (negb (initialized (anim4dc w))).
  - by apply bake_well_formed.
  - by apply update_well_formed.
  - by apply set_animation_well_formed.
  - cbn. unfold Anim4dcSetAnimationByName. destruct nm as [nm|]; [|done].
    destruct (negb (initialized (anim4dc w))); [done|].
    by apply name_loop_well_formed.
  - cbn. unfold Anim4dcSetAnimationTime.
    by destruct ((0 <=? currentAnimation (anim4dc w))
                 && (currentAnimation (anim4dc w) <? animationCount (anim4dc w))).
  - done.
Qed.

(** ** Clip selection *)

Lemma well_formed_clip_lookup (s : Anim4dcAnimationSystem) (i : Z) :
  well_formed s = true -> 0 <= i < animationCount s ->
  animations s !! Z.to_nat i = Some (animations s !!! Z.to_nat i).
Proof.
  intros Hwf Hi. apply well_formed_spec in Hwf as (Hlen & _ & Hcount & _).
  apply list_lookup_lookup_total_lt. lia.
Qed.

Lemma clip_named_total (s : Anim4dcAnimationSystem) (clipName : string) (i : Z) :
  well_formed s = true -> 0 <= i < animationCount s ->
  clip_named s clipName i <-> name (animations s !!! Z.to_nat i) = clipName.
Proof.
  intros Hwf Hi. pose proof (well_formed_clip_lookup s i Hwf Hi) as Hlook.
  unfold clip_named. split.
  - intros (_ & clip & Hclip & Hname). congruence.
  - intros Hname. split; [done|]. eauto.
Qed.

Lemma set_animation_in_range (s : Anim4dcAnimationSystem) (animIndex : Z) :
  well_formed s = true -> 0 <= animIndex < animationCount s ->
  Anim4dcSetAnimation animIndex s = (true, select s animIndex).
Proof.
  intros Hwf Hi. apply well_formed_spec in Hwf as (_ & _ & _ & Hinit).
  unfold Anim4dcSetAnimation, select.
  destruct (initialized s); [|specialize (Hinit eq_refl); lia].
  replace (animIndex <? 0) with false by lia.
  replace (animationCount s <=? animIndex) with false by lia.
  reflexivity.
Qed.

Lemma set_animation_out_of_range (s : Anim4dcAnimationSystem) (animIndex : Z) :
  ~ 0 <= animIndex < animationCount s ->
  Anim4dcSetAnimation animIndex s = (false, s).
Proof.
  intros Hi. unfold Anim4dcSetAnimation.
  destruct (negb (initialized s)); [done|]. cbn [orb].
  destruct (animIndex <? 0) eqn:Hlow; [done|].
  destruct (animationCount s <=? animIndex) eqn:Hhigh; [done|]. lia.
Qed.

Lemma name_loop_none (s : Anim4dcAnimationSystem) (animName : string) (n : nat) :
  forall i : Z,
    (forall j, i <= j < i + Z.of_nat n ->
               name (animations s !!! Z.to_nat j) <> animName) ->
    name_loop n i animName s = (false, s).
Proof.
  induction n as [|n IH]; intros i Hnone; cbn [name_loop]; [done|].
  destruct (String.eqb_spec (name (animations s !!! Z.to_nat i)) animName) as [Heq|_].
  - exfalso. apply (Hnone i); [lia | done].
  - apply IH. intros j Hj. apply Hnone. lia.
Qed.

Lemma name_loop_first (s : Anim4dcAnimationSystem) (animName : string) (n : nat) :
  forall i k : Z,
    i <= k < i + Z.of_nat n ->
    name (animations s !!! Z.to_nat k) = animName ->
    (forall j, i <= j < k -> name (animations s !!! Z.to_nat j) <> animName) ->
    name_loop n i animName s = Anim4dcSetAnimation k s.
Proof.
  induction n as [|n IH]; intros i k Hk Hname Hfirst; cbn [name_loop]; [lia|].
  destruct (String.eqb_spec (name (animations s !!! Z.to_nat i)) animName) as [Heq|Hne].
  - destruct (decide (i = k)) as [->|Hik]; [done|].
    exfalso. apply (Hfirst i); [lia | done].
  - destruct (decide (i = k)) as [->|Hik]; [done|].
    apply IH; [lia | done | intros j Hj; apply Hfirst; lia].
Qed.

(** C7.  In every reachable state: [Anim4dcSetAnimation] with an index
    outside [[0, animationCount)] returns false and changes nothing, and
    with an index inside it returns true, makes it the current clip and
    sets the clock to 0; [Anim4dcSetAnimationByName] with a name that no
    baked clip carries (or with [NULL]) returns false and changes
    nothing, and otherwise returns true, makes the first clip of that
    name current and sets the clock to 0. *)
Theorem clip_selection (env : Env) (w : World) (animIndex : Z) (animName : string) :
  reachable env w ->
  let s := anim4dc w in
  (~ 0 <= animIndex < animationCount s ->
   Anim4dcSetAnimation animIndex s = (false, s))
  /\ (0 <= animIndex < animationCount s ->
      Anim4dcSetAnimation animIndex s = (true, select s animIndex)
      /\ Anim4dcGetCurrentAnimation (select s animIndex) = animIndex
      /\ Anim4dcGetAnimationTime (select s animIndex) = f0)
  /\ ((forall i, ~ clip_named s animName i) ->
      Anim4dcSetAnimationByName (Some animName) s = (false, s))
  /\ (forall i, clip_named s animName i ->
                (forall j, j < i -> ~ clip_named s animName j) ->
                Anim4dcSetAnimationByName (Some animName) s = (true, select s i)
                /\ Anim4dcGetCurrentAnimation (select s i) = i
                /\ Anim4dcGetAnimationTime (select s i) = f0)
  /\ Anim4dcSetAnimationByName None s = (false, s).
Proof.
  intros Hreach s. pose proof (reachable_well_formed env w Hreach) as Hwf.
  fold s in Hwf.
  split; [apply set_animation_out_of_range|].
  split; [intros Hi; by rewrite set_animation_in_range|].
  split; [|split; [|done]].
  - intros Hnone. unfold Anim4dcSetAnimationByName.
    destruct (negb (initialized s)); [done|].
    apply name_loop_none. intros j Hj Hname.
    apply (Hnone j), clip_named_total; [done | lia | done].
  - intros i Hnamed Hfirst. split; [|done].
    pose proof Hnamed as [Hi _].
    apply clip_named_total in Hnamed; [|done|done].
    unfold Anim4dcSetAnimationByName.
    pose proof Hwf as Hwf'. apply well_formed_spec in Hwf' as (_ & _ & _ & Hinit).
    destruct (initialized s); [|specialize (Hinit eq_refl); lia]. cbn [negb].
    rewrite (name_loop_first s animName _ 0 i); [| lia | done |].
    + by apply set_animation_in_range.
    + intros j Hj Hname. apply (Hfirst j); [lia|].
      apply clip_named_total; [done | lia | done].
Qed.

(** The baked demo world is reachable. *)
Lemma world_baked_reachable : reachable env_ok world_baked.
Proof. apply reach_bake, reach_init, reach_start. Defined.

(** An instance: in the baked demo world index 5 is refused and the
    name of clip 0 is found. *)
Lemma clip_selection_witness :
  reachable env_ok world_baked
  /\ Anim4dcSetAnimation 5 (anim4dc world_baked) = (false, anim4dc world_baked)
  /\ Anim4dcSetAnimationByName (Some "Survey"%string) (anim4dc world_baked)
     = (true, select (anim4dc world_baked) 0).
Proof.
  split; [exact world_baked_reachable|].
  destruct (clip_selection env_ok world_baked 5 "Survey"%string
              world_baked_reachable) as (Hout & _ & _ & Hname & _).
  split.
  - apply Hout. vm_compute. intros [_ Hlt]. discriminate Hlt.
  - apply (Hname 0).
    + split; [vm_compute; split; [discriminate | reflexivity]|].
      eexists. split; vm_compute; reflexivity.
    + intros j Hj [[Hlow _] _]. lia.
Defined.

(** ** Compatibility check *)

Lemma has_skin_skinned (mesh : Mesh) : has_skin mesh = true <-> skinned mesh.
Proof.
  unfold has_skin, skinned.
  destruct (boneIds mesh), (boneWeights mesh), (animVertices mesh); cbn;
    intuition congruence.
Qed.

Lemma skinning_loop_true (ms : list Mesh) (n : nat) :
  forall i : nat,
    skinning_loop n i ms = true
    <-> exists j mesh, (i <= j < i + n)%nat /\ ms !! j = Some mesh /\ skinned mesh.
Proof.
  induction n as [|n IH]; intros i; cbn [skinning_loop].
  - split; [done | intros (j & _ & Hj & _); lia].
  - destruct (has_skin (ms !!! i)) eqn:Hskin.
    + split; [intros _ | done]. exists i, (ms !!! i).
      split; [lia|]. split; [|by apply has_skin_skinned].
      destruct (ms !! i) as [mesh|] eqn:Hlook.
      * by rewrite (list_lookup_total_correct _ _ _ Hlook).
      * rewrite list_lookup_total_alt, Hlook in Hskin. discriminate Hskin.
    + rewrite IH. split; intros (j & mesh & Hj & Hlook & Hmesh).
      * exists j, mesh. split; [lia | done].
      * exists j, mesh. split; [|done].
        destruct (decide (j = i)) as [->|Hne]; [|lia].
        rewrite (list_lookup_total_correct _ _ _ Hlook) in Hskin.
        apply has_skin_skinned in Hmesh. congruence.
Qed.

Lemma check_compat_incompatible (model : Model) (anims : list ModelAnimation)
    (animCount : Z) :
  0 <= boneCount model ->
  Anim4dcCheckModelCompatibility model anims animCount = false
  <-> incompatible model anims animCount.
Proof.
  intros Hbones. unfold Anim4dcCheckModelCompatibility, incompatible.
  destruct (meshCount model <=? 0) eqn:Hmesh.
  { split; [intros _ | done].
    do 8 right. intros i mesh Hi. lia. }
  destruct (animCount <=? 0) eqn:Hcount.
  { split; [intros _ | done]. right; left. lia. }
  destruct (boneCount model <=? 0) eqn:Hbone.
  { split; [intros _ | done]. do 2 right; left. lia. }
  destruct (bones model) as [b|] eqn:Hb; cbn [is_null orb];
    [|split; [intros _; by do 3 right; left | done]].
  destruct (bindPose model) as [p|] eqn:Hp; cbn [is_null];
    [|split; [intros _; by do 4 right; left | done]].
  destruct (anim_boneCount (anims !!! 0%nat) =? boneCount model) eqn:Hmatch;
    cbn [negb]; [|split; [intros _; do 5 right; left; lia | done]].
  destruct (anim_bones (anims !!! 0%nat)) as [ab|] eqn:Hab; cbn [is_null orb];
    [|split; [intros _; by do 6 right; left | done]].
  destruct (framePoses (anims !!! 0%nat)) as [fp|] eqn:Hfp; cbn [is_null];
    [|split; [intros _; by do 7 right; left | done]].
  destruct (skinning_loop (Z.to_nat (meshCount model)) 0 (meshes model)) eqn:Hloop;
    cbn [negb].
  - apply skinning_loop_true in Hloop as (j & mesh & Hj & Hlook & Hskin).
    split; [done|].
    intros [H|[H|[H|[H|[H|[H|[H|[H|H]]]]]]]]; try done; try lia.
    exfalso. apply (H (Z.of_nat j) mesh); [lia | by rewrite Nat2Z.id | done].
  - split; [intros _ | done]. do 8 right. intros i mesh Hi Hlook Hskin.
    assert (Htrue : skinning_loop (Z.to_nat (meshCount model)) 0 (meshes model) = true).
    { apply skinning_loop_true. exists (Z.to_nat i), mesh. split; [lia | done]. }
    congruence.
Qed.

(** C6.  For a model whose bone count is not negative,
    [Anim4dcCheckModelCompatibility] returns false exactly when the
    model has no mesh, the animation count is zero or negative, the
    model has no bones or lacks its bone or bind-pose data, the first
    animation has another bone count or lacks its bone or frame-pose
    data, or no mesh is skinned; and in each of these cases
    [Anim4dcBakeVertexAnimations] returns false and leaves the whole
    world (system state, statistics and allocations) as it was. *)
Theorem incompatible_models_rejected (model : Model) (anims : list ModelAnimation)
    (animCount : Z) :
  0 <= boneCount model ->
  (Anim4dcCheckModelCompatibility model anims animCount = false
   <-> incompatible model anims animCount)
  /\ (incompatible model anims animCount ->
      forall (env : Env) (w : World),
        Anim4dcBakeVertexAnimations env model anims animCount w = (false, w)).
Proof.
  intros Hbones. split; [by apply check_compat_incompatible|].
  intros Hinc env w. apply check_compat_incompatible in Hinc; [|done].
  unfold Anim4dcBakeVertexAnimations. rewrite Hinc.
  by destruct (negb (initialized (anim4dc w))).
Qed.

(** An instance: fifteen animation bones against twenty model bones. *)
Lemma incompatible_models_rejected_witness :
  0 <= boneCount demo_model
  /\ Anim4dcCheckModelCompatibility demo_model [mismatched_animation] 1 = false
  /\ Anim4dcBakeVertexAnimations env_ok demo_model [mismatched_animation] 1 world_init
     = (false, world_init).
Proof.
  assert (Hbones : 0 <= boneCount demo_model) by (vm_compute; discriminate).
  destruct (incompatible_models_rejected demo_model [mismatched_animation] 1 Hbones)
    as [Hiff Hbake].
  assert (Hinc : incompatible demo_model [mismatched_animation] 1).
  { do 5 right; left. vm_compute. discriminate. }
  split; [exact Hbones|]. split; [by apply Hiff | by apply Hbake].
Defined.

(** ** Baking *)

Lemma int32_small (z : Z) : - 2 ^ 31 <= z < 2 ^ 31 -> int32 z = z.
Proof. intros Hz. unfold int32. rewrite Z.mod_small; lia. Qed.

Lemma stride_cases (frames : Z) :
  (40 < frames /\ stride frames = 8) \/ (frames <= 40 /\ stride frames = 4).
Proof. unfold stride. destruct (40 <? frames) eqn:H; [left | right]; lia. Qed.

Lemma stride_keyframeStep (frames : Z) : keyframeStep_of frames = stride frames.
Proof. reflexivity. Qed.

(** Frame [j * stride] lies below [frames] exactly for the first
    [sampled_frames frames] values of [j]. *)
Lemma sampled_frames_spec (frames j : Z) :
  j * stride frames < frames <-> j < sampled_frames frames.
Proof.
  unfold sampled_frames.
  destruct (stride_cases frames) as [[_ ->]|[_ ->]].
  - pose proof (Z.div_mod (frames + 8 - 1) 8 ltac:(lia)).
    pose proof (Z.mod_pos_bound (frames + 8 - 1) 8 ltac:(lia)). lia.
  - pose proof (Z.div_mod (frames + 4 - 1) 4 ltac:(lia)).
    pose proof (Z.mod_pos_bound (frames + 4 - 1) 4 ltac:(lia)). lia.
Qed.

Lemma sampled_frames_bounds (frames : Z) :
  0 <= frames -> 0 <= sampled_frames frames <= frames.
Proof.
  intros Hf. pose proof (sampled_frames_spec frames (sampled_frames frames)).
  pose proof (sampled_frames_spec frames (-1)).
  pose proof (sampled_frames_spec frames frames).
  destruct (stride_cases frames) as [[_ Hs]|[_ Hs]]; rewrite Hs in *; lia.
Qed.

Section Sampling.
Context (env : Env) (anims : list ModelAnimation) (model0 : Model)
        (a0 : nat) (skelAnim : ModelAnimation) (data : Z -> list float)
        (nverts : Z).
Hypothesis Hmalloc : forall k, malloc_ok env k = true.
Hypothesis Hskel : anims !!! a0 = skelAnim.
Hypothesis Hposes : poses env anims model0 skelAnim data.
Hypothesis Hframes : 0 <= frameCount skelAnim <= INT_MAX - 8.

Local Abbreviation frames := (frameCount skelAnim).
Local Abbreviation step := (stride (frameCount skelAnim)).
Local Abbreviation sampled := (sampled_state data nverts (stride (frameCount skelAnim))).

Lemma capture_sampled (j : Z) (clip : Anim4dcVertexAnimation) (nalloc : nat) :
  0 <= j -> sampled j clip ->
  let out := Anim4dcCaptureVertexKeyframe env clip
               (fdiv (float_of_int (j * step)) f20) (data (j * step))
               nverts nalloc in
  sampled (j + 1) out.1
  /\ name out.1 = name clip /\ duration out.1 = duration clip
  /\ looping out.1 = looping clip.
Proof.
  intros Hj (Hlen & Hcount & Hkfs).
  unfold Anim4dcCaptureVertexKeyframe, ANIM4DC_MAX_KEYFRAMES.
  destruct (20 <=? keyframeCount clip) eqn:Hfull; cbn zeta.
  - split; [|done]. split; [done|].
    replace (Z.min (j + 1) 20) with (Z.min j 20) by lia. by split.
  - rewrite Hmalloc. cbn [fst]. split; [|done].
    assert (Hj20 : j < 20) by lia.
    assert (Hkc : keyframeCount clip = j) by lia.
    unfold sampled_state, holds_samples. rewrite Hkc.
    replace (Z.min (j + 1) 20) with (j + 1) by lia.
    cbn [keyframes keyframeCount set_keyframes].
    split; [by rewrite length_insert|].
    split; [done|]. intros k Hk.
    destruct (decide (k = j)) as [->|Hne].
    + rewrite list_lookup_insert_eq by lia. done.
    + rewrite list_lookup_insert_ne by lia. apply Hkfs. lia.
Qed.

(** Started after [j] iterations with enough fuel for the rest, the
    loop ends by its own test with every sample below [frames] taken,
    of which the clip holds the first twenty. *)
Lemma sample_loop_sampled (fuel : nat) :
  forall (j : Z) (model : Model) (clip : Anim4dcVertexAnimation) (nalloc : nat),
    bake_model env anims model0 model ->
    0 <= j <= sampled_frames frames ->
    sampled_frames frames - j <= Z.of_nat fuel ->
    sampled j clip ->
    let out := sample_loop env fuel (j * step) step skelAnim model clip
                 nverts nalloc in
    sampled (sampled_frames frames) out.1.2
    /\ name out.1.2 = name clip /\ duration out.1.2 = duration clip
    /\ looping out.1.2 = looping clip.
Proof.
  induction fuel as [|fuel IH]; intros j model clip nalloc Hm Hj Hfuel Hs;
    cbn [sample_loop].
  - replace (sampled_frames frames) with j by lia. done.
  - fold frames.
    destruct (j * step <? frames) eqn:Htest.
    + assert (Hlt : j < sampled_frames frames)
        by (apply sampled_frames_spec; lia).
      assert (Hstep0 : 0 < step)
        by (destruct (stride_cases frames) as [[_ ->]|[_ ->]]; lia).
      rewrite (Hposes model (j * step) Hm) by (split; [nia | lia]).
      assert (Hm' : bake_model env anims model0
                      (UpdateModelAnimation env model skelAnim (j * step)))
        by (rewrite <- Hskel; by apply bake_model_step).
      pose proof (capture_sampled j clip nalloc (proj1 Hj) Hs)
        as (Hs' & Hname & Hdur & Hloop).
      destruct (Anim4dcCaptureVertexKeyframe _ _ _ _ _ _) as [clip' nalloc'].
      cbn [fst] in *.
      assert (Hnext : int32 (j * step + step) = (j + 1) * step).
      { assert (Hstep : 0 < step <= 8)
          by (destruct (stride_cases frames) as [[_ ->]|[_ ->]]; lia).
        unfold INT_MAX in Hframes. rewrite int32_small; nia. }
      rewrite Hnext.
      destruct (IH (j + 1) (UpdateModelAnimation env model skelAnim (j * step))
                   clip' nalloc' Hm' ltac:(lia) ltac:(lia) Hs')
        as (Hfinal & Hname' & Hdur' & Hloop').
      split; [done|]. split; [congruence|]. split; congruence.
    + assert (Hge : ~ j < sampled_frames frames).
      { intros Hlt. apply sampled_frames_spec in Hlt. lia. }
      replace (sampled_frames frames) with j by lia. done.
Qed.

(** One clip, baked into a slot that has its twenty keyframe slots. *)
Lemma bake_clip_sampled (a : nat) (model : Model)
    (vertAnim : Anim4dcVertexAnimation) (nalloc : nat) :
  bake_model env anims model0 model ->
  clip_ok vertAnim = true ->
  let clip := (bake_clip env a skelAnim model vertAnim nverts nalloc).1.2 in
  holds_samples clip (captured_frames frames) data nverts step
  /\ duration clip = fdiv (float_of_int frames) f20
  /\ looping clip = true
  /\ clip_ok clip = true.
Proof.
  intros Hm Hok. pose proof Hok as Hok'. apply clip_ok_spec in Hok' as [Hlen _].
  cbn zeta. split; [|split; [|split]];
    [| | | by apply bake_clip_clip_ok].
  all: unfold bake_clip; cbn zeta; rewrite stride_keyframeStep.
  all: pose proof (sampled_frames_bounds frames (proj1 Hframes)) as Hbound.
  all: match goal with |- context [sample_loop ?e ?f 0 ?st ?sk ?m ?c ?v ?n] =>
         pose proof (sample_loop_sampled f 0 m c n Hm) as Hloop end.
  all: cbn zeta in Hloop; rewrite Z.mul_0_l in Hloop.
  all: destruct Hloop as ((_ & Hsamples) & _ & Hdur & Hloop);
    [ lia | lia | | ].
  all: try (split; [done|]; split; [reflexivity | intros k Hk; lia]).
  - unfold captured_frames, ANIM4DC_MAX_KEYFRAMES.
    by rewrite Z.min_comm.
  - done.
  - done.
Qed.
End Sampling.

(** The loop over the clips never touches a slot again once it has
    passed it. *)
Lemma bake_loop_before (env : Env) (anims : list ModelAnimation) (nverts : Z)
    (n : nat) :
  forall (a : nat) (model : Model) (clips : list Anim4dcVertexAnimation)
         (nalloc : nat) (j : nat),
    (j < a)%nat ->
    (bake_loop env n a anims model clips nverts nalloc).1.2 !! j = clips !! j.
Proof.
  induction n as [|n IH]; intros a model clips nalloc j Hj; cbn [bake_loop]; [done|].
  destruct (bake_clip env a (anims !!! a) model (clips !!! a) nverts nalloc)
    as [[model' vertAnim] nalloc'].
  rewrite IH by lia. apply list_lookup_insert_ne. lia.
Qed.

(** The sampling loop and the loop over the clips hand the pose
    evaluator models of the bake only. *)
Lemma sample_loop_model (env : Env) (anims : list ModelAnimation) (model0 : Model)
    (a : nat) (keyframeStep nverts : Z) (fuel : nat) :
  forall (frame : Z) (model : Model) (clip : Anim4dcVertexAnimation) (nalloc : nat),
    bake_model env anims model0 model ->
    bake_model env anims model0
      (sample_loop env fuel frame keyframeStep (anims !!! a) model clip nverts
         nalloc).1.1.
Proof.
  induction fuel as [|fuel IH]; intros frame model clip nalloc Hm;
    cbn [sample_loop]; [done|].
  destruct (frame <? frameCount (anims !!! a)); [|done].
  match goal with |- context [match ?e with pair _ _ => _ end] =>
    destruct e as [clip' nalloc'] end.
  apply IH. by apply bake_model_step.
Qed.

Lemma bake_clip_model (env : Env) (anims : list ModelAnimation) (model0 : Model)
    (a : nat) (model : Model) (vertAnim : Anim4dcVertexAnimation) (nverts : Z)
    (nalloc : nat) :
  bake_model env anims model0 model ->
  bake_model env anims model0
    (bake_clip env a (anims !!! a) model vertAnim nverts nalloc).1.1.
Proof. intros Hm. unfold bake_clip. cbv zeta. by apply sample_loop_model. Qed.

(** Slot [a] of the result is what [bake_clip] made of the slot's
    previous content, for a model of the bake. *)
Lemma bake_loop_at (env : Env) (anims : list ModelAnimation) (nverts : Z)
    (model0 : Model) (n : nat) :
  forall (a0 : nat) (model : Model) (clips : list Anim4dcVertexAnimation)
         (nalloc : nat) (a : nat),
    bake_model env anims model0 model ->
    (a0 <= a < a0 + n)%nat -> (a0 + n <= length clips)%nat ->
    exists model_a nalloc_a,
      bake_model env anims model0 model_a
      /\ (bake_loop env n a0 anims model clips nverts nalloc).1.2 !! a
         = Some (bake_clip env a (anims !!! a) model_a (clips !!! a) nverts
                   nalloc_a).1.2.
Proof.
  induction n as [|n IH]; intros a0 model clips nalloc a Hm Ha Hlen; [lia|].
  cbn [bake_loop].
  pose proof (bake_clip_model env anims model0 a0 model (clips !!! a0) nverts
                nalloc Hm) as Hm'.
  destruct (bake_clip env a0 (anims !!! a0) model (clips !!! a0) nverts nalloc)
    as [[model' vertAnim] nalloc'] eqn:Hclip.
  cbn [fst] in Hm'.
  destruct (decide (a = a0)) as [->|Hne].
  - exists model, nalloc. split; [done|]. rewrite bake_loop_before by lia.
    rewrite list_lookup_insert_eq by lia. by rewrite Hclip.
  - destruct (IH (S a0) model' (<[a0 := vertAnim]> clips) nalloc' a Hm')
      as (model_a & nalloc_a & Hma & Hlook); [lia | rewrite length_insert; lia |].
    exists model_a, nalloc_a. split; [done|]. rewrite Hlook.
    by rewrite list_lookup_total_insert_ne by lia.
Qed.

(** A bake whose allocations all succeed, on a compatible model in an
    initialized well-formed state. *)
Lemma bake_succeeds (env : Env) (model : Model) (anims : list ModelAnimation)
    (animCount : Z) (w : World) :
  initialized (anim4dc w) = true ->
  well_formed (anim4dc w) = true ->
  Anim4dcCheckModelCompatibility model anims animCount = true ->
  (forall k, malloc_ok env k = true) ->
  let out := Anim4dcBakeVertexAnimations env model anims animCount w in
  let s' := anim4dc out.2 in
  out.1 = true
  /\ animationCount s' = Z.min animCount ANIM4DC_MAX_ANIMATIONS
  /\ vertexCount s' = mesh_vertexCount (meshes model !!! 0%nat)
  /\ interpolationBuffer s' <> None
  /\ currentAnimation s' = 0 /\ currentTime s' = f0
  /\ memoryUsageKB (anim4dc_stats out.2) = Anim4dcCalculateMemoryUsage s'
  /\ forall a : nat,
       Z.of_nat a < Z.min animCount ANIM4DC_MAX_ANIMATIONS ->
       exists model_a nalloc_a,
         bake_model env anims model model_a
         /\ animations s' !! a
            = Some (bake_clip env a (anims !!! a) model_a
                      (animations (anim4dc w) !!! a)
                      (mesh_vertexCount (meshes model !!! 0%nat)) nalloc_a).1.2.
Proof.
  intros Hinit Hwf Hcheck Hmalloc.
  unfold Anim4dcBakeVertexAnimations. rewrite Hinit, Hcheck. cbn [negb].
  apply check_compat_positive in Hcheck as [_ Hcount].
  apply well_formed_spec in Hwf as (Hlen & _ & _ & _).
  assert (Hbake : (if ANIM4DC_MAX_ANIMATIONS <? animCount
                   then ANIM4DC_MAX_ANIMATIONS else animCount)
                  = Z.min animCount ANIM4DC_MAX_ANIMATIONS).
  { unfold ANIM4DC_MAX_ANIMATIONS. destruct (8 <? animCount) eqn:Hmax; lia. }
  rewrite Hbake.
  match goal with |- context [bake_loop ?e ?n ?a ?an ?m ?c ?v ?k] =>
    pose proof (fun i => bake_loop_at e an v m n a m c k i (bake_model_start e an m)) as Hat;
    destruct (bake_loop e n a an m c v k) as [[model' clips] nalloc] end.
  rewrite Hmalloc. cbn [fst snd anim4dc anim4dc_stats] in *.
  repeat (split; [done|]).
  intros a Ha. apply Hat; unfold ANIM4DC_MAX_ANIMATIONS in *; lia.
Qed.

(** The demo evaluator delivers [demo_data]. *)
Lemma demo_poses :
  poses env_ok [demo_animation] demo_model demo_animation demo_data.
Proof. intros m frame _ _. reflexivity. Defined.

(** So does the evaluator that writes into the meshes of the model: the
    one mesh of the demo model keeps its buffer of six floats. *)
Lemma keep_poses :
  poses env_keep [demo_animation] demo_model demo_animation demo_data.
Proof.
  assert (Hmeshes : forall m, bake_model env_keep [demo_animation] demo_model m ->
                      exists x, meshes m
                                = [mkMesh 2 (Some (replicate 6 x)) (Some tt) (Some tt)]).
  { induction 1 as [|m a frame _ [x Hx]].
    - by eexists.
    - eexists. cbn [env_keep UpdateModelAnimation keep_pose meshes].
      rewrite Hx. cbn. reflexivity. }
  intros m frame Hm _. destruct (Hmeshes m Hm) as [x Hx].
  cbn [env_keep UpdateModelAnimation keep_pose meshes]. rewrite Hx.
  reflexivity.
Defined.

(** C5 as stated fails, in two ways.  First: when the sixth allocation
    of the bake fails, the 100-frame demo clip is baked to 12 keyframes,
    not 13; the sample of frame 40 is missing, slot 5 holds frame 48,
    and the bake returns true.  Second: a model whose mesh 0 has no
    animated vertices but whose mesh 1 is skinned passes the
    compatibility check, and its bake returns true with no keyframe at
    all. *)
Lemma bake_sampling_skips_samples :
  frameCount demo_animation = 100
  /\ (let out := Anim4dcBakeVertexAnimations env_sixth_fails demo_model
                   [demo_animation] 1 world_init in
      out.1 = true
      /\ exists clip kf,
           animations (anim4dc out.2) !! 0%nat = Some clip
           /\ keyframeCount clip = 12
           /\ keyframes clip !! 5%nat = Some kf
           /\ timestamp kf = fdiv (float_of_int 48) f20
           /\ timestamp kf <> fdiv (float_of_int 40) f20)
  /\ (Anim4dcCheckModelCompatibility second_mesh_skinned [demo_animation] 1 = true
      /\ let out := Anim4dcBakeVertexAnimations env_keep second_mesh_skinned
                      [demo_animation] 1 world_init in
         out.1 = true
         /\ exists clip,
              animations (anim4dc out.2) !! 0%nat = Some clip
              /\ keyframeCount clip = 0).
Proof.
  split; [reflexivity|]. split.
  - cbv zeta. split; [vm_compute; reflexivity|].
    eexists. eexists.
    split; [vm_compute; reflexivity|].
    split; [vm_compute; reflexivity|].
    split; [vm_compute; reflexivity|].
    split; [vm_compute; reflexivity | vm_compute; discriminate].
  - split; [vm_compute; reflexivity|]. cbv zeta.
    split; [vm_compute; reflexivity|].
    eexists. split; vm_compute; reflexivity.
Qed.

(** C5, amended.  Let a bake pass its checks (initialized, well-formed
    state, compatible model), let every allocation be granted, and let
    [skelAnim], with [frames] frames, be one of the source clips it
    bakes, for which the pose evaluator leaves [data frame] in the
    animated vertices of mesh 0 at each frame while this model is
    baked.  Then the bake returns true; the stride is 8 when
    [frames > 40] and 4 otherwise; the clip's duration is [frames / 20];
    its keyframes are the samples of the frames
    0, stride, 2 * stride, ... below [frames], cut after the first twenty;
    keyframe [k] has the timestamp [(k * stride) / 20] and holds the
    pose of frame [k * stride]; and 100 frames give 13 keyframes. *)
Theorem bake_sampling (env : Env) (model : Model) (anims : list ModelAnimation)
    (animCount : Z) (w : World) (a : nat) (skelAnim : ModelAnimation)
    (data : Z -> list float) :
  initialized (anim4dc w) = true ->
  well_formed (anim4dc w) = true ->
  Anim4dcCheckModelCompatibility model anims animCount = true ->
  (forall k, malloc_ok env k = true) ->
  Z.of_nat a < Z.min animCount ANIM4DC_MAX_ANIMATIONS ->
  anims !! a = Some skelAnim ->
  poses env anims model skelAnim data ->
  0 <= frameCount skelAnim <= INT_MAX - 8 ->
  let frames := frameCount skelAnim in
  let out := Anim4dcBakeVertexAnimations env model anims animCount w in
  let nverts := mesh_vertexCount (meshes model !!! 0%nat) in
  exists clip,
    out.1 = true
    /\ animations (anim4dc out.2) !! a = Some clip
    /\ (40 < frames -> keyframeStep_of frames = 8)
    /\ (frames <= 40 -> keyframeStep_of frames = 4)
    /\ duration clip = fdiv (float_of_int frames) f20
    /\ (forall j, j * keyframeStep_of frames < frames <-> j < sampled_frames frames)
    /\ keyframeCount clip = Z.min 20 (sampled_frames frames)
    /\ (forall k, 0 <= k < keyframeCount clip ->
          exists kf,
            keyframes clip !! Z.to_nat k = Some kf
            /\ timestamp kf
               = fdiv (float_of_int (k * keyframeStep_of frames)) f20
            /\ vertices kf
               = Some (take (Z.to_nat (nverts * 3))
                            (data (k * keyframeStep_of frames)))
            /\ kf_vertexCount kf = nverts)
    /\ (frames = 100 -> keyframeCount clip = 13).
Proof.
  intros Hinit Hwf Hcheck Hmalloc Ha Hskel Hposes Hframes. cbv zeta.
  set (nverts := mesh_vertexCount (meshes model !!! 0%nat)).
  destruct (bake_succeeds env model anims animCount w Hinit Hwf Hcheck Hmalloc)
    as (Hok & _ & _ & _ & _ & _ & _ & Hclips).
  destruct (Hclips a Ha) as (model_a & nalloc_a & Hposed & Hlook).
  pose proof (list_lookup_total_correct _ _ _ Hskel) as Hskel'.
  rewrite Hskel' in Hlook.
  assert (Hslot : clip_ok (animations (anim4dc w) !!! a) = true).
  { apply well_formed_spec in Hwf as (Hlen & Hall & _ & _).
    apply Forall_lookup_total_ok; [done|].
    unfold ANIM4DC_MAX_ANIMATIONS in Ha. lia. }
  destruct (bake_clip_sampled env anims model a skelAnim data nverts Hmalloc
              Hskel' Hposes Hframes
              a model_a (animations (anim4dc w) !!! a) nalloc_a Hposed Hslot)
    as ((Hcount & Hkfs) & Hdur & _ & _).
  fold nverts in Hlook.
  set (clip := (bake_clip env a skelAnim model_a (animations (anim4dc w) !!! a)
                  nverts nalloc_a).1.2) in *.
  set (frames := frameCount skelAnim) in *.
  exists clip. split; [exact Hok|]. split; [exact Hlook|].
  assert (Hcap : captured_frames frames = Z.min 20 (sampled_frames frames))
    by reflexivity.
  split; [intros Hbig; destruct (stride_cases frames) as [[_ ?]|[? _]];
          [done | lia]|].
  split; [intros Hsmall; destruct (stride_cases frames) as [[? _]|[_ ?]];
          [lia | done]|].
  split; [exact Hdur|].
  split; [intros j; apply sampled_frames_spec|].
  split; [by rewrite Hcount|].
  split.
  - intros k Hk. rewrite Hcount in Hk. eexists.
    split; [apply Hkfs; exact Hk|]. done.
  - intros H100. rewrite Hcount, Hcap, H100. reflexivity.
Qed.

(** An instance: with the evaluator that writes into the meshes of the
    model, the demo clip of 100 frames yields 13 keyframes at the frames
    0, 8, ..., 96, and the keyframe of frame 96 holds that pose. *)
Lemma bake_sampling_witness :
  exists clip,
    animations (anim4dc (Anim4dcBakeVertexAnimations env_keep demo_model
                           [demo_animation] 1 world_init).2) !! 0%nat
    = Some clip
    /\ keyframeCount clip = 13
    /\ duration clip = fdiv (float_of_int 100) f20
    /\ (forall k, 0 <= k < 13 ->
          exists kf, keyframes clip !! Z.to_nat k = Some kf
                     /\ timestamp kf = fdiv (float_of_int (k * 8)) f20)
    /\ exists kf, keyframes clip !! 12%nat = Some kf
                  /\ vertices kf = Some (replicate 6 (float_of_int 96)).
Proof.
  destruct (bake_sampling env_keep demo_model [demo_animation] 1 world_init 0
              demo_animation demo_data) as (clip & _ & Hlook & _ & _ & Hdur & _
                                            & Hcount & Hkfs & H100).
  - reflexivity.
  - reflexivity.
  - reflexivity.
  - intros k. reflexivity.
  - vm_compute. reflexivity.
  - reflexivity.
  - exact keep_poses.
  - vm_compute. split; discriminate.
  - exists clip. split; [exact Hlook|].
    split; [apply H100; reflexivity|]. split; [exact Hdur|]. split.
    + intros k Hk. destruct (Hkfs k) as (kf & Hkf & Htime & _).
      * rewrite (H100 eq_refl). exact Hk.
      * exists kf. split; [exact Hkf | exact Htime].
    + destruct (Hkfs 12) as (kf & Hkf & _ & Hdata & _).
      * rewrite (H100 eq_refl). lia.
      * exists kf. split; [exact Hkf|]. rewrite Hdata. reflexivity.
Defined.

(** ** Memory accounting *)

Lemma add_bytes_small (totalMemory count : Z) :
  0 <= totalMemory -> 0 <= count ->
  totalMemory + count * 3 * sizeof_float <= INT_MAX ->
  add_bytes totalMemory count = totalMemory + count * 3 * sizeof_float.
Proof.
  unfold add_bytes, uint32, INT_MAX, sizeof_float. intros Ht Hc Hmax.
  rewrite (int32_small (count * 3)) by lia.
  rewrite (Z.mod_small (count * 3)) by lia.
  rewrite (Z.mod_small (count * 3 * 4)) by lia.
  rewrite (Z.mod_small totalMemory) by lia.
  apply int32_small. lia.
Qed.

Lemma keyframe_bytes_uniform (kfs : list Anim4dcVertexKeyframe) (v : Z) (n : nat) :
  forall (k : nat) (totalMemory : Z),
    (forall j, (k <= j < k + n)%nat ->
               exists kf, kfs !! j = Some kf
                          /\ vertices kf <> None /\ kf_vertexCount kf = v) ->
    0 <= totalMemory -> 0 <= v ->
    totalMemory + Z.of_nat n * (v * 3 * sizeof_float) <= INT_MAX ->
    keyframe_bytes_loop n k kfs totalMemory
    = totalMemory + Z.of_nat n * (v * 3 * sizeof_float).
Proof.
  induction n as [|n IH]; intros k totalMemory Hkfs Ht Hv Hmax;
    cbn [keyframe_bytes_loop]; [lia|].
  rewrite Nat2Z.inj_succ, Z.mul_succ_l in *.
  destruct (Hkfs k) as (kf & Hlook & Hverts & Hcount); [lia|].
  rewrite (list_lookup_total_correct _ _ _ Hlook), Hcount.
  destruct (vertices kf); [|done]. cbn [is_null].
  assert (Hpos : 0 <= Z.of_nat n * (v * 3 * sizeof_float))
    by (unfold sizeof_float; lia).
  rewrite add_bytes_small by lia.
  rewrite IH; [lia | intros j Hj; apply Hkfs; lia | unfold sizeof_float; lia
              | done | lia].
Qed.

Lemma animation_bytes_uniform (clips : list Anim4dcVertexAnimation) (k v : Z)
    (n : nat) :
  forall (a : nat) (totalMemory : Z),
    (forall i, (a <= i < a + n)%nat ->
       exists clip, clips !! i = Some clip
         /\ keyframeCount clip = k
         /\ forall j, 0 <= j < k ->
              exists kf, keyframes clip !! Z.to_nat j = Some kf
                /\ vertices kf <> None /\ kf_vertexCount kf = v) ->
    0 <= totalMemory -> 0 <= k -> 0 <= v ->
    totalMemory + Z.of_nat n * (k * (v * 3 * sizeof_float)) <= INT_MAX ->
    animation_bytes_loop n a clips totalMemory
    = totalMemory + Z.of_nat n * (k * (v * 3 * sizeof_float)).
Proof.
  induction n as [|n IH]; intros a totalMemory Hclips Ht Hk Hv Hmax;
    cbn [animation_bytes_loop]; [lia|].
  rewrite Nat2Z.inj_succ, Z.mul_succ_l in *.
  destruct (Hclips a) as (clip & Hlook & Hcount & Hkfs); [lia|].
  rewrite (list_lookup_total_correct _ _ _ Hlook), Hcount.
  assert (Hone : 0 <= k * (v * 3 * sizeof_float)) by (unfold sizeof_float; nia).
  assert (Hrest : 0 <= Z.of_nat n * (k * (v * 3 * sizeof_float))) by nia.
  rewrite (keyframe_bytes_uniform (keyframes clip) v).
  - rewrite Z2Nat.id by done.
    rewrite IH; [lia | intros i Hi; apply Hclips; lia | lia | done | done | lia].
  - intros j Hj. destruct (Hkfs (Z.of_nat j)) as (kf & Hkf & Hrest'); [lia|].
    rewrite Nat2Z.id in Hkf. eauto.
  - done.
  - done.
  - rewrite Z2Nat.id by done. lia.
Qed.

(** The byte total of a uniform state is the specification's formula. *)
Lemma total_memory_uniform (s : Anim4dcAnimationSystem) (n k v : Z) :
  uniform_state s n k v -> 0 <= n -> 0 <= k -> 0 <= v ->
  spec_bytes n k v <= INT_MAX ->
  total_memory_bytes s = spec_bytes n k v.
Proof.
  intros (Hn & Hv & Hbuf & Hclips) Hn0 Hk0 Hv0 Hmax.
  unfold total_memory_bytes, spec_bytes in *. rewrite Hn, Hv.
  assert (Hone : 0 <= v * 3 * sizeof_float) by (unfold sizeof_float; lia).
  assert (Hall : 0 <= n * (k * (v * 3 * sizeof_float))) by nia.
  rewrite (animation_bytes_uniform (animations s) k v).
  - rewrite Z2Nat.id by done. destruct (interpolationBuffer s); [|done].
    cbn [is_null]. rewrite add_bytes_small; lia.
  - intros i Hi. destruct (Hclips (Z.of_nat i)) as (clip & Hlook & Hrest); [lia|].
    rewrite Nat2Z.id in Hlook. eauto.
  - done.
  - done.
  - done.
  - rewrite Z2Nat.id by done. lia.
Qed.

Lemma memory_usage_uniform (s : Anim4dcAnimationSystem) (n k v : Z) :
  uniform_state s n k v -> 0 <= n -> 0 <= k -> 0 <= v ->
  spec_bytes n k v <= INT_MAX ->
  Anim4dcCalculateMemoryUsage s = spec_bytes n k v / 1024.
Proof.
  intros Hu Hn Hk Hv Hmax. unfold Anim4dcCalculateMemoryUsage.
  rewrite (total_memory_uniform s n k v) by done.
  apply Z.quot_div_nonneg; [|lia].
  unfold spec_bytes, sizeof_float. nia.
Qed.

(** After a successful bake of clips that all have [frames] frames, the
    state is uniform, whatever the state was before. *)
Lemma bake_uniform (env : Env) (model : Model) (anims : list ModelAnimation)
    (animCount : Z) (w : World) (frames : Z) (data : nat -> Z -> list float) :
  initialized (anim4dc w) = true ->
  well_formed (anim4dc w) = true ->
  Anim4dcCheckModelCompatibility model anims animCount = true ->
  (forall k, malloc_ok env k = true) ->
  (forall a : nat, Z.of_nat a < Z.min animCount ANIM4DC_MAX_ANIMATIONS ->
                   frameCount (anims !!! a) = frames
                   /\ poses env anims model (anims !!! a) (data a)) ->
  0 <= frames <= INT_MAX - 8 ->
  uniform_state
    (anim4dc (Anim4dcBakeVertexAnimations env model anims animCount w).2)
    (Z.min animCount ANIM4DC_MAX_ANIMATIONS) (captured_frames frames)
    (mesh_vertexCount (meshes model !!! 0%nat)).
Proof.
  intros Hinit Hwf Hcheck Hmalloc Hanims Hframes.
  destruct (bake_succeeds env model anims animCount w Hinit Hwf Hcheck Hmalloc)
    as (_ & Hcount & Hverts & Hbuf & _ & _ & _ & Hclips).
  split; [done|]. split; [done|]. split; [done|].
  intros a Ha.
  destruct (Hclips (Z.to_nat a)) as (model_a & nalloc_a & Hposed & Hlook); [lia|].
  destruct (Hanims (Z.to_nat a)) as [Hf Hposes]; [lia|].
  assert (Hslot : clip_ok (animations (anim4dc w) !!! Z.to_nat a) = true).
  { apply well_formed_spec in Hwf as (Hlen & Hall & _ & _).
    apply Forall_lookup_total_ok; [done|].
    unfold ANIM4DC_MAX_ANIMATIONS in Ha. lia. }
  rewrite <- Hf in Hframes.
  destruct (bake_clip_sampled env anims model (Z.to_nat a) (anims !!! Z.to_nat a)
              (data (Z.to_nat a))
              (mesh_vertexCount (meshes model !!! 0%nat)) Hmalloc eq_refl Hposes
              Hframes
              (Z.to_nat a) model_a (animations (anim4dc w) !!! Z.to_nat a)
              nalloc_a Hposed Hslot)
    as ((Hkc & Hkfs) & _).
  rewrite Hf in Hkc, Hkfs.
  eexists. split; [exact Hlook|]. split; [exact Hkc|].
  intros j Hj. eexists. split; [by apply Hkfs|]. done.
Qed.

(** C2 as stated fails: for one clip of two keyframes of a hundred
    vertices and an allocated buffer the formula gives 3600 bytes, and
    [Anim4dcCalculateMemoryUsage] returns 3, the number of whole
    kilobytes. *)
Lemma memory_usage_not_in_bytes :
  uniform_state small_system 1 2 100
  /\ spec_bytes 1 2 100 = 3600
  /\ Anim4dcCalculateMemoryUsage small_system = 3
  /\ Anim4dcCalculateMemoryUsage small_system <> spec_bytes 1 2 100.
Proof.
  split; [|split; [reflexivity|split; [reflexivity | vm_compute; discriminate]]].
  split; [reflexivity|]. split; [reflexivity|]. split; [discriminate|].
  intros a Ha. assert (a = 0) as -> by lia.
  eexists. split; [reflexivity|]. split; [reflexivity|].
  intros j Hj. assert (j = 0 \/ j = 1) as [-> | ->] by lia;
    (eexists; split; [reflexivity|]; split; [discriminate | reflexivity]).
Qed.

(** C2, amended.  [Anim4dcCalculateMemoryUsage] returns kilobytes.  For
    [n] baked clips of [k] keyframes of [v] vertices each and an
    allocated interpolation buffer of [v] vertices, with the byte total
    [n*k*v*3*sizeof(float) + v*3*sizeof(float)] within the range of
    [int], the total accumulated is exactly that number of bytes and the
    value returned is that number divided by 1024, rounded down.  The
    same holds after baking again, be it directly over an earlier bake
    or after [Anim4dcShutdown] and [Anim4dcInit]: clips of an earlier
    bake are not counted. *)
Theorem memory_usage_kilobytes :
  (forall (s : Anim4dcAnimationSystem) (n k v : Z),
      uniform_state s n k v -> 0 <= n -> 0 <= k -> 0 <= v ->
      spec_bytes n k v <= INT_MAX ->
      total_memory_bytes s = spec_bytes n k v
      /\ Anim4dcCalculateMemoryUsage s = spec_bytes n k v / 1024)
  /\ (forall (env : Env) (model : Model) (anims : list ModelAnimation)
             (animCount : Z) (w : World) (frames : Z)
             (data : nat -> Z -> list float),
         initialized (anim4dc w) = true ->
         well_formed (anim4dc w) = true ->
         Anim4dcCheckModelCompatibility model anims animCount = true ->
         (forall i, malloc_ok env i = true) ->
         (forall a : nat, Z.of_nat a < Z.min animCount ANIM4DC_MAX_ANIMATIONS ->
                          frameCount (anims !!! a) = frames
                          /\ poses env anims model (anims !!! a) (data a)) ->
         0 <= frames <= INT_MAX - 8 ->
         let n := Z.min animCount ANIM4DC_MAX_ANIMATIONS in
         let k := captured_frames frames in
         let v := mesh_vertexCount (meshes model !!! 0%nat) in
         0 <= v -> spec_bytes n k v <= INT_MAX ->
         let rebaked := Anim4dcBakeVertexAnimations env model anims animCount w in
         let recycled :=
           Anim4dcBakeVertexAnimations env model anims animCount
             (Anim4dcInit (Anim4dcShutdown w)).2 in
         total_memory_bytes (anim4dc rebaked.2) = spec_bytes n k v
         /\ memoryUsageKB (Anim4dcGetStats (anim4dc_stats rebaked.2))
            = spec_bytes n k v / 1024
         /\ total_memory_bytes (anim4dc recycled.2) = spec_bytes n k v
         /\ memoryUsageKB (Anim4dcGetStats (anim4dc_stats recycled.2))
            = spec_bytes n k v / 1024).
Proof.
  split.
  { intros s n k v Hu Hn Hk Hv Hmax.
    split; [by apply total_memory_uniform | by apply memory_usage_uniform]. }
  intros env model anims animCount w frames data Hinit Hwf Hcheck Hmalloc Hanims
         Hframes n k v Hv Hmax rebaked recycled.
  assert (Hn : 0 <= n).
  { apply check_compat_positive in Hcheck. subst n.
    unfold ANIM4DC_MAX_ANIMATIONS. lia. }
  assert (Hk : 0 <= k).
  { subst k. unfold captured_frames, ANIM4DC_MAX_KEYFRAMES.
    pose proof (sampled_frames_bounds frames (proj1 Hframes)). lia. }
  assert (Hany : forall w', initialized (anim4dc w') = true ->
                            well_formed (anim4dc w') = true ->
            let out := Anim4dcBakeVertexAnimations env model anims animCount w' in
            total_memory_bytes (anim4dc out.2) = spec_bytes n k v
            /\ memoryUsageKB (Anim4dcGetStats (anim4dc_stats out.2))
               = spec_bytes n k v / 1024).
  { intros w' Hinit' Hwf' out.
    pose proof (bake_uniform env model anims animCount w' frames data Hinit' Hwf'
                  Hcheck Hmalloc Hanims Hframes) as Hu.
    destruct (bake_succeeds env model anims animCount w' Hinit' Hwf' Hcheck Hmalloc)
      as (_ & _ & _ & _ & _ & _ & Hkb & _).
    split; [by apply total_memory_uniform|].
    unfold Anim4dcGetStats. subst out. rewrite Hkb.
    by apply memory_usage_uniform. }
  destruct (Hany w Hinit Hwf) as [Hb1 Hkb1].
  destruct (Hany (Anim4dcInit (Anim4dcShutdown w)).2 eq_refl eq_refl) as [Hb2 Hkb2].
  done.
Qed.

(** An instance: [small_system], and the demo world baked twice. *)
Lemma memory_usage_kilobytes_witness :
  total_memory_bytes small_system = 3600
  /\ Anim4dcCalculateMemoryUsage small_system = 3
  /\ total_memory_bytes
       (anim4dc (Anim4dcBakeVertexAnimations env_ok demo_model [demo_animation] 1
                   world_baked).2) = spec_bytes 1 13 2.
Proof.
  destruct memory_usage_kilobytes as [Huniform Hbake].
  destruct (Huniform small_system 1 2 100) as [Hbytes Hkb].
  - split; [reflexivity|]. split; [reflexivity|]. split; [discriminate|].
    intros a Ha. assert (a = 0) as -> by lia.
    eexists. split; [reflexivity|]. split; [reflexivity|].
    intros j Hj. assert (j = 0 \/ j = 1) as [-> | ->] by lia;
      (eexists; split; [reflexivity|]; split; [discriminate | reflexivity]).
  - lia.
  - lia.
  - lia.
  - vm_compute. discriminate.
  - split; [exact Hbytes|]. split; [exact Hkb|].
    destruct (Hbake env_ok demo_model [demo_animation] 1 world_baked 100
                (fun _ => demo_data)) as (Hrebaked & _).
    + reflexivity.
    + vm_compute. reflexivity.
    + reflexivity.
    + intros i. reflexivity.
    + intros a Ha. assert (a = 0%nat) as ->
        by (unfold ANIM4DC_MAX_ANIMATIONS in Ha; lia).
      split; [reflexivity | exact demo_poses].
    + vm_compute. split; discriminate.
    + vm_compute. discriminate.
    + vm_compute. discriminate.
    + exact Hrebaked.
Defined.

(** ** Baked timestamps are sorted and finite

    A clip keeps at most twenty samples and the stride is 4 or 8, so the
    timestamps that a bake can produce are the forty values checked
    here: the hypotheses of the keyframe selection hold of every clip
    that a bake has filled. *)

Lemma frame_timestamps_sorted (step : Z) (j : nat) :
  step = 4 \/ step = 8 -> (j < 19)%nat ->
  fleb (fdiv (float_of_int (Z.of_nat j * step)) f20)
       (fdiv (float_of_int ((Z.of_nat j + 1) * step)) f20) = true.
Proof.
  intros Hstep Hj.
  assert (Hall : forall st, st = 4 \/ st = 8 ->
            forallb (fun i : nat =>
                       fleb (fdiv (float_of_int (Z.of_nat i * st)) f20)
                            (fdiv (float_of_int ((Z.of_nat i + 1) * st)) f20))
                    (seq 0 19) = true)
    by (intros st [-> | ->]; vm_compute; reflexivity).
  specialize (Hall step Hstep). rewrite forallb_forall in Hall.
  apply Hall, in_seq. lia.
Qed.

Lemma sampled_timestamps_sorted (clip : Anim4dcVertexAnimation) (count : Z)
    (data : Z -> list float) (nverts step : Z) :
  holds_samples clip count data nverts step ->
  count <= 20 -> step = 4 \/ step = 8 ->
  timestamps_sorted clip.
Proof.
  intros [Hcount Hkfs] Hmax Hstep j Hj. rewrite Hcount in Hj.
  unfold timestamp_at.
  rewrite (list_lookup_total_correct _ _ _ (Hkfs j ltac:(lia))).
  rewrite (list_lookup_total_correct _ _ _ (Hkfs (j + 1) ltac:(lia))).
  cbn [timestamp keyframe_of_frame].
  pose proof (frame_timestamps_sorted step (Z.to_nat j) Hstep ltac:(lia)) as Hle.
  by rewrite Z2Nat.id in Hle by lia.
Qed.

Lemma frame_timestamps_finite (step : Z) (j : nat) :
  step = 4 \/ step = 8 -> (j < 19)%nat ->
  is_finite (fdiv (float_of_int (Z.of_nat j * step)) f20) = true
  /\ is_finite (fsub (fdiv (float_of_int ((Z.of_nat j + 1) * step)) f20)
                     (fdiv (float_of_int (Z.of_nat j * step)) f20)) = true.
Proof.
  intros Hstep Hj.
  assert (Hall : forall st, st = 4 \/ st = 8 ->
            forallb (fun i : nat =>
                       is_finite (fdiv (float_of_int (Z.of_nat i * st)) f20)
                       && is_finite
                            (fsub (fdiv (float_of_int ((Z.of_nat i + 1) * st)) f20)
                                  (fdiv (float_of_int (Z.of_nat i * st)) f20)))
                    (seq 0 19) = true)
    by (intros st [-> | ->]; vm_compute; reflexivity).
  specialize (Hall step Hstep). rewrite forallb_forall in Hall.
  apply andb_true_iff, Hall, in_seq. lia.
Qed.

Lemma sampled_timestamps_finite (clip : Anim4dcVertexAnimation) (count : Z)
    (data : Z -> list float) (nverts step : Z) :
  holds_samples clip count data nverts step ->
  count <= 20 -> step = 4 \/ step = 8 ->
  forall j, 0 <= j < count - 1 ->
    is_finite (timestamp_at clip j) = true
    /\ is_finite (fsub (timestamp_at clip (j + 1)) (timestamp_at clip j)) = true.
Proof.
  intros [Hcount Hkfs] Hmax Hstep j Hj.
  unfold timestamp_at.
  rewrite (list_lookup_total_correct _ _ _ (Hkfs j ltac:(lia))).
  rewrite (list_lookup_total_correct _ _ _ (Hkfs (j + 1) ltac:(lia))).
  cbn [timestamp keyframe_of_frame].
  pose proof (frame_timestamps_finite step (Z.to_nat j) Hstep ltac:(lia)) as Hfin.
  by rewrite Z2Nat.id in Hfin by lia.
Qed.

(** * Further properties of the library *)

(** ** Captured keyframes own their buffers *)

Lemma capture_allocated (env : Env) (clip : Anim4dcVertexAnimation)
    (tstamp : float) (vertexData : list float) (nverts : Z) (nalloc : nat) :
  clip_ok clip = true -> clip_allocated nverts clip ->
  clip_allocated nverts
    (Anim4dcCaptureVertexKeyframe env clip tstamp vertexData nverts nalloc).1.
Proof.
  intros Hok Halloc. apply clip_ok_spec in Hok as [Hlen Hcount].
  unfold Anim4dcCaptureVertexKeyframe, ANIM4DC_MAX_KEYFRAMES.
  destruct (20 <=? keyframeCount clip) eqn:Hfull; [done|].
  destruct (malloc_ok env nalloc); cbn [fst]; intros k kf Hk Hkf;
    cbn [keyframes keyframeCount set_keyframes] in Hk, Hkf.
  - destruct (decide (k = Z.to_nat (keyframeCount clip))) as [->|Hne].
    + rewrite list_lookup_insert_eq in Hkf by lia. by inversion Hkf.
    + rewrite list_lookup_insert_ne in Hkf by done. apply (Halloc k kf); [lia | done].
  - rewrite list_lookup_insert_ne in Hkf by lia. by apply (Halloc k kf).
Qed.

Lemma sample_loop_allocated (env : Env) (skelAnim : ModelAnimation)
    (keyframeStep nverts : Z) (fuel : nat) :
  forall (frame : Z) (model : Model) (clip : Anim4dcVertexAnimation) (nalloc : nat),
    clip_ok clip = true -> clip_allocated nverts clip ->
    clip_allocated nverts
      (sample_loop env fuel frame keyframeStep skelAnim model clip nverts nalloc).1.2.
Proof.
  induction fuel as [|fuel IH]; intros frame model clip nalloc Hok Halloc;
    cbn [sample_loop]; [done|].
  destruct (frame <? frameCount skelAnim); [|done].
  destruct (animVertices _) as [vertexData|]; [|by apply IH].
  pose proof (capture_clip_ok env clip (fdiv (float_of_int frame) f20)
                vertexData nverts nalloc Hok) as Hok'.
  pose proof (capture_allocated env clip (fdiv (float_of_int frame) f20)
                vertexData nverts nalloc Hok Halloc) as Halloc'.
  destruct (Anim4dcCaptureVertexKeyframe _ _ _ _ _ _) as [clip' nalloc'].
  by apply IH.
Qed.

Lemma bake_clip_allocated (env : Env) (a : nat) (skelAnim : ModelAnimation)
    (model : Model) (vertAnim : Anim4dcVertexAnimation) (nverts : Z) (nalloc : nat) :
  clip_ok vertAnim = true ->
  clip_allocated nverts (bake_clip env a skelAnim model vertAnim nverts nalloc).1.2.
Proof.
  intros Hok. unfold bake_clip. apply sample_loop_allocated.
  - apply clip_ok_spec in Hok as [Hlen _]. apply clip_ok_spec. cbn. split; [done | lia].
  - intros k kf Hk. cbn in Hk. lia.
Qed.

(** What a bake leaves behind once it has passed the two checks,
    whatever the allocator does. *)
Lemma bake_state (env : Env) (model : Model) (anims : list ModelAnimation)
    (animCount : Z) (w : World) :
  initialized (anim4dc w) = true ->
  well_formed (anim4dc w) = true ->
  Anim4dcCheckModelCompatibility model anims animCount = true ->
  let out := Anim4dcBakeVertexAnimations env model anims animCount w in
  let s' := anim4dc out.2 in
  let nverts := mesh_vertexCount (meshes model !!! 0%nat) in
  animationCount s' = Z.min animCount ANIM4DC_MAX_ANIMATIONS
  /\ vertexCount s' = nverts
  /\ initialized s' = true
  /\ (forall a : nat,
        Z.of_nat a < Z.min animCount ANIM4DC_MAX_ANIMATIONS ->
        exists model_a nalloc_a,
          animations s' !! a
          = Some (bake_clip env a (anims !!! a) model_a
                    (animations (anim4dc w) !!! a) nverts nalloc_a).1.2)
  /\ (out.1 = true ->
      interpolationBuffer s' = Some (replicate (Z.to_nat (nverts * 3)) f0)
      /\ currentAnimation s' = 0 /\ currentTime s' = f0
      /\ anim4dc_stats out.2
         = set_memoryUsageKB (anim4dc_stats w) (Anim4dcCalculateMemoryUsage s'))
  /\ (out.1 = false ->
      interpolationBuffer s' = None
      /\ currentAnimation s' = currentAnimation (anim4dc w)
      /\ currentTime s' = currentTime (anim4dc w)
      /\ anim4dc_stats out.2 = anim4dc_stats w).
Proof.
  intros Hinit Hwf Hcheck.
  unfold Anim4dcBakeVertexAnimations. rewrite Hinit, Hcheck. cbn [negb].
  apply check_compat_positive in Hcheck as [_ Hcount].
  apply well_formed_spec in Hwf as (Hlen & _ & _ & _).
  assert (Hbake : (if ANIM4DC_MAX_ANIMATIONS <? animCount
                   then ANIM4DC_MAX_ANIMATIONS else animCount)
                  = Z.min animCount ANIM4DC_MAX_ANIMATIONS).
  { unfold ANIM4DC_MAX_ANIMATIONS. destruct (8 <? animCount) eqn:Hmax; lia. }
  rewrite Hbake.
  match goal with |- context [bake_loop ?e ?n ?a ?an ?m ?c ?v ?k] =>
    pose proof (fun i => bake_loop_at e an v m n a m c k i (bake_model_start e an m)) as Hat;
    destruct (bake_loop e n a an m c v k) as [[model' clips] nalloc] end.
  assert (Hclips : forall a : nat,
             Z.of_nat a < Z.min animCount ANIM4DC_MAX_ANIMATIONS ->
             exists model_a nalloc_a,
               clips !! a
               = Some (bake_clip env a (anims !!! a) model_a
                         (animations (anim4dc w) !!! a)
                         (mesh_vertexCount (meshes model !!! 0%nat)) nalloc_a).1.2).
  { intros a Ha.
    destruct (Hat a) as (model_a & nalloc_a & _ & Hlook);
      [unfold ANIM4DC_MAX_ANIMATIONS in *; lia..|].
    by exists model_a, nalloc_a. }
  destruct (malloc_ok env nalloc); cbn [fst snd anim4dc anim4dc_stats
    animationCount vertexCount initialized animations interpolationBuffer
    currentAnimation currentTime];
    (split; [done|]); (split; [done|]); (split; [done|]);
    (split; [exact Hclips|]);
    (split; intros Hres; [try discriminate Hres | try discriminate Hres]);
    done.
Qed.

Lemma bake_keeps_allocation (env : Env) (model : Model)
    (anims : list ModelAnimation) (animCount : Z) (w : World) :
  well_formed (anim4dc w) = true ->
  keyframes_allocated (anim4dc w) /\ buffer_sized (anim4dc w) ->
  keyframes_allocated
    (anim4dc (Anim4dcBakeVertexAnimations env model anims animCount w).2)
  /\ buffer_sized
       (anim4dc (Anim4dcBakeVertexAnimations env model anims animCount w).2).
Proof.
  intros Hwf Hinv.
  destruct (initialized (anim4dc w)) eqn:Hinit;
    [|unfold Anim4dcBakeVertexAnimations; by rewrite Hinit].
  destruct (Anim4dcCheckModelCompatibility model anims animCount) eqn:Hcheck;
    [|unfold Anim4dcBakeVertexAnimations; by rewrite Hinit, Hcheck].
  destruct (bake_state env model anims animCount w Hinit Hwf Hcheck)
    as (Hcount & Hverts & _ & Hclips & Htrue & Hfalse).
  split.
  - intros a clip Ha Hlook. rewrite Hcount in Ha. rewrite Hverts.
    destruct (Hclips a Ha) as (model_a & nalloc_a & Hclip).
    rewrite Hlook in Hclip. inversion Hclip; subst clip.
    apply bake_clip_allocated.
    apply well_formed_spec in Hwf as (Hlen & Hall & _ & _).
    apply Forall_lookup_total_ok; [done|].
    unfold ANIM4DC_MAX_ANIMATIONS in Ha. lia.
  - intros buffer Hbuf. rewrite Hverts.
    destruct (Anim4dcBakeVertexAnimations env model anims animCount w).1 eqn:Hres.
    + destruct (Htrue eq_refl) as (Hb & _). rewrite Hb in Hbuf.
      inversion Hbuf. by rewrite length_replicate.
    + destruct (Hfalse eq_refl) as (Hb & _). congruence.
Qed.

Lemma update_keeps_allocation (deltaTime : float) (s : Anim4dcAnimationSystem) :
  keyframes_allocated s /\ buffer_sized s ->
  keyframes_allocated (Anim4dcUpdateAnimation deltaTime s)
  /\ buffer_sized (Anim4dcUpdateAnimation deltaTime s).
Proof.
  intros [Hkf Hbuf]. unfold Anim4dcUpdateAnimation.
  destruct (negb (initialized s) || (currentAnimation s <? 0)
            || (animationCount s <=? currentAnimation s)); [done|].
  destruct (interpolationBuffer s) as [output|] eqn:Hout; [|done].
  destruct (keyframeCount _ <? 2); [done|].
  destruct (select_keyframes _ _) as [cur next].
  split; [exact Hkf|].
  intros buffer Hb. cbn in Hb. inversion Hb; subst buffer. cbn [vertexCount].
  unfold Anim4dcInterpolateVertices. rewrite interpolate_loop_length.
  by apply Hbuf.
Qed.

Lemma reachable_allocation (env : Env) (w : World) :
  reachable env w ->
  keyframes_allocated (anim4dc w) /\ buffer_sized (anim4dc w).
Proof.
  induction 1 as [ | w _ _ | w Hr IH | w model anims animCount Hr IH | w dt Hr IH
                 | w idx Hr IH | w nm Hr IH | w time Hr IH | w ins n cam Hr IH ].
  - split; [intros a clip Ha; cbn in Ha; lia | intros b Hb; discriminate Hb].
  - split; [intros a clip Ha; cbn in Ha; lia | intros b Hb; discriminate Hb].
  - unfold Anim4dcShutdown. destruct (negb (initialized (anim4dc w))); [done|].
    split; [intros a clip Ha; cbn in Ha; lia | intros b Hb; discriminate Hb].
  - apply bake_keeps_allocation; [by apply (reachable_well_formed env) | done].
  - by apply update_keeps_allocation.
  - cbn. unfold Anim4dcSetAnimation.
    by destruct (negb (initialized (anim4dc w)) || (idx <? 0)
                 || (animationCount (anim4dc w) <=? idx)).
  - cbn. unfold Anim4dcSetAnimationByName. destruct nm as [nm|]; [|done].
    destruct (negb (initialized (anim4dc w))); [done|].
    generalize 0.
    induction (Z.to_nat (animationCount (anim4dc w))) as [|n IHn]; intros i;
      cbn [name_loop]; [done|].
    destruct (String.eqb _ _); [|apply IHn].
    unfold Anim4dcSetAnimation.
    by destruct (negb (initialized (anim4dc w)) || (i <? 0)
                 || (animationCount (anim4dc w) <=? i)).
  - cbn. unfold Anim4dcSetAnimationTime.
    by destruct ((0 <=? currentAnimation (anim4dc w))
                 && (currentAnimation (anim4dc w) <? animationCount (anim4dc w))).
  - done.
Qed.

(** X1.  In every reachable world, each keyframe counted by a baked clip
    owns a vertex buffer and records the system's vertex count, and an
    allocated interpolation buffer holds [vertexCount * 3] floats. *)
Theorem captured_keyframes_allocated (env : Env) (w : World) :
  reachable env w ->
  let s := anim4dc w in
  (forall (a : nat) clip (k : nat) kf,
      Z.of_nat a < animationCount s -> animations s !! a = Some clip ->
      Z.of_nat k < keyframeCount clip -> keyframes clip !! k = Some kf ->
      vertices kf <> None /\ kf_vertexCount kf = vertexCount s)
  /\ (forall buffer, interpolationBuffer s = Some buffer ->
                     length buffer = Z.to_nat (vertexCount s * 3)).
Proof.
  intros Hreach s. destruct (reachable_allocation env w Hreach) as [Hkf Hbuf].
  split; [|exact Hbuf].
  intros a clip k kf Ha Hclip Hk Hlook. by apply (Hkf a clip Ha Hclip k kf).
Qed.

(** An instance: keyframe 12 of the baked demo clip. *)
Lemma captured_keyframes_allocated_witness :
  reachable env_ok world_baked
  /\ exists clip kf,
       animations (anim4dc world_baked) !! 0%nat = Some clip
       /\ keyframes clip !! 12%nat = Some kf
       /\ vertices kf <> None /\ kf_vertexCount kf = 2.
Proof.
  split; [exact world_baked_reachable|].
  destruct (captured_keyframes_allocated env_ok world_baked world_baked_reachable)
    as [Hkf _].
  set (clip := animations (anim4dc world_baked) !!! 0%nat).
  assert (Hclip : animations (anim4dc world_baked) !! 0%nat = Some clip)
    by (vm_compute; reflexivity).
  assert (Hlook : keyframes clip !! 12%nat = Some (keyframes clip !!! 12%nat))
    by (vm_compute; reflexivity).
  exists clip, (keyframes clip !!! 12%nat).
  split; [exact Hclip|]. split; [exact Hlook|].
  destruct (Hkf 0%nat clip 12%nat (keyframes clip !!! 12%nat)) as [Hv Hc];
    [vm_compute; reflexivity | exact Hclip | vm_compute; reflexivity | exact Hlook |].
  split; [exact Hv|]. rewrite Hc. vm_compute. reflexivity.
Defined.

(** ** Playback reads captured keyframes only *)

Lemma scan_keyframes_range (anim : Anim4dcVertexAnimation) (time : float) (n : nat) :
  forall start : Z,
    scan_keyframes n start anim time = (0, 1)
    \/ exists i, start <= i < start + Z.of_nat n
                 /\ scan_keyframes n start anim time = (i, i + 1).
Proof.
  induction n as [|n IH]; intros start; cbn [scan_keyframes]; [by left|].
  destruct (brackets anim time start).
  - right. exists start. split; [lia | done].
  - destruct (IH (start + 1)) as [H01 | (i & Hi & Hscan)]; [by left|].
    right. exists i. split; [lia | done].
Qed.

Lemma select_keyframes_range (anim : Anim4dcVertexAnimation) (time : float) :
  2 <= keyframeCount anim ->
  0 <= (select_keyframes anim time).1 < keyframeCount anim
  /\ 0 <= (select_keyframes anim time).2 < keyframeCount anim.
Proof.
  intros Hkf. unfold select_keyframes.
  destruct (fleb _ time); [cbn; lia|].
  destruct (scan_keyframes_range anim time (Z.to_nat (keyframeCount anim - 1)) 0)
    as [-> | (i & Hi & ->)]; cbn; lia.
Qed.

(** X2.  In every reachable world with a selected clip of at least two
    keyframes, the two keyframes that [Anim4dcUpdateAnimation] picks for
    any clock are among the clip's counted keyframes, own a vertex
    buffer each and record the system's vertex count: playback never
    reads a [NULL] or stale keyframe. *)
Theorem playback_reads_captured_keyframes (env : Env) (w : World)
    (anim : Anim4dcVertexAnimation) (time : float) :
  reachable env w ->
  selected_clip (anim4dc w) = Some anim ->
  2 <= keyframeCount anim ->
  let pair := select_keyframes anim time in
  (0 <= pair.1 < keyframeCount anim /\ 0 <= pair.2 < keyframeCount anim)
  /\ (forall i, i = pair.1 \/ i = pair.2 ->
        exists kf, keyframes anim !! Z.to_nat i = Some kf
                   /\ vertices kf <> None
                   /\ kf_vertexCount kf = vertexCount (anim4dc w)).
Proof.
  intros Hreach Hsel Hkf pair.
  pose proof (select_keyframes_range anim time Hkf) as Hrange. fold pair in Hrange.
  split; [exact Hrange|].
  destruct (reachable_allocation env w Hreach) as [Halloc _].
  pose proof (reachable_well_formed env w Hreach) as Hwf.
  unfold selected_clip in Hsel.
  destruct ((0 <=? currentAnimation (anim4dc w))
            && (currentAnimation (anim4dc w) <? animationCount (anim4dc w)))
    eqn:Hcur; [|done].
  apply andb_true_iff in Hcur as [Hlow Hhigh].
  apply well_formed_spec in Hwf as (_ & Hall & _ & _).
  pose proof (Forall_lookup_1 _ _ _ _ Hall Hsel) as Hok.
  apply clip_ok_spec in Hok as [Hlen Hmax].
  intros i Hi.
  assert (Hin : 0 <= i < keyframeCount anim) by (destruct Hi as [-> | ->]; lia).
  destruct (lookup_lt_is_Some_2 (keyframes anim) (Z.to_nat i)) as [kf Hlook];
    [lia|].
  exists kf. split; [done|].
  apply (Halloc (Z.to_nat (currentAnimation (anim4dc w))) anim ltac:(lia) Hsel
                (Z.to_nat i) kf); [lia | done].
Qed.

(** An instance: the baked demo world at clock 0.1. *)
Lemma playback_reads_captured_keyframes_witness :
  exists kf, keyframes (animations (anim4dc world_baked) !!! 0%nat) !! 1%nat = Some kf
             /\ vertices kf <> None /\ kf_vertexCount kf = 2.
Proof.
  destruct (playback_reads_captured_keyframes env_ok world_baked
              (animations (anim4dc world_baked) !!! 0%nat) f_tenth
              world_baked_reachable) as [_ Hkf].
  - vm_compute. reflexivity.
  - vm_compute. discriminate.
  - apply (Hkf 1). right. vm_compute. reflexivity.
Defined.

(** ** Nothing baked, nothing played *)

(** X3.  While no clip is baked ([animationCount <= 0], as after
    [Anim4dcInit] or [Anim4dcShutdown]), [Anim4dcUpdateAnimation] and
    [Anim4dcSetAnimationTime] change nothing and both selection
    functions refuse every index and every name, leaving the state as it
    was. *)
Theorem idle_without_clips (env : Env) (s : Anim4dcAnimationSystem)
    (deltaTime time : float) (animIndex : Z) (animName : option string) :
  animationCount s <= 0 ->
  Anim4dcUpdateAnimation deltaTime s = s
  /\ Anim4dcSetAnimationTime env time s = s
  /\ Anim4dcSetAnimation animIndex s = (false, s)
  /\ Anim4dcSetAnimationByName animName s = (false, s).
Proof.
  intros Hcount. split; [|split; [|split]].
  - unfold Anim4dcUpdateAnimation.
    destruct (currentAnimation s <? 0) eqn:Hneg;
      [by rewrite orb_true_r|].
    replace (animationCount s <=? currentAnimation s) with true by lia.
    by rewrite orb_true_r.
  - unfold Anim4dcSetAnimationTime.
    destruct (0 <=? currentAnimation s) eqn:Hlow; [|done].
    by replace (currentAnimation s <? animationCount s) with false by lia.
  - apply set_animation_out_of_range. lia.
  - destruct animName as [nm|]; [|done]. cbn.
    destruct (negb (initialized s)); [done|].
    by replace (Z.to_nat (animationCount s)) with 0%nat by lia.
Qed.

(** An instance: the state right after [Anim4dcInit]. *)
Lemma idle_without_clips_witness :
  Anim4dcUpdateAnimation f_tenth (anim4dc world_init) = anim4dc world_init
  /\ Anim4dcSetAnimationByName (Some "Walk"%string) (anim4dc world_init)
     = (false, anim4dc world_init).
Proof.
  destruct (idle_without_clips env_ok (anim4dc world_init) f_tenth f0 0
              (Some "Walk"%string)) as (Hupdate & _ & _ & Hname).
  - vm_compute. discriminate.
  - split; [exact Hupdate | exact Hname].
Defined.

(** ** Shutdown *)

(** X4.  [Anim4dcShutdown] on an initialized world zeroes the animation
    state and nothing else; it does nothing on an uninitialized world,
    so shutting down twice is shutting down once; after it a bake is
    refused without any change, the memory usage is 0 and no
    interpolated vertices are available; and [Anim4dcInit] brings back
    the state of a first initialisation. *)
Theorem shutdown_lifecycle (env : Env) (w : World) (model : Model)
    (anims : list ModelAnimation) (animCount : Z) :
  let w' := Anim4dcShutdown w in
  (initialized (anim4dc w) = true ->
   w' = mkWorld zero_system (anim4dc_stats w) (allocs w))
  /\ (initialized (anim4dc w) = false -> w' = w)
  /\ Anim4dcShutdown w' = w'
  /\ Anim4dcBakeVertexAnimations env model anims animCount w' = (false, w')
  /\ (initialized (anim4dc w) = true ->
      Anim4dcCalculateMemoryUsage (anim4dc w') = 0
      /\ Anim4dcGetInterpolatedVertices (anim4dc w') = None)
  /\ anim4dc (Anim4dcInit w').2 = anim4dc world_init.
Proof.
  intros w'. subst w'. unfold Anim4dcShutdown.
  destruct (initialized (anim4dc w)) eqn:Hinit; cbn [negb].
  - split; [done|]. split; [done|]. split; [done|].
    split; [done|]. split; [intros _; split; reflexivity | reflexivity].
  - split; [done|]. split; [done|]. split; [by rewrite Hinit|].
    split; [|split; [done | reflexivity]].
    unfold Anim4dcBakeVertexAnimations. by rewrite Hinit.
Qed.

(** An instance: shutting the baked demo world down. *)
Lemma shutdown_lifecycle_witness :
  Anim4dcShutdown world_baked
  = mkWorld zero_system (anim4dc_stats world_baked) (allocs world_baked)
  /\ Anim4dcCalculateMemoryUsage (anim4dc (Anim4dcShutdown world_baked)) = 0
  /\ Anim4dcBakeVertexAnimations env_ok demo_model [demo_animation] 1
       (Anim4dcShutdown world_baked)
     = (false, Anim4dcShutdown world_baked).
Proof.
  destruct (shutdown_lifecycle env_ok world_baked demo_model [demo_animation] 1)
    as (Hzero & _ & _ & Hbake & Husage & _).
  split; [apply Hzero; reflexivity|].
  split; [apply Husage; reflexivity | exact Hbake].
Defined.

(** ** What a bake leaves behind *)

(** X5.  A bake that passes the initialisation and compatibility checks
    always replaces the clip count (the source count capped at 8) and
    the vertex count (that of mesh 0), and it returns true exactly when
    it obtained the interpolation buffer.  On success clip 0 is current,
    the clock is 0 and the statistics hold the memory usage; on failure
    the current clip, the clock and the statistics are the old ones,
    playback is a no-op, and the clips that were baked can still be
    selected. *)
Theorem bake_outcome (env : Env) (model : Model) (anims : list ModelAnimation)
    (animCount : Z) (w : World) :
  initialized (anim4dc w) = true ->
  well_formed (anim4dc w) = true ->
  Anim4dcCheckModelCompatibility model anims animCount = true ->
  let out := Anim4dcBakeVertexAnimations env model anims animCount w in
  let s' := anim4dc out.2 in
  animationCount s' = Z.min animCount ANIM4DC_MAX_ANIMATIONS
  /\ vertexCount s' = mesh_vertexCount (meshes model !!! 0%nat)
  /\ (out.1 = true <-> Anim4dcGetInterpolatedVertices s' <> None)
  /\ (out.1 = true ->
      Anim4dcGetCurrentAnimation s' = 0 /\ Anim4dcGetAnimationTime s' = f0
      /\ memoryUsageKB (Anim4dcGetStats (anim4dc_stats out.2))
         = Anim4dcCalculateMemoryUsage s')
  /\ (out.1 = false ->
      Anim4dcGetCurrentAnimation s' = Anim4dcGetCurrentAnimation (anim4dc w)
      /\ Anim4dcGetAnimationTime s' = Anim4dcGetAnimationTime (anim4dc w)
      /\ anim4dc_stats out.2 = anim4dc_stats w
      /\ (forall deltaTime, Anim4dcUpdateAnimation deltaTime s' = s')
      /\ Anim4dcSetAnimation 0 s' = (true, select s' 0)).
Proof.
  intros Hinit Hwf Hcheck out s'.
  pose proof (bake_state env model anims animCount w Hinit Hwf Hcheck) as Hstate.
  cbv zeta in Hstate.
  change (Anim4dcBakeVertexAnimations env model anims animCount w) with out in Hstate.
  change (anim4dc out.2) with s' in Hstate.
  destruct Hstate as (Hcount & Hverts & Hinit' & _ & Htrue & Hfalse).
  split; [exact Hcount|]. split; [exact Hverts|].
  unfold Anim4dcGetInterpolatedVertices, Anim4dcGetCurrentAnimation,
    Anim4dcGetAnimationTime, Anim4dcGetStats.
  split; [|split].
  - destruct out.1.
    + destruct (Htrue eq_refl) as (-> & _). done.
    + destruct (Hfalse eq_refl) as (-> & _). done.
  - intros Hres. destruct (Htrue Hres) as (_ & Hcur & Htime & ->). done.
  - intros Hres. destruct (Hfalse Hres) as (Hbuf & Hcur & Htime & Hstats).
    split; [done|]. split; [done|]. split; [done|]. split.
    + intros deltaTime. unfold Anim4dcUpdateAnimation. rewrite Hbuf.
      by destruct (negb (initialized s') || (currentAnimation s' <? 0)
                   || (animationCount s' <=? currentAnimation s')).
    + apply set_animation_in_range.
      * subst s' out. by apply bake_well_formed.
      * apply check_compat_positive in Hcheck.
        unfold ANIM4DC_MAX_ANIMATIONS in Hcount. lia.
Qed.

(** An instance: the demo bake whose buffer allocation fails. *)
Lemma bake_outcome_witness :
  let out := Anim4dcBakeVertexAnimations env_no_buffer demo_model
               [demo_animation] 1 world_init in
  out.1 = false
  /\ animationCount (anim4dc out.2) = 1
  /\ Anim4dcGetCurrentAnimation (anim4dc out.2) = -1
  /\ Anim4dcSetAnimation 0 (anim4dc out.2) = (true, select (anim4dc out.2) 0).
Proof.
  intros out.
  assert (Hres : out.1 = false) by (vm_compute; reflexivity).
  destruct (bake_outcome env_no_buffer demo_model [demo_animation] 1 world_init)
    as (Hcount & _ & _ & _ & Hfalse).
  - reflexivity.
  - vm_compute. reflexivity.
  - vm_compute. reflexivity.
  - destruct (Hfalse Hres) as (Hcur & _ & _ & _ & Hset).
    split; [exact Hres|]. split; [exact Hcount|]. split; [exact Hcur | exact Hset].
Defined.

(** ** Names of the baked clips *)

Lemma capture_keeps_header (env : Env) (clip : Anim4dcVertexAnimation)
    (tstamp : float) (vertexData : list float) (nverts : Z) (nalloc : nat) :
  let clip' := (Anim4dcCaptureVertexKeyframe env clip tstamp vertexData
                  nverts nalloc).1 in
  name clip' = name clip /\ duration clip' = duration clip
  /\ looping clip' = looping clip.
Proof.
  unfold Anim4dcCaptureVertexKeyframe.
  destruct (ANIM4DC_MAX_KEYFRAMES <=? keyframeCount clip); [done|].
  by destruct (malloc_ok env nalloc).
Qed.

Lemma sample_loop_keeps_header (env : Env) (skelAnim : ModelAnimation)
    (keyframeStep nverts : Z) (fuel : nat) :
  forall (frame : Z) (model : Model) (clip : Anim4dcVertexAnimation) (nalloc : nat),
    let clip' := (sample_loop env fuel frame keyframeStep skelAnim model clip
                    nverts nalloc).1.2 in
    name clip' = name clip /\ duration clip' = duration clip
    /\ looping clip' = looping clip.
Proof.
  induction fuel as [|fuel IH]; intros frame model clip nalloc;
    cbn [sample_loop]; [done|].
  destruct (frame <? frameCount skelAnim); [|done].
  destruct (animVertices _) as [vertexData|]; [|apply IH].
  pose proof (capture_keeps_header env clip (fdiv (float_of_int frame) f20)
                vertexData nverts nalloc) as (Hn & Hd & Hl).
  destruct (Anim4dcCaptureVertexKeyframe _ _ _ _ _ _) as [clip' nalloc'].
  cbn [fst] in *. cbn zeta.
  destruct (IH (int32 (frame + keyframeStep))
               (UpdateModelAnimation env model skelAnim frame) clip' nalloc')
    as (Hn' & Hd' & Hl').
  split; [congruence|]. split; congruence.
Qed.

Lemma pool_name (a : nat) :
  (a < 8)%nat ->
  snprintf_s ANIM4DC_MAX_NAME_LENGTH
    (if Z.of_nat a <? 8 then animNames !!! a else "Unknown"%string)
  = animNames !!! a.
Proof.
  intros Ha. do 8 (destruct a as [|a]; [reflexivity|]). lia.
Qed.

Lemma pool_names_distinct (i j : nat) :
  (i < 8)%nat -> (j < 8)%nat -> animNames !!! i = animNames !!! j -> i = j.
Proof.
  intros Hi Hj.
  do 8 (destruct i as [|i]; [do 8 (destruct j as [|j]; [by vm_compute|]); lia|]).
  lia.
Qed.

Lemma bake_clip_header (env : Env) (a : nat) (skelAnim : ModelAnimation)
    (model : Model) (vertAnim : Anim4dcVertexAnimation) (nverts : Z) (nalloc : nat) :
  (a < 8)%nat ->
  let clip := (bake_clip env a skelAnim model vertAnim nverts nalloc).1.2 in
  name clip = animNames !!! a
  /\ duration clip = fdiv (float_of_int (frameCount skelAnim)) f20
  /\ looping clip = true.
Proof.
  intros Ha. unfold bake_clip. cbn zeta.
  match goal with |- context [sample_loop ?e ?f ?fr ?st ?sk ?m ?c ?v ?n] =>
    destruct (sample_loop_keeps_header e sk st v f fr m c n) as (Hn & Hd & Hl) end.
  rewrite Hn, Hd, Hl. cbn [name duration looping].
  by rewrite pool_name.
Qed.

Lemma bake_clip_headers (env : Env) (model : Model)
    (anims : list ModelAnimation) (animCount : Z) (w : World) (a : nat) :
  initialized (anim4dc w) = true ->
  well_formed (anim4dc w) = true ->
  Anim4dcCheckModelCompatibility model anims animCount = true ->
  Z.of_nat a < Z.min animCount ANIM4DC_MAX_ANIMATIONS ->
  let s' := anim4dc (Anim4dcBakeVertexAnimations env model anims animCount w).2 in
  exists clip,
    animations s' !! a = Some clip
    /\ name clip = animNames !!! a
    /\ looping clip = true
    /\ duration clip = fdiv (float_of_int (frameCount (anims !!! a))) f20.
Proof.
  intros Hinit Hwf Hcheck Ha s'.
  pose proof (bake_state env model anims animCount w Hinit Hwf Hcheck) as Hstate.
  cbv zeta in Hstate.
  change (anim4dc (Anim4dcBakeVertexAnimations env model anims animCount w).2)
    with s' in Hstate.
  destruct Hstate as (_ & _ & _ & Hclips & _).
  destruct (Hclips a Ha) as (model_a & nalloc_a & Hlook).
  eexists. split; [exact Hlook|].
  destruct (bake_clip_header env a (anims !!! a) model_a
              (animations (anim4dc w) !!! a)
              (mesh_vertexCount (meshes model !!! 0%nat)) nalloc_a)
    as (Hn & Hd & Hl); [unfold ANIM4DC_MAX_ANIMATIONS in Ha; lia|].
  done.
Qed.

Lemma bake_select_by_name (env : Env) (model : Model)
    (anims : list ModelAnimation) (animCount : Z) (w : World) (a : nat) :
  initialized (anim4dc w) = true ->
  well_formed (anim4dc w) = true ->
  Anim4dcCheckModelCompatibility model anims animCount = true ->
  Z.of_nat a < Z.min animCount ANIM4DC_MAX_ANIMATIONS ->
  let s' := anim4dc (Anim4dcBakeVertexAnimations env model anims animCount w).2 in
  Anim4dcSetAnimationByName (Some (animNames !!! a)) s'
  = (true, select s' (Z.of_nat a)).
Proof.
  intros Hinit Hwf Hcheck Ha s'.
  pose proof (bake_state env model anims animCount w Hinit Hwf Hcheck) as Hstate.
  cbv zeta in Hstate.
  change (anim4dc (Anim4dcBakeVertexAnimations env model anims animCount w).2)
    with s' in Hstate.
  destruct Hstate as (Hcount & _ & Hinit' & _).
  assert (Hwf' : well_formed s' = true) by (by apply bake_well_formed).
  pose proof (fun j Hj => bake_clip_headers env model anims animCount w j
                            Hinit Hwf Hcheck Hj) as Hname.
  cbv zeta in Hname.
  change (anim4dc (Anim4dcBakeVertexAnimations env model anims animCount w).2)
    with s' in Hname.
  unfold Anim4dcSetAnimationByName. rewrite Hinit'. cbn [negb].
  rewrite (name_loop_first s' (animNames !!! a) _ 0 (Z.of_nat a)).
  - apply set_animation_in_range; [done | lia].
  - lia.
  - rewrite Nat2Z.id. destruct (Hname a Ha) as (clip & Hlook & Hn & _).
    by rewrite (list_lookup_total_correct _ _ _ Hlook).
  - intros j Hj Heq.
    destruct (Hname (Z.to_nat j) ltac:(lia)) as (clip & Hlook & Hn & _).
    rewrite (list_lookup_total_correct _ _ _ Hlook), Hn in Heq.
    apply pool_names_distinct in Heq; unfold ANIM4DC_MAX_ANIMATIONS in *; lia.
Qed.

(** X6.  After a bake that passes the checks (whether or not it then
    gets its buffer), baked clip number [a] carries the [a]-th name of
    the pool "Survey", "Walk", "Run", "Jump", "Idle", "Attack", "Death",
    "Custom", loops, and lasts its source frame count divided by 20;
    selecting by that name makes clip [a] current with the clock at 0. *)
Theorem baked_clips_named (env : Env) (model : Model)
    (anims : list ModelAnimation) (animCount : Z) (w : World) (a : nat) :
  initialized (anim4dc w) = true ->
  well_formed (anim4dc w) = true ->
  Anim4dcCheckModelCompatibility model anims animCount = true ->
  Z.of_nat a < Z.min animCount ANIM4DC_MAX_ANIMATIONS ->
  let s' := anim4dc (Anim4dcBakeVertexAnimations env model anims animCount w).2 in
  (exists clip,
     animations s' !! a = Some clip
     /\ name clip = animNames !!! a
     /\ looping clip = true
     /\ duration clip = fdiv (float_of_int (frameCount (anims !!! a))) f20)
  /\ Anim4dcSetAnimationByName (Some (animNames !!! a)) s'
     = (true, select s' (Z.of_nat a)).
Proof.
  intros Hinit Hwf Hcheck Ha s'. split.
  - by apply bake_clip_headers.
  - by apply bake_select_by_name.
Qed.

(** An instance: the baked demo world answers to "Survey". *)
Lemma baked_clips_named_witness :
  Anim4dcSetAnimationByName (Some "Survey"%string) (anim4dc world_baked)
  = (true, select (anim4dc world_baked) 0).
Proof.
  destruct (baked_clips_named env_ok demo_model [demo_animation] 1 world_init 0)
    as [_ Hsel].
  - reflexivity.
  - vm_compute. reflexivity.
  - vm_compute. reflexivity.
  - vm_compute. reflexivity.
  - exact Hsel.
Defined.

(** ** Playback at a keyframe's timestamp *)

Lemma fleb_trans (a b c : float) :
  fleb a b = true -> fleb b c = true -> fleb a c = true.
Proof.
  rewrite !fleb_rank. unfold lex_le, lex_lt.
  destruct (frank a) as [[a1 a2] a3], (frank b) as [[b1 b2] b3],
           (frank c) as [[c1 c2] c3].
  intros (Ha & _ & Hab) (_ & Hc & Hbc). repeat split; try done.
  destruct Hab as [Hab|Hab]; [|inversion Hab; subst; exact Hbc].
  destruct Hbc as [Hbc|Hbc]; [left; lia | inversion Hbc; subst; by left].
Qed.

Lemma sorted_chain (anim : Anim4dcVertexAnimation) :
  timestamps_sorted anim ->
  forall (d : nat) (j : Z),
    0 <= j -> j + Z.of_nat d + 1 <= keyframeCount anim - 1 ->
    fleb (timestamp_at anim j) (timestamp_at anim (j + Z.of_nat d + 1)) = true.
Proof.
  intros Hsorted d. induction d as [|d IH]; intros j Hj Hlast.
  - replace (j + Z.of_nat 0 + 1) with (j + 1) by lia. apply Hsorted. lia.
  - replace (j + Z.of_nat (S d) + 1) with ((j + Z.of_nat d + 1) + 1) by lia.
    apply (fleb_trans _ (timestamp_at anim (j + Z.of_nat d + 1))).
    + apply IH; lia.
    + apply Hsorted. lia.
Qed.

Lemma fdiv_zero_pos (d : float) : fltb f0 d = true -> fdiv f0 d = f0.
Proof. destruct d as [s|s| |s m e]; try destruct s; done. Qed.

Lemma is_finite_not_nan (x : float) : is_finite x = true -> is_nan x = false.
Proof. by destruct x. Qed.

Lemma spec_factor_at_start (a b : float) :
  is_finite a = true -> spec_factor a a b = f0.
Proof.
  intros Ha. unfold spec_factor. cbv zeta. rewrite (fsub_diag a Ha).
  destruct (fltb f0 (fsub b a)) eqn:Hpos; [|done]. by apply fdiv_zero_pos.
Qed.

(** The keyframe pair and the factor when the clock sits exactly on the
    timestamp of keyframe [i]. *)
Lemma select_at_keyframe (anim : Anim4dcVertexAnimation) (i : Z) :
  2 <= keyframeCount anim ->
  timestamps_sorted anim ->
  0 <= i < keyframeCount anim ->
  is_finite (timestamp_at anim i) = true ->
  (i < keyframeCount anim - 1 ->
   fltb (timestamp_at anim i) (timestamp_at anim (i + 1)) = true) ->
  let next := if i =? keyframeCount anim - 1 then 0 else i + 1 in
  select_keyframes anim (timestamp_at anim i) = (i, next)
  /\ clamp01 (raw_factor anim (timestamp_at anim i) i next) = f0.
Proof.
  intros Hcount Hsorted Hi Hfin Hstrict next. subst next.
  pose proof (is_finite_not_nan _ Hfin) as Hnan.
  unfold select_keyframes. cbv zeta.
  destruct (Z.eqb_spec i (keyframeCount anim - 1)) as [Hlast|Hnotlast].
  - rewrite <- Hlast. rewrite (fleb_refl _ Hnan).
    split; [done|]. rewrite raw_factor_loop.
    by rewrite spec_factor_at_start.
  - specialize (Hstrict ltac:(lia)).
    assert (Hbelow : fltb (timestamp_at anim i)
                       (timestamp_at anim (keyframeCount anim - 1)) = true).
    { apply (below_last_timestamp anim _
               (Z.to_nat (keyframeCount anim - 1 - (i + 1))) Hsorted (i + 1));
        [lia | lia | done]. }
    rewrite (fltb_fleb_false _ _ Hbelow).
    rewrite (scan_keyframes_first anim _ _ 0 i).
    + split; [done|]. rewrite raw_factor_normal by lia.
      by rewrite spec_factor_at_start.
    + lia.
    + split; [by apply fleb_refl | done].
    + intros j Hj [_ Hlt].
      assert (Hle : fleb (timestamp_at anim (j + 1)) (timestamp_at anim i) = true).
      { destruct (decide (j + 1 = i)) as [->|Hne]; [by apply fleb_refl|].
        pose proof (sorted_chain anim Hsorted (Z.to_nat (i - j - 2)) (j + 1)
                      ltac:(lia) ltac:(lia)) as Hchain.
        by replace (j + 1 + Z.of_nat (Z.to_nat (i - j - 2)) + 1) with i
          in Hchain by lia. }
      apply fltb_fleb_false in Hlt. congruence.
Qed.

(** X7.  When an update leaves the clock exactly on the timestamp of
    keyframe [i] of the playing clip (timestamps sorted, that timestamp
    finite and strictly below the next one), the interpolation buffer
    shows keyframe [i]: the clock is that timestamp, the buffer keeps
    its length, and every component of the first [vertexCount * 3] is
    numerically the component of keyframe [i], provided that component
    and its difference to the following keyframe's are finite.  The
    following keyframe is [i + 1], and keyframe 0 after the last. *)
Theorem pose_at_keyframe_time (s : Anim4dcAnimationSystem)
    (anim : Anim4dcVertexAnimation) (deltaTime : float) (output : list float)
    (i : Z) :
  initialized s = true ->
  selected_clip s = Some anim ->
  2 <= keyframeCount anim ->
  timestamps_sorted anim ->
  interpolationBuffer s = Some output ->
  0 <= i < keyframeCount anim ->
  advance_clock anim (currentTime s) deltaTime = timestamp_at anim i ->
  is_finite (timestamp_at anim i) = true ->
  (i < keyframeCount anim - 1 ->
   fltb (timestamp_at anim i) (timestamp_at anim (i + 1)) = true) ->
  let next := if i =? keyframeCount anim - 1 then 0 else i + 1 in
  let s' := Anim4dcUpdateAnimation deltaTime s in
  Anim4dcGetAnimationTime s' = timestamp_at anim i
  /\ exists pose,
       Anim4dcGetInterpolatedVertices s' = Some pose
       /\ length pose = length output
       /\ forall (j : nat) (x1 x2 : float),
            Z.of_nat j < vertexCount s * 3 -> (j < length output)%nat ->
            vertices_at anim i !! j = Some x1 ->
            vertices_at anim next !! j = Some x2 ->
            is_finite x1 = true -> is_finite (fsub x2 x1) = true ->
            exists x, pose !! j = Some x /\ same_number x x1.
Proof.
  intros Hinit Hsel Hcount Hsorted Hbuf Hi Hclock Hfin Hstrict next s'.
  pose proof (update_when_playing s anim output deltaTime Hinit Hsel Hcount Hbuf)
    as Hupdate.
  cbv zeta in Hupdate. rewrite Hclock in Hupdate.
  destruct (select_at_keyframe anim i Hcount Hsorted Hi Hfin Hstrict)
    as [Hpair Hfactor].
  fold next in Hpair, Hfactor.
  rewrite Hpair in Hupdate. cbn [fst snd] in Hupdate. rewrite Hfactor in Hupdate.
  subst s'. rewrite Hupdate.
  unfold Anim4dcGetAnimationTime, Anim4dcGetInterpolatedVertices.
  cbn [currentTime interpolationBuffer].
  split; [done|]. eexists. split; [done|]. split.
  - apply interpolate_loop_length.
  - intros j x1 x2 Hj Hlen H1 H2 Hx1 Hdiff.
    exists (lerp x1 x2 f0). split.
    + by apply interpolate_lookup.
    + by apply lerp_at_zero.
Qed.

(** An instance: a zero-length update of the freshly baked demo world
    shows the first component of keyframe 0. *)
Lemma pose_at_keyframe_time_witness :
  exists pose x,
    Anim4dcGetInterpolatedVertices
      (Anim4dcUpdateAnimation f0 (anim4dc world_baked)) = Some pose
    /\ pose !! 0%nat = Some x /\ same_number x f0.
Proof.
  set (s := anim4dc world_baked).
  set (anim := animations s !!! 0%nat).
  assert (Hcount : 2 <= keyframeCount anim) by (vm_compute; discriminate).
  assert (Hsorted : timestamps_sorted anim)
    by (apply timestamps_sortedb_correct; vm_compute; reflexivity).
  destruct (pose_at_keyframe_time s anim f0 (replicate 6 f0) 0)
    as (_ & pose & Hpose & _ & Hcomp).
  - vm_compute. reflexivity.
  - vm_compute. reflexivity.
  - exact Hcount.
  - exact Hsorted.
  - vm_compute. reflexivity.
  - split; [lia | vm_compute; reflexivity].
  - vm_compute. reflexivity.
  - vm_compute. reflexivity.
  - intros _. vm_compute. reflexivity.
  - destruct (Hcomp 0%nat f0 (float_of_int 8)) as (x & Hx & Hsame).
    + vm_compute. reflexivity.
    + vm_compute. lia.
    + vm_compute. reflexivity.
    + vm_compute. reflexivity.
    + reflexivity.
    + vm_compute. reflexivity.
    + exists pose, x. split; [exact Hpose|]. split; [exact Hx | exact Hsame].
Defined.

(** X8.  [Anim4dcUpdateAnimation] writes the clock and the first
    [vertexCount * 3] floats of the interpolation buffer and nothing
    else: the clips, their number, the current clip, the vertex count
    and the initialised flag are the old ones, a buffer neither appears
    nor disappears nor changes its length, and its floats from index
    [vertexCount * 3] on keep their values. *)
Theorem update_frame (deltaTime : float) (s : Anim4dcAnimationSystem) :
  let s' := Anim4dcUpdateAnimation deltaTime s in
  animations s' = animations s
  /\ animationCount s' = animationCount s
  /\ Anim4dcGetCurrentAnimation s' = Anim4dcGetCurrentAnimation s
  /\ vertexCount s' = vertexCount s
  /\ initialized s' = initialized s
  /\ match Anim4dcGetInterpolatedVertices s, Anim4dcGetInterpolatedVertices s' with
     | Some output, Some output' =>
         length output' = length output
         /\ forall j : nat, vertexCount s * 3 <= Z.of_nat j ->
                            output' !! j = output !! j
     | None, None => True
     | _, _ => False
     end.
Proof.
  unfold Anim4dcUpdateAnimation, Anim4dcGetCurrentAnimation,
    Anim4dcGetInterpolatedVertices. cbv zeta.
  destruct (negb (initialized s) || (currentAnimation s <? 0)
            || (animationCount s <=? currentAnimation s)).
  { repeat (split; [done|]). by destruct (interpolationBuffer s). }
  destruct (interpolationBuffer s) as [output|] eqn:Hbuf.
  2: { repeat (split; [done|]). by rewrite Hbuf. }
  destruct (keyframeCount _ <? 2).
  { repeat (split; [done|]). by rewrite Hbuf. }
  destruct (select_keyframes _ _) as [currentKeyframe nextKeyframe].
  cbn [animations animationCount currentAnimation vertexCount initialized
       interpolationBuffer].
  repeat (split; [done|]). split.
  - apply interpolate_loop_length.
  - intros j Hj. unfold Anim4dcInterpolateVertices.
    rewrite interpolate_loop_lookup.
    destruct (decide _) as [[Hin _]|_]; [lia | done].
Qed.

(** ** Memory accounting in reachable worlds *)

Lemma keyframe_sum_bounds (clips : list Anim4dcVertexAnimation) :
  Forall (fun a => clip_ok a = true) clips ->
  0 <= foldr Z.add 0 (keyframeCount <$> clips) <= 20 * Z.of_nat (length clips).
Proof.
  induction 1 as [|clip clips Hclip _ IH]; cbn [fmap list_fmap foldr length];
    [lia|].
  apply clip_ok_spec in Hclip as [_ Hcount].
  change (foldr Z.add 0 (list_fmap _ _ keyframeCount clips))
    with (foldr Z.add 0 (keyframeCount <$> clips)). lia.
Qed.

Lemma animation_bytes_sum (clips : list Anim4dcVertexAnimation) (v : Z) (n : nat) :
  forall (a : nat) (totalMemory : Z),
    (a + n <= length clips)%nat ->
    Forall (fun c => clip_ok c = true) clips ->
    (forall i clip, (a <= i < a + n)%nat -> clips !! i = Some clip ->
                    clip_allocated v clip) ->
    0 <= totalMemory -> 0 <= v ->
    totalMemory
    + foldr Z.add 0 (keyframeCount <$> take n (drop a clips))
      * (v * 3 * sizeof_float) <= INT_MAX ->
    animation_bytes_loop n a clips totalMemory
    = totalMemory
      + foldr Z.add 0 (keyframeCount <$> take n (drop a clips))
        * (v * 3 * sizeof_float).
Proof.
  induction n as [|n IH]; intros a totalMemory Hlen Hok Halloc Htot Hv Hmax;
    cbn [animation_bytes_loop]; [rewrite take_0; cbn [fmap list_fmap foldr]; lia|].
  destruct (lookup_lt_is_Some_2 clips a ltac:(lia)) as [clip Hclip].
  rewrite (list_lookup_total_correct _ _ _ Hclip).
  rewrite (drop_S _ _ _ Hclip) in Hmax |- *.
  cbn [take fmap list_fmap foldr] in Hmax |- *.
  change (foldr Z.add 0 (list_fmap _ _ keyframeCount (take n (drop (S a) clips))))
    with (foldr Z.add 0 (keyframeCount <$> take n (drop (S a) clips)))
    in Hmax |- *.
  pose proof (proj1 (Forall_lookup _ _) Hok a clip Hclip) as Hclip_ok.
  apply clip_ok_spec in Hclip_ok as [Hkfs Hcount].
  assert (Hrest : 0 <= foldr Z.add 0 (keyframeCount <$> take n (drop (S a) clips))).
  { apply keyframe_sum_bounds, Forall_take, Forall_drop, Hok. }
  set (rest := foldr Z.add 0 (keyframeCount <$> take n (drop (S a) clips))) in *.
  set (u := v * 3 * sizeof_float) in *.
  assert (Hu : 0 <= u) by (subst u; unfold sizeof_float; lia).
  assert (Hru : 0 <= rest * u) by (by apply Z.mul_nonneg_nonneg).
  assert (Hku : 0 <= keyframeCount clip * u) by (apply Z.mul_nonneg_nonneg; lia).
  rewrite (keyframe_bytes_uniform (keyframes clip) v
             (Z.to_nat (keyframeCount clip)) 0 totalMemory).
  - rewrite Z2Nat.id by lia. fold u.
    rewrite IH; [lia | lia | done | | | done | ].
    + intros i c Hi Hc. apply (Halloc i c); [lia | done].
    + lia.
    + lia.
  - intros j Hj.
    destruct (lookup_lt_is_Some_2 (keyframes clip) j ltac:(lia)) as [kf Hkf].
    exists kf. split; [done|].
    apply (Halloc a clip ltac:(lia) Hclip j kf); [lia | done].
  - done.
  - done.
  - rewrite Z2Nat.id by lia. fold u. lia.
Qed.

(** X9.  In every reachable world whose vertex count lies between 0 and
    1000000, [Anim4dcCalculateMemoryUsage] is the number of keyframes
    counted by the baked clips, plus one when the interpolation buffer
    exists, times [vertexCount * 3 * sizeof(float)] bytes, divided by
    1024 and rounded down; this also holds for clips of different
    lengths and after a bake that failed to get its buffer. *)
Theorem memory_usage_reachable (env : Env) (w : World) :
  reachable env w ->
  0 <= vertexCount (anim4dc w) <= 1000000 ->
  Anim4dcCalculateMemoryUsage (anim4dc w)
  = (total_keyframes (anim4dc w)
     + (if is_null (interpolationBuffer (anim4dc w)) then 0 else 1))
    * (vertexCount (anim4dc w) * 3 * sizeof_float) / 1024.
Proof.
  intros Hreach Hv.
  pose proof (reachable_well_formed env w Hreach) as Hwf.
  destruct (reachable_allocation env w Hreach) as [Halloc _].
  set (s := anim4dc w) in *.
  apply well_formed_spec in Hwf as (Hlen & Hok & Hcount & _).
  assert (Hsum : 0 <= total_keyframes s <= 160).
  { unfold total_keyframes.
    pose proof (keyframe_sum_bounds
                  (take (Z.to_nat (animationCount s)) (animations s))
                  (Forall_take _ _ _ Hok)) as Hb.
    rewrite length_take in Hb. lia. }
  unfold Anim4dcCalculateMemoryUsage, total_memory_bytes. cbv zeta.
  rewrite (animation_bytes_sum (animations s) (vertexCount s)
             (Z.to_nat (animationCount s)) 0 0).
  - rewrite drop_0. fold (total_keyframes s).
    set (u := vertexCount s * 3 * sizeof_float).
    assert (Hu : 0 <= u <= 12000000) by (subst u; unfold sizeof_float; lia).
    assert (Hbytes : 0 <= total_keyframes s * u <= 160 * 12000000) by nia.
    destruct (interpolationBuffer s) as [buffer|]; cbn [is_null].
    + rewrite add_bytes_small; [|lia|lia|fold u; unfold INT_MAX; lia].
      fold u. rewrite Z.quot_div_nonneg by lia. f_equal. lia.
    + rewrite Z.quot_div_nonneg by lia. f_equal. lia.
  - lia.
  - done.
  - intros i clip Hi Hclip. apply (Halloc i clip); [lia | done].
  - lia.
  - lia.
  - rewrite drop_0. fold (total_keyframes s).
    assert (0 <= total_keyframes s * (vertexCount s * 3 * sizeof_float)
            <= 160 * 12000000) by (unfold sizeof_float; nia).
    unfold INT_MAX. lia.
Qed.

(** An instance: the demo bake without its buffer holds thirteen
    keyframes of two vertices, 312 bytes, which is 0 KB. *)
Lemma memory_usage_reachable_witness :
  Anim4dcCalculateMemoryUsage
    (anim4dc (Anim4dcBakeVertexAnimations env_no_buffer demo_model
                [demo_animation] 1 world_init).2)
  = (13 + 0) * (2 * 3 * sizeof_float) / 1024.
Proof.
  apply (memory_usage_reachable env_no_buffer
           (Anim4dcBakeVertexAnimations env_no_buffer demo_model
              [demo_animation] 1 world_init).2).
  - apply reach_bake. apply reach_init. apply reach_start.
  - vm_compute. split; discriminate.
Defined.

(** ** Clips too short to animate *)

Lemma capture_count_step (env : Env) (clip : Anim4dcVertexAnimation)
    (tstamp : float) (vertexData : list float) (nverts : Z) (nalloc : nat) :
  keyframeCount (Anim4dcCaptureVertexKeyframe env clip tstamp vertexData
                   nverts nalloc).1
  <= keyframeCount clip + 1.
Proof.
  unfold Anim4dcCaptureVertexKeyframe.
  destruct (ANIM4DC_MAX_KEYFRAMES <=? keyframeCount clip); [cbn; lia|].
  destruct (malloc_ok env nalloc); cbn; lia.
Qed.

Lemma bake_clip_short (env : Env) (a : nat) (skelAnim : ModelAnimation)
    (model : Model) (vertAnim : Anim4dcVertexAnimation) (nverts : Z) (nalloc : nat) :
  frameCount skelAnim <= 4 ->
  keyframeCount (bake_clip env a skelAnim model vertAnim nverts nalloc).1.2 <= 1.
Proof.
  intros Hframes. unfold bake_clip. cbv zeta.
  unfold keyframeStep_of. replace (40 <? frameCount skelAnim) with false by lia.
  destruct (Z.to_nat (frameCount skelAnim)) as [|fuel]; cbn [sample_loop];
    [cbn; lia|].
  destruct (0 <? frameCount skelAnim); [|cbn; lia].
  match goal with |- context [match ?e with pair _ _ => _ end] =>
    destruct e as [clip' nalloc'] eqn:Hcap end.
  assert (Hc : keyframeCount clip' <= 1).
  { destruct (animVertices _) as [vertexData|].
    - match type of Hcap with Anim4dcCaptureVertexKeyframe ?e ?c ?t ?d ?v ?n = _ =>
        pose proof (capture_count_step e c t d v n) as Hstep end.
      rewrite Hcap in Hstep. cbn in Hstep. lia.
    - inversion Hcap; subst. cbn. lia. }
  change (int32 (0 + 4)) with 4.
  destruct fuel as [|fuel]; cbn [sample_loop]; [done|].
  by replace (4 <? frameCount skelAnim) with false by lia.
Qed.

(** X10.  A source clip of at most 4 frames bakes to at most one
    keyframe, so it can be selected but never plays: after a bake that
    passes the checks, selecting such a clip succeeds, and every
    [Anim4dcUpdateAnimation] afterwards leaves the clock and the buffer
    as they are. *)
Theorem short_clip_never_animates (env : Env) (model : Model)
    (anims : list ModelAnimation) (animCount : Z) (w : World) (a : nat) :
  initialized (anim4dc w) = true ->
  well_formed (anim4dc w) = true ->
  Anim4dcCheckModelCompatibility model anims animCount = true ->
  Z.of_nat a < Z.min animCount ANIM4DC_MAX_ANIMATIONS ->
  frameCount (anims !!! a) <= 4 ->
  let s' := anim4dc (Anim4dcBakeVertexAnimations env model anims animCount w).2 in
  Anim4dcSetAnimation (Z.of_nat a) s' = (true, select s' (Z.of_nat a))
  /\ forall deltaTime,
       Anim4dcUpdateAnimation deltaTime (select s' (Z.of_nat a))
       = select s' (Z.of_nat a).
Proof.
  intros Hinit Hwf Hcheck Ha Hframes s'.
  pose proof (bake_state env model anims animCount w Hinit Hwf Hcheck) as Hstate.
  cbv zeta in Hstate.
  change (anim4dc (Anim4dcBakeVertexAnimations env model anims animCount w).2)
    with s' in Hstate.
  destruct Hstate as (Hcount & _ & _ & Hclips & _).
  split.
  - apply set_animation_in_range; [by apply bake_well_formed | lia].
  - intros deltaTime. unfold Anim4dcUpdateAnimation, select.
    cbn [initialized currentAnimation animationCount animations
         interpolationBuffer].
    destruct (negb (initialized s') || (Z.of_nat a <? 0)
              || (animationCount s' <=? Z.of_nat a)); [done|].
    destruct (interpolationBuffer s'); [|done].
    rewrite Nat2Z.id.
    destruct (Hclips a Ha) as (model_a & nalloc_a & Hlook).
    rewrite (list_lookup_total_correct _ _ _ Hlook).
    pose proof (bake_clip_short env a (anims !!! a) model_a
                  (animations (anim4dc w) !!! a)
                  (mesh_vertexCount (meshes model !!! 0%nat)) nalloc_a Hframes)
      as Hshort.
    by replace (keyframeCount _ <? 2) with true by lia.
Qed.

(** An instance: a four-frame clip baked for the demo model. *)
Lemma short_clip_never_animates_witness :
  let s' := anim4dc (Anim4dcBakeVertexAnimations env_ok demo_model
                       [mkModelAnimation 20 4 (Some tt) (Some tt)] 1
                       world_init).2 in
  Anim4dcUpdateAnimation f1 (select s' 0) = select s' 0.
Proof.
  intros s'.
  destruct (short_clip_never_animates env_ok demo_model
              [mkModelAnimation 20 4 (Some tt) (Some tt)] 1 world_init 0)
    as [_ Hstill].
  - reflexivity.
  - vm_compute. reflexivity.
  - vm_compute. reflexivity.
  - vm_compute. reflexivity.
  - vm_compute. discriminate.
  - exact (Hstill f1).
Defined.

(** ** The LOD pass as a map over the visited instances *)

Lemma lod_step_classify (cam : Vector3) (inst : Anim4dcModelInstance)
    (st : Anim4dcStats) :
  lod_step cam inst st
  = (classify cam inst, count_instance st (visible (classify cam inst))).
Proof.
  unfold lod_step, classify. cbv zeta.
  by destruct (lod_of_distance _) as [lod vis].
Qed.

Lemma classify_idem (cam : Vector3) (inst : Anim4dcModelInstance) :
  classify cam (classify cam inst) = classify cam inst.
Proof. reflexivity. Qed.

Lemma lod_loop_map (cam : Vector3) (n : nat) :
  forall (i : nat) (instances : list Anim4dcModelInstance) (st : Anim4dcStats),
    (i + n <= length instances)%nat ->
    lod_loop n i cam instances st
    = (take i instances ++ (classify cam <$> take n (drop i instances))
         ++ drop (i + n) instances,
       count_all cam st (take n (drop i instances))).
Proof.
  induction n as [|n IH]; intros i instances st Hlen; cbn [lod_loop].
  - rewrite take_0, Nat.add_0_r. cbn [fmap list_fmap app count_all foldl].
    by rewrite take_drop.
  - destruct (lookup_lt_is_Some_2 instances i ltac:(lia)) as [inst Hinst].
    rewrite Hinst, lod_step_classify.
    rewrite IH by (rewrite length_insert; lia).
    rewrite (take_S_r (<[i:=classify cam inst]> instances) i (classify cam inst))
      by (apply list_lookup_insert_eq; lia).
    rewrite take_insert_ge by lia.
    rewrite !drop_insert_lt by lia.
    rewrite (drop_S _ _ _ Hinst).
    cbn [take fmap list_fmap count_all foldl].
    rewrite <- (assoc_L (++)). cbn [app].
    by replace (i + S n)%nat with (S i + n)%nat by lia.
Qed.

Lemma count_all_spec (cam : Vector3) (instances : list Anim4dcModelInstance) :
  forall st : Anim4dcStats,
    count_all cam st instances
    = mkStats (visibleInstances st + count_visible (classify cam <$> instances))
              (culledInstances st + count_hidden (classify cam <$> instances))
              (animationUpdates st) (averageFPS st) (memoryUsageKB st).
Proof.
  unfold count_all, count_visible, count_hidden.
  induction instances as [|inst instances IH]; intros st;
    cbn [foldl fmap list_fmap List.filter].
  - destruct st. cbn. f_equal; lia.
  - rewrite IH. unfold count_instance.
    destruct (visible (classify cam inst)); cbn [negb length visibleInstances
      culledInstances animationUpdates averageFPS memoryUsageKB]; f_equal; lia.
Qed.

Lemma lod_pass_map (instances : list Anim4dcModelInstance) (instanceCount : Z)
    (cam : Vector3) (st : Anim4dcStats) :
  0 <= instanceCount <= Z.of_nat (length instances) ->
  let visited := classify cam <$> take (Z.to_nat instanceCount) instances in
  Anim4dcUpdateInstanceLOD instances instanceCount cam st
  = (visited ++ drop (Z.to_nat instanceCount) instances,
     mkStats (count_visible visited) (count_hidden visited)
             (animationUpdates st) (averageFPS st) (memoryUsageKB st)).
Proof.
  intros Hn visited. unfold Anim4dcUpdateInstanceLOD. cbv zeta.
  rewrite lod_loop_map by lia.
  rewrite take_0, drop_0, Nat.add_0_l, count_all_spec. cbn [app].
  cbn [visibleInstances culledInstances animationUpdates averageFPS memoryUsageKB].
  subst visited. rewrite ?Z.add_0_l. reflexivity.
Qed.

Lemma visited_lookup (instances : list Anim4dcModelInstance) (n : nat)
    (cam : Vector3) (j : nat) :
  (n <= length instances)%nat ->
  ((classify cam <$> take n instances) ++ drop n instances) !! j
  = if decide (j < n)%nat then classify cam <$> instances !! j
    else instances !! j.
Proof.
  intros Hn.
  assert (Hlen : length (classify cam <$> take n instances) = n)
    by (rewrite length_fmap, length_take; lia).
  destruct (decide (j < n)%nat) as [Hj|Hj].
  - rewrite lookup_app_l by lia.
    by rewrite list_lookup_fmap, lookup_take_lt.
  - rewrite lookup_app_r by lia. rewrite Hlen, lookup_drop. f_equal. lia.
Qed.

(** X11.  [Anim4dcUpdateInstanceLOD] treats each of the first
    [instanceCount] entries on its own: it stores the squared distance
    between the entry's position and the camera, sets tier and
    visibility from that distance alone, and keeps position, rotation,
    scale, animation index and animation time.  Entries from
    [instanceCount] on are untouched and the array keeps its length. *)
Theorem lod_pass_pointwise (instances : list Anim4dcModelInstance)
    (instanceCount : Z) (cam : Vector3) (st : Anim4dcStats) :
  0 <= instanceCount <= Z.of_nat (length instances) ->
  let out := Anim4dcUpdateInstanceLOD instances instanceCount cam st in
  length out.1 = length instances
  /\ (forall (j : nat) inst,
        Z.of_nat j < instanceCount -> instances !! j = Some inst ->
        exists inst',
          out.1 !! j = Some inst'
          /\ position inst' = position inst /\ rotation inst' = rotation inst
          /\ scale inst' = scale inst
          /\ animationIndex inst' = animationIndex inst
          /\ animationTime inst' = animationTime inst
          /\ distanceSquared inst'
             = Vector3LengthSqr (Vector3Subtract (position inst) cam)
          /\ (lodLevel inst', visible inst')
             = lod_of_distance (distanceSquared inst'))
  /\ (forall j : nat, instanceCount <= Z.of_nat j -> out.1 !! j = instances !! j).
Proof.
  intros Hn out. subst out. rewrite lod_pass_map by done. cbn [fst].
  split; [|split].
  - rewrite length_app, length_fmap, length_take, length_drop. lia.
  - intros j inst Hj Hinst. rewrite visited_lookup by lia.
    destruct (decide _) as [_|]; [|lia]. rewrite Hinst.
    exists (classify cam inst). split; [done|].
    unfold classify. cbv zeta. cbn.
    repeat (split; [done|]). by destruct (lod_of_distance _).
  - intros j Hj. rewrite visited_lookup by lia.
    destruct (decide _) as [|_]; [lia | done].
Qed.

(** An instance: the six instances around the tier boundaries. *)
Lemma lod_pass_pointwise_witness :
  length (Anim4dcUpdateInstanceLOD boundary_instances 6 origin zero_stats).1
  = 6%nat.
Proof.
  destruct (lod_pass_pointwise boundary_instances 6 origin zero_stats)
    as [Hlen _].
  - vm_compute. split; discriminate.
  - exact Hlen.
Defined.

(** ** Rendering *)

Lemma render_loop_flat (s : Anim4dcAnimationSystem) (model : Model) (n : nat) :
  forall (i : nat) (instances : list Anim4dcModelInstance),
    (i + n <= length instances)%nat ->
    render_loop n i s model instances
    = flat_map (render_instance s model) (take n (drop i instances)).
Proof.
  induction n as [|n IH]; intros i instances Hlen; cbn [render_loop].
  - by rewrite take_0.
  - destruct (lookup_lt_is_Some_2 instances i ltac:(lia)) as [inst Hinst].
    rewrite Hinst, (drop_S _ _ _ Hinst). cbn [take flat_map].
    by rewrite IH by lia.
Qed.

Lemma draw_calls_app (e1 e2 : list RenderEvent) :
  draw_calls (e1 ++ e2) = draw_calls e1 ++ draw_calls e2.
Proof. apply flat_map_app. Qed.

Lemma uploads_app (e1 e2 : list RenderEvent) :
  uploads (e1 ++ e2) = uploads e1 ++ uploads e2.
Proof. apply flat_map_app. Qed.

Lemma draw_calls_render (s : Anim4dcAnimationSystem) (model : Model)
    (instances : list Anim4dcModelInstance) :
  draw_calls (flat_map (render_instance s model) instances)
  = (fun inst => (position inst, scale inst)) <$> List.filter visible instances.
Proof.
  induction instances as [|inst instances IH]; [done|].
  cbn [flat_map List.filter]. rewrite draw_calls_app, IH.
  unfold render_instance.
  destruct (visible inst); [|done].
  rewrite draw_calls_app.
  by destruct (interpolationBuffer s); [destruct (0 <? meshCount model)|].
Qed.

Lemma uploads_render (s : Anim4dcAnimationSystem) (model : Model)
    (instances : list Anim4dcModelInstance) :
  uploads (flat_map (render_instance s model) instances)
  = match interpolationBuffer s with
    | Some buffer =>
        if 0 <? meshCount model
        then (fun _ => take (Z.to_nat (vertexCount s * 3)) buffer)
               <$> List.filter visible instances
        else []
    | None => []
    end.
Proof.
  induction instances as [|inst instances IH].
  - cbn. by destruct (interpolationBuffer s); [destruct (0 <? meshCount model)|].
  - cbn [flat_map List.filter]. rewrite uploads_app, IH.
    unfold render_instance.
    destruct (visible inst), (interpolationBuffer s) as [buffer|];
      try destruct (0 <? meshCount model); done.
Qed.

(** X12.  [Anim4dcRenderInstances] calls [DrawModel] exactly for the
    visible entries among the first [instanceCount], in array order,
    each with its own position and scale.  It uploads the first
    [vertexCount * 3] floats of the interpolation buffer into mesh 0
    once per drawn instance when that buffer exists and the model has a
    mesh, and never otherwise. *)
Theorem render_draws_visible (s : Anim4dcAnimationSystem) (model : Model)
    (instances : list Anim4dcModelInstance) (instanceCount : Z) :
  0 <= instanceCount <= Z.of_nat (length instances) ->
  let events := Anim4dcRenderInstances s model instances instanceCount in
  let drawn := List.filter visible (take (Z.to_nat instanceCount) instances) in
  draw_calls events = (fun inst => (position inst, scale inst)) <$> drawn
  /\ (forall buffer,
        Anim4dcGetInterpolatedVertices s = Some buffer -> 0 < meshCount model ->
        uploads events
        = (fun _ => take (Z.to_nat (vertexCount s * 3)) buffer) <$> drawn)
  /\ (Anim4dcGetInterpolatedVertices s = None \/ meshCount model <= 0 ->
      uploads events = []).
Proof.
  intros Hn events drawn. subst events drawn.
  unfold Anim4dcRenderInstances, Anim4dcGetInterpolatedVertices.
  rewrite render_loop_flat by lia. rewrite drop_0.
  split; [apply draw_calls_render|].
  rewrite uploads_render. split.
  - intros buffer -> Hmesh. by replace (0 <? meshCount model) with true by lia.
  - intros [->|Hmesh]; [done|].
    destruct (interpolationBuffer s); [|done].
    by replace (0 <? meshCount model) with false by lia.
Qed.

(** An instance: the baked demo world draws the one visible instance of
    two and uploads the six floats of its buffer once. *)
Lemma render_draws_visible_witness :
  draw_calls (Anim4dcRenderInstances (anim4dc world_baked) demo_model
                [instance_at 80 0; classify origin (instance_at 200 1)] 2)
  = [(position (instance_at 80 0), f1)].
Proof.
  destruct (render_draws_visible (anim4dc world_baked) demo_model
              [instance_at 80 0; classify origin (instance_at 200 1)] 2)
    as [Hdraw _].
  - vm_compute. split; discriminate.
  - rewrite Hdraw. vm_compute. reflexivity.
Defined.

(** X13.  After [Anim4dcUpdateInstanceLOD] the two counters of
    [Anim4dcGetStats] are the numbers of visible and of invisible
    entries among the first [instanceCount], whatever they held before;
    the other statistics are untouched; and [Anim4dcRenderInstances] on
    the classified array issues [visibleInstances] draw calls. *)
Theorem lod_counters_match_draws (s : Anim4dcAnimationSystem) (model : Model)
    (instances : list Anim4dcModelInstance) (instanceCount : Z)
    (cam : Vector3) (st : Anim4dcStats) :
  0 <= instanceCount <= Z.of_nat (length instances) ->
  let out := Anim4dcUpdateInstanceLOD instances instanceCount cam st in
  let visited := take (Z.to_nat instanceCount) out.1 in
  visibleInstances (Anim4dcGetStats out.2) = count_visible visited
  /\ culledInstances (Anim4dcGetStats out.2) = count_hidden visited
  /\ animationUpdates out.2 = animationUpdates st
  /\ averageFPS out.2 = averageFPS st
  /\ memoryUsageKB out.2 = memoryUsageKB st
  /\ Z.of_nat (length (draw_calls
                         (Anim4dcRenderInstances s model out.1 instanceCount)))
     = visibleInstances (Anim4dcGetStats out.2).
Proof.
  intros Hn out visited.
  assert (Hlen : length (classify cam <$> take (Z.to_nat instanceCount) instances)
                 = Z.to_nat instanceCount)
    by (rewrite length_fmap, length_take; lia).
  assert (Hvisited : visited
                     = classify cam <$> take (Z.to_nat instanceCount) instances).
  { subst visited out. rewrite lod_pass_map by done. cbn [fst].
    by rewrite take_app_length'. }
  assert (Hout : length out.1 = length instances).
  { subst out. rewrite lod_pass_map by done. cbn [fst].
    rewrite length_app, Hlen, length_drop. lia. }
  unfold Anim4dcRenderInstances.
  rewrite render_loop_flat by lia. rewrite drop_0. fold visited.
  rewrite draw_calls_render, length_fmap.
  rewrite Hvisited. subst out. rewrite lod_pass_map by done.
  unfold Anim4dcGetStats. cbn [snd visibleInstances culledInstances
    animationUpdates averageFPS memoryUsageKB].
  done.
Qed.

(** An instance: of the six boundary instances five are drawn. *)
Lemma lod_counters_match_draws_witness :
  Z.of_nat (length (draw_calls
     (Anim4dcRenderInstances (anim4dc world_baked) demo_model
        (Anim4dcUpdateInstanceLOD boundary_instances 6 origin zero_stats).1 6)))
  = 5.
Proof.
  destruct (lod_counters_match_draws (anim4dc world_baked) demo_model
              boundary_instances 6 origin zero_stats)
    as (Hvis & _ & _ & _ & _ & Hdraws).
  - vm_compute. split; discriminate.
  - rewrite Hdraws. vm_compute. reflexivity.
Defined.

(** X14.  A second LOD pass over the same entries with the same camera
    changes neither the array nor the statistics. *)
Theorem lod_pass_idempotent (instances : list Anim4dcModelInstance)
    (instanceCount : Z) (cam : Vector3) (st : Anim4dcStats) :
  0 <= instanceCount <= Z.of_nat (length instances) ->
  let out := Anim4dcUpdateInstanceLOD instances instanceCount cam st in
  Anim4dcUpdateInstanceLOD out.1 instanceCount cam out.2 = out.
Proof.
  intros Hn out.
  assert (Hlen : length (classify cam <$> take (Z.to_nat instanceCount) instances)
                 = Z.to_nat instanceCount)
    by (rewrite length_fmap, length_take; lia).
  subst out. rewrite (lod_pass_map instances) by done. cbn [fst snd].
  rewrite lod_pass_map
    by (rewrite length_app, Hlen, length_drop; lia).
  cbn [animationUpdates averageFPS memoryUsageKB].
  rewrite take_app_length' by done. rewrite drop_app_length' by done.
  rewrite <- list_fmap_compose.
  by rewrite (list_fmap_ext (classify cam ∘ classify cam) (classify cam)
                (take (Z.to_nat instanceCount) instances)
                (fun _ _ _ => eq_refl)).
Qed.

(** An instance: the six boundary instances. *)
Lemma lod_pass_idempotent_witness :
  let out := Anim4dcUpdateInstanceLOD boundary_instances 6 origin zero_stats in
  Anim4dcUpdateInstanceLOD out.1 6 origin out.2 = out.
Proof.
  apply (lod_pass_idempotent boundary_instances 6 origin zero_stats).
  vm_compute. split; discriminate.
Defined.

(** ** Tiers grow with the distance *)

Lemma lod_of_distance_mono (d1 d2 : float) :
  fleb d1 d2 = true ->
  Anim4dcLodLevel_value (lod_of_distance d1).1
  <= Anim4dcLodLevel_value (lod_of_distance d2).1
  /\ ((lod_of_distance d2).2 = true -> (lod_of_distance d1).2 = true).
Proof.
  intros Hle.
  assert (Hup : forall T, fltb T d1 = true -> fltb T d2 = true)
    by (intros T HT; by apply (fltb_fleb_trans T d1 d2)).
  unfold lod_of_distance.
  destruct (fltb ANIM4DC_LOD_CULL_DIST2 d1) eqn:C1;
    [rewrite (Hup _ C1); cbn; split; [lia | done]|].
  destruct (fltb ANIM4DC_LOD_FAR_DIST2 d1) eqn:F1.
  { rewrite (Hup _ F1).
    destruct (fltb ANIM4DC_LOD_CULL_DIST2 d2); cbn; split; (lia || done). }
  destruct (fltb ANIM4DC_LOD_MID_DIST2 d1) eqn:M1.
  { rewrite (Hup _ M1).
    destruct (fltb ANIM4DC_LOD_CULL_DIST2 d2), (fltb ANIM4DC_LOD_FAR_DIST2 d2);
      cbn; split; (lia || done). }
  destruct (fltb ANIM4DC_LOD_CULL_DIST2 d2), (fltb ANIM4DC_LOD_FAR_DIST2 d2),
    (fltb ANIM4DC_LOD_MID_DIST2 d2); cbn; split; (lia || done).
Qed.

Lemma lod_of_distance_nan (d : float) :
  is_nan d = true -> lod_of_distance d = (ANIM4DC_LOD_NEAR, true).
Proof.
  intros Hnan.
  assert (Hcmp : forall T, fltb T d = false).
  { intros T. destruct (fltb T d) eqn:HT; [|done].
    apply fltb_rank in HT as (_ & Hd & _). congruence. }
  unfold lod_of_distance. by rewrite !Hcmp.
Qed.

(** X15.  After an LOD pass, of two visited entries the one with the
    smaller stored squared distance never has the farther tier (tiers
    numbered as in the enumeration), and it is visible whenever the
    other one is.  An entry whose squared distance is not a number is
    classified NEAR and visible. *)
Theorem lod_tiers_monotone (instances : list Anim4dcModelInstance)
    (instanceCount : Z) (cam : Vector3) (st : Anim4dcStats) :
  0 <= instanceCount <= Z.of_nat (length instances) ->
  let out := Anim4dcUpdateInstanceLOD instances instanceCount cam st in
  (forall (j1 j2 : nat) a b,
     Z.of_nat j1 < instanceCount -> Z.of_nat j2 < instanceCount ->
     out.1 !! j1 = Some a -> out.1 !! j2 = Some b ->
     fleb (distanceSquared a) (distanceSquared b) = true ->
     Anim4dcLodLevel_value (lodLevel a) <= Anim4dcLodLevel_value (lodLevel b)
     /\ (visible b = true -> visible a = true))
  /\ (forall (j : nat) a,
        Z.of_nat j < instanceCount -> out.1 !! j = Some a ->
        is_nan (distanceSquared a) = true ->
        lodLevel a = ANIM4DC_LOD_NEAR /\ visible a = true).
Proof.
  intros Hn out. subst out. rewrite lod_pass_map by done. cbn [fst].
  assert (Hvisited : forall (j : nat) a,
             Z.of_nat j < instanceCount ->
             ((classify cam <$> take (Z.to_nat instanceCount) instances)
                ++ drop (Z.to_nat instanceCount) instances) !! j = Some a ->
             lodLevel a = (lod_of_distance (distanceSquared a)).1
             /\ visible a = (lod_of_distance (distanceSquared a)).2).
  { intros j a Hj. rewrite visited_lookup by lia.
    destruct (decide _) as [_|]; [|lia].
    destruct (instances !! j) as [inst|]; [|done].
    intros [= <-]. done. }
  split.
  - intros j1 j2 a b Hj1 Hj2 Ha Hb Hle.
    destruct (Hvisited j1 a Hj1 Ha) as [-> ->].
    destruct (Hvisited j2 b Hj2 Hb) as [-> ->].
    by apply lod_of_distance_mono.
  - intros j a Hj Ha Hnan.
    destruct (Hvisited j a Hj Ha) as [-> ->].
    by rewrite lod_of_distance_nan.
Qed.

(** An instance: the boundary instances at squared distances 6400 and
    40001. *)
Lemma lod_tiers_monotone_witness :
  exists a b,
    (Anim4dcUpdateInstanceLOD boundary_instances 6 origin zero_stats).1 !! 0%nat
    = Some a
    /\ (Anim4dcUpdateInstanceLOD boundary_instances 6 origin zero_stats).1 !! 5%nat
       = Some b
    /\ Anim4dcLodLevel_value (lodLevel a) <= Anim4dcLodLevel_value (lodLevel b).
Proof.
  exists (classify origin (instance_at 80 0)), (classify origin (instance_at 200 1)).
  assert (Ha : (Anim4dcUpdateInstanceLOD boundary_instances 6 origin zero_stats).1
               !! 0%nat = Some (classify origin (instance_at 80 0)))
    by (vm_compute; reflexivity).
  assert (Hb : (Anim4dcUpdateInstanceLOD boundary_instances 6 origin zero_stats).1
               !! 5%nat = Some (classify origin (instance_at 200 1)))
    by (vm_compute; reflexivity).
  split; [exact Ha|]. split; [exact Hb|].
  destruct (lod_tiers_monotone boundary_instances 6 origin zero_stats)
    as [Hmono _].
  - vm_compute. split; discriminate.
  - apply (Hmono 0%nat 5%nat _ _ ltac:(lia) ltac:(lia) Ha Hb).
    vm_compute. reflexivity.
Defined.

(** ** Loading a model *)

Lemma string_length_append (s t : string) :
  String.length (s ++ t) = (String.length s + String.length t)%nat.
Proof. induction s as [|c s IH]; cbn; [done | by rewrite IH]. Qed.

Lemma substring_0_short (s : string) :
  forall n : nat, (String.length s <= n)%nat -> substring 0 n s = s.
Proof.
  induction s as [|c s IH]; intros [|n] Hn; cbn in *; try done; try lia.
  f_equal. apply IH. lia.
Qed.

Lemma substring_0_app (s t : string) :
  forall n : nat, (n <= String.length s)%nat ->
                  substring 0 n (s ++ t) = substring 0 n s.
Proof.
  induction s as [|c s IH]; intros [|n] Hn; cbn in *; try lia.
  - by destruct t.
  - done.
  - f_equal. apply IH. lia.
Qed.

Lemma full_path_short (basePath extension : string) :
  (String.length basePath + String.length extension <= 255)%nat ->
  full_path basePath extension = (basePath ++ extension)%string.
Proof.
  intros Hlen. unfold full_path, snprintf_s.
  apply substring_0_short. rewrite string_length_append.
  change (Z.to_nat (256 - 1)) with 255%nat. lia.
Qed.

Lemma full_path_long (basePath extension : string) :
  (255 <= String.length basePath)%nat ->
  full_path basePath extension = substring 0 255 basePath.
Proof.
  intros Hlen. unfold full_path, snprintf_s.
  change (Z.to_nat (256 - 1)) with 255%nat. by apply substring_0_app.
Qed.

(** X16.  [Anim4dcLoadModel] with a base path of at most 250 characters
    asks the loader for the base path followed by ".gltf", then ".iqm",
    then ".obj", stops at the first model that has a mesh, and returns
    the ".obj" result when none has.  With a base path of 255 characters
    or more the 256-byte path buffer cuts every extension off: each
    attempt asks for the first 255 characters of the base path, and the
    model returned is what the loader gives for that. *)
Theorem load_model_fallback (LoadModel : string -> Model) (basePath : string) :
  let out := Anim4dcLoadModel LoadModel basePath in
  let gltf := (basePath ++ ".gltf")%string in
  let iqm := (basePath ++ ".iqm")%string in
  let obj := (basePath ++ ".obj")%string in
  ((String.length basePath <= 250)%nat ->
   out = if 0 <? meshCount (LoadModel gltf) then (LoadModel gltf, [gltf])
         else if 0 <? meshCount (LoadModel iqm) then (LoadModel iqm, [gltf; iqm])
         else (LoadModel obj, [gltf; iqm; obj]))
  /\ ((255 <= String.length basePath)%nat ->
      out.1 = LoadModel (substring 0 255 basePath)
      /\ Forall (fun path => path = substring 0 255 basePath) out.2).
Proof.
  intros out gltf iqm obj. subst out gltf iqm obj.
  unfold Anim4dcLoadModel. cbv zeta. split.
  - intros Hlen.
    rewrite !full_path_short by (cbn [String.length]; lia). done.
  - intros Hlen. rewrite !full_path_long by done.
    destruct (0 <? meshCount (LoadModel (substring 0 255 basePath)));
      cbn [fst snd]; (split; [done|]); repeat constructor.
Qed.

(** An instance: the demo's fox, present as an IQM file only. *)
Lemma load_model_fallback_witness :
  Anim4dcLoadModel iqm_only_loader "/rd/Fox"
  = (demo_model, ["/rd/Fox.gltf"; "/rd/Fox.iqm"]%string).
Proof.
  destruct (load_model_fallback iqm_only_loader "/rd/Fox") as [Hshort _].
  rewrite Hshort; [reflexivity | cbn; lia].
Defined.

(** ** The demo's input handling *)

Lemma assign_loop_map (idx : Z) (n : nat) :
  forall (i : nat) (instances : list Anim4dcModelInstance),
    (i + n <= length instances)%nat ->
    assign_loop n i idx instances
    = take i instances
        ++ ((fun inst => set_animationIndex inst idx) <$> take n (drop i instances))
        ++ drop (i + n) instances.
Proof.
  induction n as [|n IH]; intros i instances Hlen; cbn [assign_loop].
  - rewrite take_0, Nat.add_0_r. cbn [fmap list_fmap app]. by rewrite take_drop.
  - destruct (lookup_lt_is_Some_2 instances i ltac:(lia)) as [inst Hinst].
    rewrite Hinst.
    rewrite IH by (rewrite length_insert; lia).
    rewrite (take_S_r (<[i:=set_animationIndex inst idx]> instances) i
               (set_animationIndex inst idx))
      by (apply list_lookup_insert_eq; lia).
    rewrite take_insert_ge by lia.
    rewrite !drop_insert_lt by lia.
    rewrite (drop_S _ _ _ Hinst).
    cbn [take fmap list_fmap].
    rewrite <- (assoc_L (++)). cbn [app].
    by replace (i + S n)%nat with (S i + n)%nat by lia.
Qed.

(** What one call of [HandleInput] does to each part of the demo, in
    terms of the state [w1] after the A branch. *)
Lemma handle_input_parts (b : Buttons) (buttons : Z) (frameTime : float)
    (w : DemoWorld) :
  let pressed := newly_pressed buttons (lastButtons w) in
  let w1 := if has_button pressed (BUTTON_A b) then toggle_animation w else w in
  let w' := HandleInput b (Some (Some buttons)) frameTime w in
  library w' = library w1
  /\ foxInstances (demo w') = foxInstances (demo w1)
  /\ activeInstances (demo w') = activeInstances (demo w1)
  /\ currentAnimationIndex (demo w') = currentAnimationIndex (demo w1)
  /\ statusMessage (demo w') = statusMessage (demo w1)
  /\ showDebug (demo w')
     = xorb (showDebug (demo w)) (has_button pressed (BUTTON_B b))
  /\ animationPaused (demo w')
     = xorb (animationPaused (demo w)) (has_button pressed (BUTTON_START b))
  /\ lastButtons w' = uint16 buttons.
Proof.
  intros pressed w1 w'. subst w' w1. unfold HandleInput. cbv zeta.
  fold (newly_pressed buttons (lastButtons w)). fold pressed.
  assert (Htoggle : showDebug (demo (toggle_animation w)) = showDebug (demo w)
                    /\ animationPaused (demo (toggle_animation w))
                       = animationPaused (demo w)) by done.
  destruct Htoggle as [Hdebug Hpaused].
  destruct (has_button pressed (BUTTON_A b)),
    (has_button pressed (BUTTON_B b)),
    (has_button pressed (BUTTON_START b)),
    (has_button buttons (DPAD_LEFT b)),
    (has_button buttons (DPAD_RIGHT b));
    cbn [demo library lastButtons with_demo set_showDebug set_animationPaused
         set_globalRotation foxInstances activeInstances currentAnimationIndex
         statusMessage showDebug animationPaused];
    rewrite ?Hdebug, ?Hpaused, ?xorb_false_r, ?xorb_true_r; done.
Qed.

Lemma newly_pressed_held (buttons last : Z) :
  Z.land buttons last = buttons -> newly_pressed buttons last = 0.
Proof.
  intros Hsub. unfold newly_pressed.
  replace (Z.land buttons (Z.lnot last)) with 0; [done|].
  symmetry. apply Z.bits_inj'. intros i Hi.
  rewrite Z.land_spec, Z.lnot_spec, Z.bits_0 by lia.
  rewrite <- Hsub at 1. rewrite Z.land_spec.
  by destruct (Z.testbit buttons i), (Z.testbit last i).
Qed.

(** X17.  [HandleInput] reacts to A, B and START on the press only: when
    every button that is down was already down at the previous call,
    the clip index, the status message, the instances, the debug and
    pause flags and the library are left as they are (only the D-pad
    rotation may go on), and the buttons are remembered for the next
    call.  Without a controller, or without its status, nothing changes
    at all. *)
Theorem held_buttons_do_not_retrigger (b : Buttons) (buttons : Z)
    (frameTime : float) (w : DemoWorld) :
  Z.land buttons (lastButtons w) = buttons ->
  let w' := HandleInput b (Some (Some buttons)) frameTime w in
  library w' = library w
  /\ foxInstances (demo w') = foxInstances (demo w)
  /\ currentAnimationIndex (demo w') = currentAnimationIndex (demo w)
  /\ statusMessage (demo w') = statusMessage (demo w)
  /\ showDebug (demo w') = showDebug (demo w)
  /\ animationPaused (demo w') = animationPaused (demo w)
  /\ lastButtons w' = uint16 buttons
  /\ HandleInput b None frameTime w = w
  /\ HandleInput b (Some None) frameTime w = w.
Proof.
  intros Hheld w'.
  pose proof (handle_input_parts b buttons frameTime w) as Hparts.
  cbv zeta in Hparts. rewrite (newly_pressed_held _ _ Hheld) in Hparts.
  change (has_button 0 ?x) with false in Hparts.
  destruct Hparts as (Hlib & Hinst & _ & Hidx & Hmsg & Hdebug & Hpaused & Hlast).
  rewrite xorb_false_r in Hdebug, Hpaused.
  subst w'. done.
Qed.

(** An instance: A (mask 4) held over two calls. *)
Lemma held_buttons_do_not_retrigger_witness :
  currentAnimationIndex
    (demo (HandleInput demo_buttons (Some (Some 4)) f1
             (HandleInput demo_buttons (Some (Some 4)) f1 demo_world_start)))
  = currentAnimationIndex
      (demo (HandleInput demo_buttons (Some (Some 4)) f1 demo_world_start)).
Proof.
  destruct (held_buttons_do_not_retrigger demo_buttons 4 f1
              (HandleInput demo_buttons (Some (Some 4)) f1 demo_world_start))
    as (_ & _ & Hidx & _).
  - vm_compute. reflexivity.
  - exact Hidx.
Defined.

Lemma demo_name_in_pool (idx : Z) :
  0 <= idx < demo_animationCount ->
  animationNames !!! Z.to_nat idx = animNames !!! Z.to_nat idx
  /\ snprintf_s 256 ("Animation: " ++ animationNames !!! Z.to_nat idx)
     = ("Animation: " ++ animationNames !!! Z.to_nat idx)%string.
Proof.
  unfold demo_animationCount. intros Hidx.
  assert (Hcases : idx = 0 \/ idx = 1 \/ idx = 2) by lia.
  destruct Hcases as [->|[->| ->]]; by vm_compute.
Qed.

Lemma select_by_demo_name (s : Anim4dcAnimationSystem) (idx : Z) :
  0 <= idx < demo_animationCount ->
  initialized s = true -> well_formed s = true -> pool_named s ->
  Anim4dcSetAnimationByName (Some (animationNames !!! Z.to_nat idx)) s
  = if idx <? animationCount s then (true, select s idx) else (false, s).
Proof.
  intros Hidx Hinit Hwf Hpool.
  destruct (demo_name_in_pool idx Hidx) as [-> _].
  pose proof Hwf as Hwf'. apply well_formed_spec in Hwf' as (_ & _ & Hcount & _).
  unfold demo_animationCount in Hidx.
  unfold Anim4dcSetAnimationByName. rewrite Hinit. cbn [negb].
  destruct (Z.ltb_spec idx (animationCount s)) as [Hlt|Hge].
  - rewrite (name_loop_first s _ _ 0 idx).
    + apply set_animation_in_range; [done | lia].
    + lia.
    + rewrite <- (Hpool (Z.to_nat idx)) by lia. done.
    + intros j Hj Heq. rewrite (Hpool (Z.to_nat j)) in Heq by lia.
      apply pool_names_distinct in Heq; lia.
  - apply name_loop_none. intros j Hj Heq.
    rewrite (Hpool (Z.to_nat j)) in Heq by lia.
    apply pool_names_distinct in Heq; lia.
Qed.

(** X18.  When A goes down and the demo's clip index is 0, 1 or 2,
    [HandleInput] moves the index to the next of the three (2 is
    followed by 0), writes "Animation: " and the new clip's name into
    the status message and copies the new index into the active
    instances.  Over an initialised library whose clips carry the pool
    names, the library selects that clip with its clock at 0 when it
    has one of that index; when it has fewer clips the library stays as
    it is while the demo shows the new index and name. *)
Theorem button_a_cycles_clips (b : Buttons) (buttons : Z) (frameTime : float)
    (w : DemoWorld) :
  has_button (newly_pressed buttons (lastButtons w)) (BUTTON_A b) = true ->
  0 <= currentAnimationIndex (demo w) < demo_animationCount ->
  0 <= activeInstances (demo w) <= Z.of_nat (length (foxInstances (demo w))) ->
  initialized (library w) = true ->
  well_formed (library w) = true ->
  pool_named (library w) ->
  let w' := HandleInput b (Some (Some buttons)) frameTime w in
  let idx := (currentAnimationIndex (demo w) + 1) mod demo_animationCount in
  currentAnimationIndex (demo w') = idx
  /\ statusMessage (demo w')
     = ("Animation: " ++ animationNames !!! Z.to_nat idx)%string
  /\ (forall (j : nat) inst,
        Z.of_nat j < activeInstances (demo w) ->
        foxInstances (demo w') !! j = Some inst -> animationIndex inst = idx)
  /\ (idx < animationCount (library w) ->
      library w' = select (library w) idx
      /\ Anim4dcGetCurrentAnimation (library w') = currentAnimationIndex (demo w')
      /\ Anim4dcGetAnimationTime (library w') = f0)
  /\ (animationCount (library w) <= idx -> library w' = library w).
Proof.
  intros HA Hidx Hactive Hinit Hwf Hpool w' idx.
  pose proof (handle_input_parts b buttons frameTime w) as Hparts.
  cbv zeta in Hparts. rewrite HA in Hparts. fold w' in Hparts.
  destruct Hparts as (Hlib & Hinst & _ & Hcur & Hmsg & _).
  assert (Hnext : Z.rem (int32 (currentAnimationIndex (demo w) + 1))
                        demo_animationCount = idx).
  { subst idx. unfold demo_animationCount in *.
    rewrite int32_small by (unfold INT_MAX; lia).
    apply Z.rem_mod_nonneg; lia. }
  assert (Hrange : 0 <= idx < demo_animationCount)
    by (subst idx; apply Z.mod_pos_bound; unfold demo_animationCount; lia).
  unfold toggle_animation in Hlib, Hinst, Hcur, Hmsg. cbv zeta in *.
  cbn [demo library foxInstances currentAnimationIndex statusMessage]
    in Hlib, Hinst, Hcur, Hmsg.
  rewrite Hnext in Hlib, Hinst, Hcur, Hmsg.
  destruct (demo_name_in_pool idx Hrange) as [_ Hstatus].
  rewrite Hstatus in Hmsg.
  rewrite (select_by_demo_name _ idx Hrange Hinit Hwf Hpool) in Hlib.
  split; [done|]. split; [done|]. split; [|split].
  - intros j inst Hj. rewrite Hinst, assign_loop_map by lia.
    rewrite take_0, drop_0. cbn [app].
    rewrite lookup_app_l by (rewrite length_fmap, length_take; lia).
    rewrite list_lookup_fmap.
    destruct (take _ _ !! j) as [inst0|]; [|done].
    by intros [= <-].
  - intros Hlt. replace (idx <? animationCount (library w)) with true in Hlib
      by lia.
    cbn [snd] in Hlib. rewrite Hlib, Hcur. done.
  - intros Hge. by replace (idx <? animationCount (library w)) with false in Hlib
      by lia.
Qed.

(** An instance: A pressed once over the baked demo library, which has
    the one clip "Survey": the demo moves on to "Walk", the library
    does not. *)
Lemma button_a_cycles_clips_witness :
  let w' := HandleInput demo_buttons (Some (Some 4)) f1 demo_world_start in
  currentAnimationIndex (demo w') = 1
  /\ statusMessage (demo w') = "Animation: Walk"%string
  /\ library w' = library demo_world_start.
Proof.
  intros w'.
  destruct (button_a_cycles_clips demo_buttons 4 f1 demo_world_start)
    as (Hidx & Hmsg & _ & _ & Hsame).
  - vm_compute. reflexivity.
  - vm_compute. split; [discriminate | reflexivity].
  - unfold demo_world_start. cbn [demo activeInstances foxInstances length]. lia.
  - vm_compute. reflexivity.
  - vm_compute. reflexivity.
  - assert (Hcount : animationCount (library demo_world_start) = 1)
      by (vm_compute; reflexivity).
    intros [|j] Hj; [vm_compute; reflexivity|].
    rewrite Hcount in Hj. lia.
  - split; [exact Hidx|]. split; [exact Hmsg|].
    apply Hsame. vm_compute. discriminate.
Defined.

(** ** A step of length zero *)

Lemma fadd_f0_idem (t : float) : fadd (fadd t f0) f0 = fadd t f0.
Proof. destruct t as [s|s| |s m e]; try destruct s; reflexivity. Qed.

Lemma advance_clock_idem (anim : Anim4dcVertexAnimation) (t : float) :
  advance_clock anim (advance_clock anim t f0) f0 = advance_clock anim t f0.
Proof.
  unfold advance_clock. cbv zeta.
  destruct (fleb (duration anim) (fadd t f0)) eqn:Hwrap.
  - change (fadd f0 f0) with f0. by destruct (fleb (duration anim) f0).
  - by rewrite fadd_f0_idem, Hwrap.
Qed.

Lemma interpolate_idem (output v1 v2 : list float) (t : float) (nverts : Z) :
  Anim4dcInterpolateVertices (Anim4dcInterpolateVertices output v1 v2 t nverts)
    v1 v2 t nverts
  = Anim4dcInterpolateVertices output v1 v2 t nverts.
Proof.
  unfold Anim4dcInterpolateVertices. apply list_eq. intros j.
  rewrite !interpolate_loop_lookup, interpolate_loop_length.
  by destruct (decide _).
Qed.

(** X19.  A step of length zero is idempotent: after one
    [Anim4dcUpdateAnimation(0.0f)] a second one changes neither the
    clock nor the interpolation buffer nor anything else, in any state. *)
Theorem zero_step_idempotent (s : Anim4dcAnimationSystem) :
  Anim4dcUpdateAnimation f0 (Anim4dcUpdateAnimation f0 s)
  = Anim4dcUpdateAnimation f0 s.
Proof.
  destruct (negb (initialized s) || (currentAnimation s <? 0)
            || (animationCount s <=? currentAnimation s)) eqn:Hguard.
  { assert (Hidle : Anim4dcUpdateAnimation f0 s = s)
      by (unfold Anim4dcUpdateAnimation; by rewrite Hguard).
    by rewrite !Hidle. }
  destruct (interpolationBuffer s) as [output|] eqn:Hbuf.
  2: { assert (Hidle : Anim4dcUpdateAnimation f0 s = s)
         by (unfold Anim4dcUpdateAnimation; by rewrite Hguard, Hbuf).
       by rewrite !Hidle. }
  set (anim := animations s !!! Z.to_nat (currentAnimation s)).
  destruct (keyframeCount anim <? 2) eqn:Hcount.
  { assert (Hidle : Anim4dcUpdateAnimation f0 s = s).
    { unfold Anim4dcUpdateAnimation. rewrite Hguard, Hbuf. fold anim.
      by rewrite Hcount. }
    by rewrite !Hidle. }
  set (time := advance_clock anim (currentTime s) f0).
  destruct (select_keyframes anim time) as [currentKeyframe nextKeyframe] eqn:Hpair.
  set (t := clamp01 (raw_factor anim time currentKeyframe nextKeyframe)).
  assert (Hstep : Anim4dcUpdateAnimation f0 s
                  = mkSystem (animations s) (animationCount s) (currentAnimation s)
                      time
                      (Some (Anim4dcInterpolateVertices output
                               (vertices_at anim currentKeyframe)
                               (vertices_at anim nextKeyframe) t (vertexCount s)))
                      (vertexCount s) (initialized s)).
  { unfold Anim4dcUpdateAnimation. rewrite Hguard, Hbuf. fold anim.
    rewrite Hcount. cbv zeta. fold time. by rewrite Hpair. }
  rewrite Hstep. unfold Anim4dcUpdateAnimation.
  cbn [initialized currentAnimation animationCount animations
       interpolationBuffer currentTime vertexCount].
  rewrite Hguard. fold anim. rewrite Hcount. cbv zeta.
  subst time. rewrite advance_clock_idem, Hpair. fold t.
  by rewrite interpolate_idem.
Qed.
